(** * PULSE agent runtime: a shallow embedding of [pulse_agents]

    The development follows the Python package file by file:
    - [Py]: the fragment of the Python runtime the sources rely on (values,
      insertion-ordered dictionaries, slicing, [str.lower], [in] on strings,
      [json.dumps], exceptions, [datetime]);
    - [context_manager]: [MemoryEntry] and [ContextManager];
    - [agent]: [Task] and [Agent] with the dispatch path;
    - [kernel_client]: [KernelClient.call];
    - [tool_adapter]: [ToolAdapter.execute];
    - [scenarios]: the concrete stores, agents and tasks the statements use,
      and the vocabulary of the statements.
    The results follow: [memory_store] (working tier, lookups, search,
    embeddings), [scheduler] (dispatch path and queue), [tool_gateway] and
    [rpc_client], each after the lemmas it needs.

    Conventions.  Python [int] is [Z].  Python [float] is modelled by exact
    rationals [Q]; the two places where the sources compute with floats
    ([int(len * 0.1)] and [int((t1 - t0) * 1000)]) are written with the same
    operations over [Q], and the first is compared with its binary64 value
    in [PyFacts.tenth_binary64_agrees].  A [str] is a [string] whose characters are read as
    code points below 256.  A [dict] is an association list in insertion
    order, as CPython keeps it.  A call that may raise returns
    [Py.result A = exc + A].  Clock readings, handler outcomes, subprocess
    outcomes and RPC responses are inputs of the functions that consume
    them. *)

From Stdlib Require Import List String Ascii ZArith QArith Lia Bool Arith.
From Stdlib Require Import DecimalString Permutation Sorted.
From Corelib Require PrimFloat.
Import ListNotations.

#[local] Open Scope string_scope.
#[local] Open Scope Z_scope.

(* ================================================================== *)
(** * The Python fragment *)
(* ================================================================== *)

Module Py.

(** ** Exceptions *)

(** The classes the four modules raise or catch.  [asyncio.TimeoutError] and
    every class but [CancelledError] derive from [Exception];
    [asyncio.CancelledError] derives from [BaseException] only. *)
Inductive exc_class :=
| Exception
| ValueError
| RuntimeError
| AttributeError
| TypeError
| OSError
| AssertionError
| QueueFull
| TimeoutError
| CancelledError.

Record exc := mk_exc { exc_cls : exc_class; exc_str : string }.

(** [isinstance(e, Exception)] *)
Definition is_Exception (e : exc) : bool :=
  match exc_cls e with
  | CancelledError => false
  | _ => true
  end.

(** [isinstance(e, asyncio.TimeoutError)] *)
Definition is_TimeoutError (e : exc) : bool :=
  match exc_cls e with
  | TimeoutError => true
  | _ => false
  end.

Definition result (A : Type) : Type := (exc + A)%type.
Definition ret {A} (a : A) : result A := inr a.
Definition raise {A} (c : exc_class) (m : string) : result A := inl (mk_exc c m).

Definition bind {A B} (r : result A) (k : A -> result B) : result B :=
  match r with
  | inl e => inl e
  | inr a => k a
  end.

Definition raises {A} (r : result A) : bool :=
  match r with inl _ => true | inr _ => false end.

(** ** Values *)

(** [typing.Any], restricted to the data [json.dumps] accepts (floats apart). *)
#[local] Set Warnings "-register-all".
Inductive value :=
| VNone
| VBool (b : bool)
| VInt (n : Z)
| VStr (s : string)
| VList (l : list value)
| VDict (d : list (string * value)).

(** [isinstance(v, dict)] *)
Definition is_dict (v : value) : bool :=
  match v with VDict _ => true | _ => false end.

(** ** Dictionaries with string keys, in insertion order *)

Definition dict (V : Type) : Type := list (string * V).

Section Dict.
Context {V : Type}.

(** [d.get(k)] *)
Fixpoint get (d : dict V) (k : string) : option V :=
  match d with
  | [] => None
  | (k', v) :: d' => if String.eqb k' k then Some v else get d' k
  end.

(** [k in d] *)
Definition mem (d : dict V) (k : string) : bool :=
  match get d k with Some _ => true | None => false end.

(** [d[k] = v]: an existing key keeps its position, a new key goes last. *)
Fixpoint set (d : dict V) (k : string) (v : V) : dict V :=
  match d with
  | [] => [(k, v)]
  | (k', v') :: d' =>
      if String.eqb k' k then (k', v) :: d' else (k', v') :: set d' k v
  end.

(** [del d[k]] for a key that is present (a no-op here otherwise; the
    sources only delete keys they have just read from the dictionary). *)
Fixpoint del (d : dict V) (k : string) : dict V :=
  match d with
  | [] => []
  | (k', v') :: d' =>
      if String.eqb k' k then d' else (k', v') :: del d' k
  end.

Definition keys (d : dict V) : list string := map fst d.
Definition values (d : dict V) : list V := map snd d.
End Dict.

(** ** Sequences *)

(** [xs[:stop]] *)
Definition slice_to {A} (xs : list A) (stop : Z) : list A :=
  let n := Z.of_nat (List.length xs) in
  let stop' := if stop <? 0 then Z.max 0 (n + stop) else stop in
  firstn (Z.to_nat stop') xs.

(** ** Strings *)

Definition lower_char (c : ascii) : ascii :=
  let n := nat_of_ascii c in
  if ((65 <=? n) && (n <=? 90))%nat then ascii_of_nat (n + 32)
  else if ((192 <=? n) && (n <=? 222) && negb (n =? 215))%nat
       then ascii_of_nat (n + 32)
  else c.

(** [s.lower()] *)
Fixpoint lower (s : string) : string :=
  match s with
  | EmptyString => EmptyString
  | String c s' => String (lower_char c) (lower s')
  end.

(** [sub in s] *)
Fixpoint contains (sub s : string) : bool :=
  String.prefix sub s ||
  match s with
  | EmptyString => false
  | String _ s' => contains sub s'
  end.

(** [str(n)] for an [int] *)
Definition str_of_int (n : Z) : string := NilZero.string_of_int (Z.to_int n).

(** [sep.join(xs)] *)
Fixpoint join (sep : string) (xs : list string) : string :=
  match xs with
  | [] => ""
  | [x] => x
  | x :: xs' => x ++ sep ++ join sep xs'
  end.

(** ** [json.dumps] with its default arguments *)

Definition hex_digit (n : nat) : ascii :=
  match n with
  | 0 => "0" | 1 => "1" | 2 => "2" | 3 => "3" | 4 => "4" | 5 => "5"
  | 6 => "6" | 7 => "7" | 8 => "8" | 9 => "9" | 10 => "a" | 11 => "b"
  | 12 => "c" | 13 => "d" | 14 => "e" | _ => "f"
  end%nat%char.

(** One character under [ensure_ascii=True]. *)
Definition json_escape_char (c : ascii) : string :=
  let n := nat_of_ascii c in
  if (n =? 34)%nat then "\" ++ String c ""
  else if (n =? 92)%nat then "\\"
  else if (n =? 10)%nat then "\n"
  else if (n =? 13)%nat then "\r"
  else if (n =? 9)%nat then "\t"
  else if (n =? 8)%nat then "\b"
  else if (n =? 12)%nat then "\f"
  else if ((32 <=? n) && (n <=? 126))%nat then String c ""
  else "\u00" ++ String (hex_digit (n / 16)) (String (hex_digit (n mod 16)) "").

Fixpoint json_escape (s : string) : string :=
  match s with
  | EmptyString => EmptyString
  | String c s' => json_escape_char c ++ json_escape s'
  end.

Definition json_string (s : string) : string :=
  String (ascii_of_nat 34) (json_escape s ++ String (ascii_of_nat 34) "").

Fixpoint json_dumps (v : value) : string :=
  match v with
  | VNone => "null"
  | VBool true => "true"
  | VBool false => "false"
  | VInt n => str_of_int n
  | VStr s => json_string s
  | VList l => "[" ++ join ", " (map json_dumps l) ++ "]"
  | VDict d =>
      "{" ++ join ", "
               (map (fun kv => json_string (fst kv) ++ ": " ++ json_dumps (snd kv)) d)
          ++ "}"
  end.

(** ** [str(v)] and [repr(v)] *)

Definition printable (n : nat) : bool :=
  ((32 <=? n) && (n <=? 126) || (161 <=? n) && negb (n =? 173))%nat.

Definition repr_char (quote : ascii) (c : ascii) : string :=
  let n := nat_of_ascii c in
  if Ascii.eqb c quote || (n =? 92)%nat then String (ascii_of_nat 92) (String c "")
  else if (n =? 9)%nat then "\t"
  else if (n =? 10)%nat then "\n"
  else if (n =? 13)%nat then "\r"
  else if printable n then String c ""
  else "\x" ++ String (hex_digit (n / 16)) (String (hex_digit (n mod 16)) "").

Fixpoint repr_chars (quote : ascii) (s : string) : string :=
  match s with
  | EmptyString => EmptyString
  | String c s' => repr_char quote c ++ repr_chars quote s'
  end.

(** [repr(s)] for a [str]: single quotes, unless [s] holds one and no
    double quote. *)
Definition repr_str (s : string) : string :=
  let single := ascii_of_nat 39 in
  let double := ascii_of_nat 34 in
  let quote :=
    if contains (String single "") s && negb (contains (String double "") s)
    then double else single in
  String quote (repr_chars quote s ++ String quote "").

Fixpoint repr (v : value) : string :=
  match v with
  | VNone => "None"
  | VBool true => "True"
  | VBool false => "False"
  | VInt n => str_of_int n
  | VStr s => repr_str s
  | VList l => "[" ++ join ", " (map repr l) ++ "]"
  | VDict d =>
      "{" ++ join ", " (map (fun kv => repr_str (fst kv) ++ ": " ++ repr (snd kv)) d)
          ++ "}"
  end.

Definition str (v : value) : string :=
  match v with
  | VStr s => s
  | _ => repr v
  end.

(** [type(v).__name__] *)
Definition type_name (v : value) : string :=
  match v with
  | VNone => "NoneType"
  | VBool _ => "bool"
  | VInt _ => "int"
  | VStr _ => "str"
  | VList _ => "list"
  | VDict _ => "dict"
  end.

(** ** [int(x)] for a float: truncation toward zero *)
Definition int_of_float (x : Q) : Z := Z.quot (Qnum x) (Z.pos (Qden x)).

(** ** [datetime] *)

Record datetime := mk_datetime {
  year : Z; month : Z; day : Z;
  hour : Z; minute : Z; second : Z; microsecond : Z
}.

(** [datetime.min] *)
Definition datetime_min : datetime := mk_datetime 1 1 1 0 0 0 0.

(** The tuple naive datetimes are compared by. *)
Definition datetime_tuple (d : datetime) : list Z :=
  [year d; month d; day d; hour d; minute d; second d; microsecond d].

(** Lexicographic [<] on tuples of integers. *)
Fixpoint tuple_ltb (a b : list Z) : bool :=
  match a, b with
  | [], [] => false
  | [], _ :: _ => true
  | _ :: _, [] => false
  | x :: a', y :: b' => (x <? y) || ((x =? y) && tuple_ltb a' b')
  end.

(** [a <= b] on tuples: [b < a] is false. *)
Definition tuple_le (a b : list Z) : Prop := tuple_ltb b a = false.

Definition zero_pad (width : nat) (n : Z) : string :=
  let s := str_of_int n in
  String.concat "" (repeat "0" (width - String.length s)) ++ s.

(** [d.isoformat()] *)
Definition isoformat (d : datetime) : string :=
  zero_pad 4 (year d) ++ "-" ++ zero_pad 2 (month d) ++ "-" ++ zero_pad 2 (day d)
  ++ "T" ++ zero_pad 2 (hour d) ++ ":" ++ zero_pad 2 (minute d) ++ ":"
  ++ zero_pad 2 (second d)
  ++ (if microsecond d =? 0 then "" else "." ++ zero_pad 6 (microsecond d)).

(** ** [bytes] *)

(** [s.encode()]: UTF-8 of a string of code points below 256. *)
Fixpoint encode (s : string) : list Byte.byte :=
  match s with
  | EmptyString => []
  | String c s' =>
      let n := nat_of_ascii c in
      (if (n <? 128)%nat then [byte_of_ascii c]
       else [byte_of_ascii (ascii_of_nat (192 + n / 64));
             byte_of_ascii (ascii_of_nat (128 + n mod 64))])
      ++ encode s'
  end%list.

(** ** Binary64 *)

Import PrimFloat.

(** The one float product the eviction relies on, [n * 0.1], as CPython
    computes it in binary64, to compare with the rational model:
    [tenth_in_binary64 n] holds when the integer part of the binary64
    product is [n // 10]. *)
Fixpoint binary64_of_nat (n : nat) : PrimFloat.float :=
  match n with
  | O => PrimFloat.zero
  | S n' => PrimFloat.add (binary64_of_nat n') PrimFloat.one
  end.

Definition tenth_in_binary64 (n : nat) : bool :=
  let x := PrimFloat.mul (binary64_of_nat n) 0x1.999999999999ap-4%float in
  PrimFloat.leb (binary64_of_nat (n / 10)) x
  && PrimFloat.ltb x (binary64_of_nat (n / 10 + 1)).

End Py.

(* ================================================================== *)
(** * context_manager.py *)
(* ================================================================== *)

Module context_manager.

(** A numpy [float32], kept as its four bytes in buffer order. *)
Record float32 := mk_float32 {
  b0 : Byte.byte; b1 : Byte.byte; b2 : Byte.byte; b3 : Byte.byte
}.

(** What [hashlib.sha256(...).digest()] returns: 32 bytes. *)
Record digest := mk_digest {
  digest_bytes : list Byte.byte;
  digest_size : List.length digest_bytes = 32%nat
}.

(** [np.frombuffer(buf, dtype=np.float32)] *)
Fixpoint frombuffer (buf : list Byte.byte) : Py.result (list float32) :=
  match buf with
  | [] => Py.ret []
  | x0 :: x1 :: x2 :: x3 :: buf' =>
      Py.bind (frombuffer buf') (fun v => Py.ret (mk_float32 x0 x1 x2 x3 :: v))
  | _ => Py.raise Py.ValueError "buffer size must be a multiple of element size"
  end.

(** [faiss.IndexFlatIP]: its dimension and the vectors added so far. *)
Record IndexFlatIP := mk_IndexFlatIP {
  d : Z;
  vectors : list (list float32)
}.

(** [index.add(np.array([x]))]: the binding asserts the dimension. *)
Definition index_add (ix : IndexFlatIP) (x : list float32) : Py.result IndexFlatIP :=
  if Z.of_nat (List.length x) =? d ix
  then Py.ret (mk_IndexFlatIP (d ix) (vectors ix ++ [x])%list)
  else Py.raise Py.AssertionError "".

Record MemoryEntry := mk_MemoryEntry {
  key : string;
  value : Py.value;
  memory_type : string;
  importance : Q;
  access_count : Z;
  created_at : Py.datetime;
  last_accessed : option Py.datetime;
  embedding : option (list float32);
  tags : list string
}.

(** One element of the list [search] returns. *)
Record SearchResult := mk_SearchResult {
  r_key : string;
  r_value : Py.value;
  r_score : Q;
  r_memory_type : string
}.

Record ContextManager := mk_ContextManager {
  embedding_dim : Z;
  max_short_term : Z;
  max_long_term : Z;
  storage_path : option string;
  _short_term : Py.dict MemoryEntry;
  _long_term : Py.dict MemoryEntry;
  _index : option IndexFlatIP;
  _id_to_key : list (Z * string);
  _working_context : Py.dict Py.value
}.

Definition with_short_term (self : ContextManager) (st : Py.dict MemoryEntry) :=
  mk_ContextManager (embedding_dim self) (max_short_term self) (max_long_term self)
    (storage_path self) st (_long_term self) (_index self) (_id_to_key self)
    (_working_context self).

Definition with_long_term (self : ContextManager) (lt : Py.dict MemoryEntry) :=
  mk_ContextManager (embedding_dim self) (max_short_term self) (max_long_term self)
    (storage_path self) (_short_term self) lt (_index self) (_id_to_key self)
    (_working_context self).

Definition with_index (self : ContextManager) (ix : option IndexFlatIP)
    (ids : list (Z * string)) :=
  mk_ContextManager (embedding_dim self) (max_short_term self) (max_long_term self)
    (storage_path self) (_short_term self) (_long_term self) ix ids
    (_working_context self).

(** [entry.access_count += 1; entry.last_accessed = datetime.utcnow()] *)
Definition touch (entry : MemoryEntry) (now : Py.datetime) : MemoryEntry :=
  mk_MemoryEntry (key entry) (value entry) (memory_type entry) (importance entry)
    (access_count entry + 1) (created_at entry) (Some now) (embedding entry)
    (tags entry).

Definition empty_working_context : Py.dict Py.value :=
  [("session_id", Py.VNone); ("current_task", Py.VNone);
   ("file_changes", Py.VDict []); ("decisions", Py.VList [])].

(** The sort key of [_evict_short_term]:
    [(x[1].access_count, x[1].last_accessed or datetime.min)]. *)
Definition evict_key (x : string * MemoryEntry) : list Z :=
  access_count (snd x)
  :: Py.datetime_tuple
       (match last_accessed (snd x) with
        | Some t => t
        | None => Py.datetime_min
        end).

(** [a] ranks no later than [b] in the eviction order. *)
Definition rank_le (a b : string * MemoryEntry) : Prop :=
  Py.tuple_le (evict_key a) (evict_key b).

(** [sorted(items, key=evict_key)]: stable, ascending. *)
Fixpoint insert_sorted (x : string * MemoryEntry) (l : list (string * MemoryEntry)) :=
  match l with
  | [] => [x]
  | y :: l' =>
      if Py.tuple_ltb (evict_key y) (evict_key x)
      then y :: insert_sorted x l'
      else x :: y :: l'
  end.

Definition sorted (l : list (string * MemoryEntry)) : list (string * MemoryEntry) :=
  fold_right insert_sorted [] l.

(** [int(len(sorted_entries) * 0.1)] *)
Definition to_remove (sorted_entries : list (string * MemoryEntry)) : Z :=
  Py.int_of_float (inject_Z (Z.of_nat (List.length sorted_entries)) * (1 # 10))%Q.

Definition _evict_short_term (self : ContextManager) : ContextManager :=
  let sorted_entries := sorted (_short_term self) in
  with_short_term self
    (fold_left (fun st kv => Py.del st (fst kv))
       (Py.slice_to sorted_entries (to_remove sorted_entries))
       (_short_term self)).

Definition set_working (self : ContextManager) (k : string) (v : Py.value)
    (now : Py.datetime) : ContextManager :=
  let self1 :=
    with_short_term self
      (Py.set (_short_term self) k
         (mk_MemoryEntry k v "working" (1 # 2) 0 now None None [])) in
  if Z.of_nat (List.length (_short_term self1)) >? max_short_term self1
  then _evict_short_term self1
  else self1.

Definition get_working (self : ContextManager) (k : string) (now : Py.datetime)
    : Py.value * ContextManager :=
  match Py.get (_short_term self) k with
  | Some entry =>
      (value entry,
       with_short_term self (Py.set (_short_term self) k (touch entry now)))
  | None => (Py.VNone, self)
  end.

Definition retrieve (self : ContextManager) (k : string) (now : Py.datetime)
    : Py.value * ContextManager :=
  match Py.get (_long_term self) k with
  | Some entry =>
      (value entry,
       with_long_term self (Py.set (_long_term self) k (touch entry now)))
  | None => (Py.VNone, self)
  end.

Definition _keyword_search (self : ContextManager) (query : string) (limit : Z)
    : list SearchResult :=
  let query_lower := Py.lower query in
  let results :=
    flat_map
      (fun entry =>
         let value_str := Py.lower (Py.json_dumps (value entry)) in
         if Py.contains query_lower value_str
            || Py.contains query_lower (Py.lower (key entry))
         then [mk_SearchResult (key entry) (value entry) (1 # 2) (memory_type entry)]
         else [])
      (Py.values (_long_term self)) in
  Py.slice_to results limit.

(** [d.get(i)] and [d[i] = k] for the slot-to-key dictionary. *)
Fixpoint id_get (m : list (Z * string)) (i : Z) : option string :=
  match m with
  | [] => None
  | (j, k) :: m' => if j =? i then Some k else id_get m' i
  end.

Fixpoint id_set (m : list (Z * string)) (i : Z) (k : string) : list (Z * string) :=
  match m with
  | [] => [(i, k)]
  | (j, k') :: m' => if j =? i then (j, k) :: m' else (j, k') :: id_set m' i k
  end.

(** The libraries behind the similarity capability are inputs: whether
    [import faiss] succeeded, SHA-256, float32 arithmetic and the index's
    nearest-neighbour search. *)
Section Similarity.
Variable FAISS_AVAILABLE : bool.
Variable sha256 : list Byte.byte -> digest.
Variable norm : list float32 -> float32.
Variable divide : float32 -> float32 -> float32.
Variable index_search : IndexFlatIP -> list float32 -> Z -> Py.result (list (Q * Z)).

(** [ContextManager(embedding_dim, max_short_term, max_long_term, storage_path)] *)
Definition __init__ (embedding_dim max_short_term max_long_term : Z)
    (storage_path : option string) : ContextManager :=
  mk_ContextManager embedding_dim max_short_term max_long_term storage_path
    [] []
    (if FAISS_AVAILABLE then Some (mk_IndexFlatIP embedding_dim []) else None)
    [] empty_working_context.

Definition _compute_embedding (self : ContextManager) (text : string)
    : Py.result (option (list float32)) :=
  if negb FAISS_AVAILABLE then Py.ret None
  else
    let hash_bytes := digest_bytes (sha256 (Py.encode text)) in
    Py.bind (frombuffer (Py.slice_to hash_bytes (embedding_dim self * 4)))
      (fun embedding =>
         Py.ret (Some (map (fun x => divide x (norm embedding)) embedding))).

(** [store]: the state it leaves and the exception it raised, if any.  The
    write to [storage_path] is on the file system and is left out. *)
Definition store (self : ContextManager) (k : string) (v : Py.value)
    (memory_type : string) (importance : Q) (now : Py.datetime)
    : ContextManager * option Py.exc :=
  let value_str := match v with Py.VStr s => s | _ => Py.json_dumps v end in
  match _compute_embedding self value_str with
  | inl e => (self, Some e)
  | inr embedding =>
      let entry :=
        mk_MemoryEntry k v memory_type importance 0 now None embedding [] in
      let self1 := with_long_term self (Py.set (_long_term self) k entry) in
      match _index self1, embedding with
      | Some ix, Some emb =>
          let idx := Z.of_nat (List.length (_id_to_key self1)) in
          match index_add ix emb with
          | inl e => (self1, Some e)
          | inr ix' =>
              (with_index self1 (Some ix') (id_set (_id_to_key self1) idx k), None)
          end
      | _, _ => (self1, None)
      end
  end.

Definition search (self : ContextManager) (query : string) (limit : Z)
    : Py.result (list SearchResult) :=
  match _index self with
  | None => Py.ret (_keyword_search self query limit)
  | Some ix =>
      Py.bind (_compute_embedding self query) (fun query_embedding =>
      match query_embedding with
      | None => Py.ret []
      | Some q =>
          Py.bind (index_search ix q limit) (fun hits =>
          Py.ret
            (flat_map
               (fun hit : Q * Z =>
                  match id_get (_id_to_key self) (snd hit) with
                  | Some k =>
                      match Py.get (_long_term self) k with
                      | Some entry =>
                          [mk_SearchResult k (value entry) (fst hit)
                             (memory_type entry)]
                      | None => []
                      end
                  | None => []
                  end)
               hits))
      end)
  end.
End Similarity.

(** ** The working context

    The four operations below write one key of [_working_context]; the two
    that record go through the dict or list that key holds.  [None] stands
    for the exception such a statement raises when the key is missing
    ([KeyError]) or holds something else ([TypeError], [AttributeError]). *)

Definition with_working_context (self : ContextManager)
    (wc : Py.dict Py.value) :=
  mk_ContextManager (embedding_dim self) (max_short_term self) (max_long_term self)
    (storage_path self) (_short_term self) (_long_term self) (_index self)
    (_id_to_key self) wc.

Definition set_session (self : ContextManager) (session_id : string)
    : ContextManager :=
  with_working_context self
    (Py.set (_working_context self) "session_id" (Py.VStr session_id)).

Definition set_current_task (self : ContextManager) (task : Py.dict Py.value)
    : ContextManager :=
  with_working_context self
    (Py.set (_working_context self) "current_task" (Py.VDict task)).

Definition record_file_change (self : ContextManager)
    (path change_type diff : string) (now : Py.datetime)
    : option ContextManager :=
  match Py.get (_working_context self) "file_changes" with
  | Some (Py.VDict file_changes) =>
      Some
        (with_working_context self
           (Py.set (_working_context self) "file_changes"
              (Py.VDict
                 (Py.set file_changes path
                    (Py.VDict
                       [("type", Py.VStr change_type);
                        ("diff", Py.VStr diff);
                        ("timestamp", Py.VStr (Py.isoformat now))])))))
  | _ => None
  end.

Definition record_decision (self : ContextManager) (decision reason : string)
    (now : Py.datetime) : option ContextManager :=
  match Py.get (_working_context self) "decisions" with
  | Some (Py.VList decisions) =>
      Some
        (with_working_context self
           (Py.set (_working_context self) "decisions"
              (Py.VList
                 (decisions
                    ++ [Py.VDict
                          [("decision", Py.VStr decision);
                           ("reason", Py.VStr reason);
                           ("timestamp", Py.VStr (Py.isoformat now))]])%list)))
  | _ => None
  end.

(** [get_working_context]: the context as it is when the call returns. *)
Definition get_working_context (self : ContextManager) : Py.dict Py.value :=
  _working_context self.

Definition clear_working_context (self : ContextManager) : ContextManager :=
  with_working_context self empty_working_context.

End context_manager.

(* ================================================================== *)
(** * kernel_client.py *)
(* ================================================================== *)

Module kernel_client.

(** The two connection handles; what matters is whether they are held. *)
Inductive WebSocket := ws_connection (url : string).
Inductive ClientSession := http_session.

Record KernelClient := mk_KernelClient {
  kernel_url : string;
  http_url : string;
  _ws : option WebSocket;
  _session : option ClientSession;
  _request_id : Z
}.

Definition __init__ (kernel_url http_url : string) : KernelClient :=
  mk_KernelClient kernel_url http_url None None 0.

(** [connect]: [websockets.connect] either hands back a connection or raises. *)
Definition connect (self : KernelClient) (refused : option Py.exc)
    : KernelClient * option Py.exc :=
  match refused with
  | Some e => (self, Some e)
  | None =>
      (mk_KernelClient (kernel_url self) (http_url self)
         (Some (ws_connection (kernel_url self))) (Some http_session)
         (_request_id self),
       None)
  end.

Definition disconnect (self : KernelClient) : KernelClient :=
  mk_KernelClient (kernel_url self) (http_url self) None None (_request_id self).

Definition _next_id (self : KernelClient) : Z * KernelClient :=
  let self1 :=
    mk_KernelClient (kernel_url self) (http_url self) (_ws self) (_session self)
      (_request_id self + 1) in
  (_request_id self1, self1).

(** The request [call] posts. *)
Definition request (request_id : Z) (method : string)
    (params : option (Py.dict Py.value)) : Py.value :=
  Py.VDict
    [("jsonrpc", Py.VStr "2.0");
     ("id", Py.VInt request_id);
     ("method", Py.VStr method);
     ("params", Py.VDict (match params with
                          | Some (_ :: _ as p) => p
                          | _ => []
                          end))].

(** What [call] does with the decoded response body. *)
Definition read_response (result : Py.value) : Py.result Py.value :=
  match result with
  | Py.VDict r =>
      match Py.get r "error" with
      | Some (Py.VDict err) =>
          Py.raise Py.Exception
            (Py.str (match Py.get err "message" with
                     | Some m => m
                     | None => Py.VStr "RPC error"
                     end))
      | Some err =>
          Py.raise Py.AttributeError
            ("'" ++ Py.type_name err ++ "' object has no attribute 'get'")%string
      | None =>
          Py.ret (match Py.get r "result" with
                  | Some v => v
                  | None => Py.VNone
                  end)
      end
  | Py.VList l =>
      if existsb (fun x => match x with
                           | Py.VStr s => String.eqb s "error"
                           | _ => false
                           end) l
      then Py.raise Py.TypeError "list indices must be integers or slices, not str"
      else Py.raise Py.AttributeError "'list' object has no attribute 'get'"
  | Py.VStr s =>
      if Py.contains "error" s
      then Py.raise Py.TypeError "string indices must be integers"
      else Py.raise Py.AttributeError "'str' object has no attribute 'get'"
  | _ =>
      Py.raise Py.TypeError
        ("argument of type '" ++ Py.type_name result ++ "' is not iterable")%string
  end.

(** [call]: the client afterwards, the request it posted (if it got that far)
    and what the caller sees.  [post url body] is the kernel's answer to the
    HTTP request: the decoded JSON body, or the exception the transport
    raised. *)
Definition call (self : KernelClient) (method : string)
    (params : option (Py.dict Py.value))
    (post : string -> Py.value -> Py.result Py.value)
    : KernelClient * option Py.value * Py.result Py.value :=
  match _session self with
  | None => (self, None, Py.raise Py.RuntimeError "Not connected to kernel")
  | Some _ =>
      let '(request_id, self1) := _next_id self in
      let req := request request_id method params in
      (self1, Some req,
       Py.bind (post (http_url self1 ++ "/rpc")%string req) read_response)
  end.

(** [submit_event] *)
Definition submit_event (self : KernelClient) (event_type source_id : string)
    (payload : Py.dict Py.value)
    (post : string -> Py.value -> Py.result Py.value)
    : KernelClient * option Py.value * Py.result Py.value :=
  call self "event.submit"
    (Some [("event_type", Py.VStr event_type);
           ("source_id", Py.VStr source_id);
           ("payload", Py.VDict payload)])
    post.

(** [send_heartbeat]: [stamp] is the reading of the event loop's clock, as the
    JSON value it is sent as; the method returns [None]. *)
Definition send_heartbeat (self : KernelClient) (agent_id : string)
    (stamp : Py.value) (post : string -> Py.value -> Py.result Py.value)
    : KernelClient * option Py.value * Py.result Py.value :=
  let '(self1, posted, r) :=
    submit_event self "AgentHeartbeat" agent_id [("timestamp", stamp)] post in
  (self1, posted, Py.bind r (fun _ => Py.ret Py.VNone)).

(** [get_status], [get_task_status] and [cancel_task] *)
Definition get_status (self : KernelClient)
    (post : string -> Py.value -> Py.result Py.value) :=
  call self "kernel.status" None post.

Definition get_task_status (self : KernelClient) (task_id : string)
    (post : string -> Py.value -> Py.result Py.value) :=
  call self "task.status" (Some [("task_id", Py.VStr task_id)]) post.

Definition cancel_task (self : KernelClient) (task_id : string)
    (post : string -> Py.value -> Py.result Py.value) :=
  call self "task.cancel" (Some [("task_id", Py.VStr task_id)]) post.

(** What a caller does with a client, one step at a time. *)
Inductive step :=
| do_connect (refused : option Py.exc)
| do_disconnect
| do_call (method : string) (params : option (Py.dict Py.value))
    (post : string -> Py.value -> Py.result Py.value).

(** The client after the steps, and the requests it posted, in order. *)
Fixpoint run (self : KernelClient) (steps : list step)
    : KernelClient * list Py.value :=
  match steps with
  | [] => (self, [])
  | do_connect refused :: steps' => run (fst (connect self refused)) steps'
  | do_disconnect :: steps' => run (disconnect self) steps'
  | do_call method params post :: steps' =>
      let '(self1, posted, _) := call self method params post in
      let '(self2, more) := run self1 steps' in
      (self2, match posted with Some req => req :: more | None => more end)
  end.

(** [data.get(key) == event_type] for a decoded message. *)
Definition is_event (event_type : string) (d : Py.dict Py.value) : bool :=
  match Py.get d "event_type" with
  | Some (Py.VStr s) => String.eqb s event_type
  | _ => false
  end.

(** The receive loop of [subscribe] over the messages that arrive, each given
    by what [json.loads] makes of it: the messages handed to the handler, in
    order, and the exception that ended the loop, if any.  [handler] tells
    whether the callback raises. *)
Fixpoint receive (event_type : string) (handler : Py.value -> option Py.exc)
    (feed : list (Py.result Py.value)) : list Py.value * option Py.exc :=
  match feed with
  | [] => ([], None)
  | inl e :: _ => ([], Some e)
  | inr (Py.VDict d as data) :: feed' =>
      if is_event event_type d then
        match handler data with
        | Some e => ([data], Some e)
        | None =>
            let '(delivered, ended) := receive event_type handler feed' in
            (data :: delivered, ended)
        end
      else receive event_type handler feed'
  | inr data :: _ =>
      ([],
       Some (Py.mk_exc Py.AttributeError
               ("'" ++ Py.type_name data ++ "' object has no attribute 'get'")))
  end.

(** [subscribe]: the text sent to the kernel (if any), the messages handed to
    the handler, and the exception raised, if any.  [send] tells whether the
    socket accepts the text; [closed] is how the feed ends after its last
    message, an orderly close or an exception. *)
Definition subscribe (self : KernelClient) (event_type : string)
    (handler : Py.value -> option Py.exc) (send : string -> option Py.exc)
    (feed : list (Py.result Py.value)) (closed : option Py.exc)
    : option string * list Py.value * option Py.exc :=
  match _ws self with
  | None => (None, [], Some (Py.mk_exc Py.RuntimeError "WebSocket not connected"))
  | Some _ =>
      let text :=
        Py.json_dumps
          (Py.VDict [("type", Py.VStr "subscribe");
                     ("event_type", Py.VStr event_type)]) in
      match send text with
      | Some e => (Some text, [], Some e)
      | None =>
          let '(delivered, ended) := receive event_type handler feed in
          (Some text, delivered,
           match ended with Some e => Some e | None => closed end)
      end
  end.

End kernel_client.

(* ================================================================== *)
(** * agent.py *)
(* ================================================================== *)

Module agent.

Inductive AgentStatus := IDLE | PLANNING | EXECUTING | WAITING | ERROR.
Inductive AgentHealth := HEALTHY | DEGRADED | UNHEALTHY.
Inductive AgentType := REACTIVE | DELIBERATIVE | HYBRID.

Definition AgentStatus_value (s : AgentStatus) : string :=
  match s with
  | IDLE => "idle" | PLANNING => "planning" | EXECUTING => "executing"
  | WAITING => "waiting" | ERROR => "error"
  end.

Definition AgentHealth_value (h : AgentHealth) : string :=
  match h with
  | HEALTHY => "healthy" | DEGRADED => "degraded" | UNHEALTHY => "unhealthy"
  end.

Module AgentConfig.
Record t := mk {
  max_concurrent_tasks : Z;
  heartbeat_interval_ms : Z;
  task_timeout_ms : Z;
  max_retries : Z;
  backoff_multiplier : Q;
  initial_delay_ms : Z;
  max_delay_ms : Z
}.
Definition default : t := mk 1 30000 300000 3 2 1000 30000.
End AgentConfig.

Module Task.
Record t := mk {
  id : string;
  name : string;
  description : option string;
  task_type : string;
  priority : Z;
  status : string;
  payload : Py.dict Py.value;
  source_id : option string;
  dependencies : list string;
  timeout_ms : Z;
  retry_count : Z;
  max_retries : Z;
  result : option (Py.dict Py.value);
  error : option string;
  created_at : Py.datetime;
  started_at : option Py.datetime;
  completed_at : option Py.datetime
}.

(** [Task(id=..., name=..., task_type=...)] with every other field at its
    default; the generated id and the creation time are given. *)
Definition new (id name task_type : string) (created_at : Py.datetime) : t :=
  mk id name None task_type 5 "pending" [] None [] 300000 0 3 None None
    created_at None None.

(** [task.started_at = now; task.status = "running"] *)
Definition begin (task : t) (now : Py.datetime) : t :=
  mk (id task) (name task) (description task) (task_type task) (priority task)
    "running" (payload task) (source_id task) (dependencies task)
    (timeout_ms task) (retry_count task) (max_retries task) (result task)
    (error task) (created_at task) (Some now) (completed_at task).

(** [task.result = r; task.status = "completed"; task.completed_at = now] *)
Definition complete (task : t) (r : Py.dict Py.value) (now : Py.datetime) : t :=
  mk (id task) (name task) (description task) (task_type task) (priority task)
    "completed" (payload task) (source_id task) (dependencies task)
    (timeout_ms task) (retry_count task) (max_retries task) (Some r)
    (error task) (created_at task) (started_at task) (Some now).

(** [task.error = msg; task.status = "failed"] *)
Definition fail (task : t) (msg : string) : t :=
  mk (id task) (name task) (description task) (task_type task) (priority task)
    "failed" (payload task) (source_id task) (dependencies task)
    (timeout_ms task) (retry_count task) (max_retries task) (result task)
    (Some msg) (created_at task) (started_at task) (completed_at task).
End Task.

(** [asyncio.Queue] *)
Module Queue.
Record t := mk { maxsize : Z; items : list Task.t }.

(** [asyncio.Queue()] *)
Definition new : t := mk 0 [].

Definition full (q : t) : bool :=
  if maxsize q <=? 0 then false
  else Z.of_nat (List.length (items q)) >=? maxsize q.

Definition put_nowait (q : t) (item : Task.t) : Py.result t :=
  if full q then Py.raise Py.QueueFull ""
  else Py.ret (mk (maxsize q) (items q ++ [item])%list).
End Queue.

(** A registered handler: one of the agent's own bound methods, or a callable
    of the caller, given by what awaiting [handler(task)] yields when it is
    left to finish. *)
Inductive handler :=
| _handle_ping
| _handle_status
| _handle_execute
| callable (f : Task.t -> Py.result Py.value).

Module Agent.
Record t := mk {
  id : string;
  name : string;
  agent_type : AgentType;
  config : AgentConfig.t;
  kernel_client : option kernel_client.KernelClient;
  status : AgentStatus;
  health : AgentHealth;
  current_task : option Task.t;
  task_count : Z;
  success_count : Z;
  failure_count : Z;
  last_heartbeat : option Py.datetime;
  last_error : option string;
  _state : Py.dict Py.value;
  _handlers : Py.dict handler;
  _running : bool;
  _task_queue : Queue.t
}.

Definition _register_default_handlers : Py.dict handler :=
  Py.set (Py.set (Py.set [] "ping" _handle_ping) "status" _handle_status)
    "execute" _handle_execute.

(** [Agent(name, agent_type, config, kernel_client)]; the generated id is
    given. *)
Definition __init__ (id name : string) (agent_type : AgentType)
    (config : option AgentConfig.t)
    (kernel_client : option kernel_client.KernelClient) : t :=
  mk id name agent_type
    (match config with Some c => c | None => AgentConfig.default end)
    kernel_client IDLE HEALTHY None 0 0 0 None None []
    _register_default_handlers false Queue.new.

Definition with_handlers (self : t) (h : Py.dict handler) : t :=
  mk (id self) (name self) (agent_type self) (config self) (kernel_client self)
    (status self) (health self) (current_task self) (task_count self)
    (success_count self) (failure_count self) (last_heartbeat self)
    (last_error self) (_state self) h (_running self) (_task_queue self).

Definition with_running (self : t) (b : bool) : t :=
  mk (id self) (name self) (agent_type self) (config self) (kernel_client self)
    (status self) (health self) (current_task self) (task_count self)
    (success_count self) (failure_count self) (last_heartbeat self)
    (last_error self) (_state self) (_handlers self) b (_task_queue self).

Definition with_queue (self : t) (q : Queue.t) : t :=
  mk (id self) (name self) (agent_type self) (config self) (kernel_client self)
    (status self) (health self) (current_task self) (task_count self)
    (success_count self) (failure_count self) (last_heartbeat self)
    (last_error self) (_state self) (_handlers self) (_running self) q.

(** [self.status = s; self.current_task = c] *)
Definition with_current (self : t) (s : AgentStatus) (c : option Task.t) : t :=
  mk (id self) (name self) (agent_type self) (config self) (kernel_client self)
    s (health self) c (task_count self)
    (success_count self) (failure_count self) (last_heartbeat self)
    (last_error self) (_state self) (_handlers self) (_running self)
    (_task_queue self).

(** [self.success_count += 1] *)
Definition count_success (self : t) : t :=
  mk (id self) (name self) (agent_type self) (config self) (kernel_client self)
    (status self) (health self) (current_task self) (task_count self)
    (success_count self + 1) (failure_count self) (last_heartbeat self)
    (last_error self) (_state self) (_handlers self) (_running self)
    (_task_queue self).

(** [self.failure_count += 1; self.last_error = msg] *)
Definition count_failure (self : t) (msg : option string) : t :=
  mk (id self) (name self) (agent_type self) (config self) (kernel_client self)
    (status self) (health self) (current_task self) (task_count self)
    (success_count self) (failure_count self + 1) (last_heartbeat self)
    msg (_state self) (_handlers self) (_running self) (_task_queue self).

(** The [finally] block of [_process_task]. *)
Definition finalize (self : t) : t :=
  mk (id self) (name self) (agent_type self) (config self) (kernel_client self)
    IDLE (health self) None (task_count self + 1)
    (success_count self) (failure_count self) (last_heartbeat self)
    (last_error self) (_state self) (_handlers self) (_running self)
    (_task_queue self).

Definition register_handler (self : t) (task_type : string) (h : handler) : t :=
  with_handlers self (Py.set (_handlers self) task_type h).

(** Awaiting [handler(task)] to its end, at time [now]. *)
Definition run_handler (self : t) (h : handler) (task : Task.t)
    (now : Py.datetime) : Py.result Py.value :=
  match h with
  | _handle_ping =>
      Py.ret (Py.VDict [("pong", Py.VBool true);
                        ("timestamp", Py.VStr (Py.isoformat now))])
  | _handle_status =>
      Py.ret (Py.VDict [("id", Py.VStr (id self));
                        ("name", Py.VStr (name self));
                        ("status", Py.VStr (AgentStatus_value (status self)));
                        ("health", Py.VStr (AgentHealth_value (health self)));
                        ("task_count", Py.VInt (task_count self));
                        ("success_count", Py.VInt (success_count self));
                        ("failure_count", Py.VInt (failure_count self))])
  | _handle_execute =>
      Py.ret (Py.VDict [("executed", Py.VBool true);
                        ("task_id", Py.VStr (Task.id task))])
  | callable f => f task
  end.

(** What one dispatch needs from outside: the three clock readings and
    whether the handler finishes before [task.timeout_ms] has passed. *)
Record dispatch := mk_dispatch {
  t_started : Py.datetime;
  t_handler : Py.datetime;
  t_completed : Py.datetime;
  in_time : bool
}.

(** The body of the [try] block up to the awaited result. *)
Definition await_handler (self : t) (task : Task.t) (env : dispatch)
    : Py.result Py.value :=
  match Py.get (_handlers self) (Task.task_type task) with
  | None =>
      Py.raise Py.ValueError
        ("No handler for task type: " ++ Task.task_type task)%string
  | Some h =>
      if in_time env then run_handler self h task (t_handler env)
      else Py.raise Py.TimeoutError ""
  end.

(** [_process_task]: the agent and the task afterwards, and the exception
    that leaves the method, if any. *)
Definition _process_task (self : t) (task : Task.t) (env : dispatch)
    : t * Task.t * option Py.exc :=
  let task1 := Task.begin task (t_started env) in
  let self1 := with_current self EXECUTING (Some task1) in
  match await_handler self1 task1 env with
  | inr r =>
      let task2 :=
        Task.complete task1
          (match r with Py.VDict d => d | _ => [("result", r)] end)
          (t_completed env) in
      (finalize (count_success self1), task2, None)
  | inl e =>
      if Py.is_TimeoutError e then
        let task2 :=
          Task.fail task1
            ("Task timed out after " ++ Py.str_of_int (Task.timeout_ms task1)
               ++ "ms")%string in
        (finalize (count_failure self1 (Task.error task2)), task2, None)
      else if Py.is_Exception e then
        let task2 := Task.fail task1 (Py.exc_str e) in
        (finalize (count_failure self1 (Task.error task2)), task2, None)
      else (finalize self1, task1, Some e)
  end.

Definition submit_task (self : t) (task : Task.t) : Py.result t :=
  Py.bind (Queue.put_nowait (_task_queue self) task)
    (fun q => Py.ret (with_queue self q)).

Definition stop (self : t) : t := with_running self false.

(** One turn of the [while self._running] loop of [_process_loop].  Other
    coroutines run only while the loop awaits: the tasks they submit and
    whether one of them calls [stop] during this turn are given. *)
Record turn := mk_turn {
  submitted : list Task.t;
  env : dispatch;
  stop_called : bool
}.

Definition submit_all (self : t) (tasks : list Task.t) : t :=
  fold_left
    (fun a task => match submit_task a task with inr a' => a' | inl _ => a end)
    tasks self.

(** The agent after the turn, the task it finished (if it took one from the
    queue) and the exception that ends the loop, if any. *)
Definition loop_turn (self : t) (w : turn) : t * option Task.t * option Py.exc :=
  let self0 := submit_all self (submitted w) in
  let halt (a : t) := if stop_called w then stop a else a in
  match Queue.items (_task_queue self0) with
  | [] => (halt self0, None, None)
  | task :: rest =>
      let self1 := with_queue self0 (Queue.mk (Queue.maxsize (_task_queue self0)) rest) in
      let '(self2, task2, escaped) := _process_task self1 task (env w) in
      match escaped with
      | Some e =>
          if Py.is_Exception e then (halt self2, Some task2, None)
          else (halt self2, Some task2, Some e)
      | None => (halt self2, Some task2, None)
      end
  end.

(** [_process_loop] over the turns the schedule gives it: the agent at the
    end, the tasks finished in order, and the exception that ended the loop
    early, if any. *)
Fixpoint _process_loop (self : t) (turns : list turn)
    : t * list Task.t * option Py.exc :=
  match turns with
  | [] => (self, [], None)
  | w :: turns' =>
      if _running self then
        let '(self1, finished, escaped) := loop_turn self w in
        let done := match finished with Some task => [task] | None => [] end in
        match escaped with
        | Some e => (self1, done, Some e)
        | None =>
            let '(self2, more, escaped') := _process_loop self1 turns' in
            (self2, (done ++ more)%list, escaped')
        end
      else (self, [], None)
  end.

(** [start], without the heartbeat loop. *)
Definition start (self : t) (turns : list turn) :=
  _process_loop (with_running self true) turns.

(** [agent_type.value] *)
Definition AgentType_value (a : AgentType) : string :=
  match a with
  | REACTIVE => "reactive" | DELIBERATIVE => "deliberative" | HYBRID => "hybrid"
  end.

Definition opt_str (o : option string) : Py.value :=
  match o with Some x => Py.VStr x | None => Py.VNone end.

(** [get_state] *)
Definition get_state (self : t) : Py.dict Py.value :=
  [("id", Py.VStr (id self));
   ("name", Py.VStr (name self));
   ("type", Py.VStr (AgentType_value (agent_type self)));
   ("status", Py.VStr (AgentStatus_value (status self)));
   ("health", Py.VStr (AgentHealth_value (health self)));
   ("task_count", Py.VInt (task_count self));
   ("success_count", Py.VInt (success_count self));
   ("failure_count", Py.VInt (failure_count self));
   ("current_task", opt_str (option_map Task.id (current_task self)));
   ("last_heartbeat", opt_str (option_map Py.isoformat (last_heartbeat self)));
   ("last_error", opt_str (last_error self))].

(** [d.update(other)] *)
Definition update (d other : Py.dict Py.value) : Py.dict Py.value :=
  fold_left (fun acc kv => Py.set acc (fst kv) (snd kv)) other d.

(** [set_state] *)
Definition set_state (self : t) (state : Py.dict Py.value) : t :=
  mk (id self) (name self) (agent_type self) (config self) (kernel_client self)
    (status self) (health self) (current_task self) (task_count self)
    (success_count self) (failure_count self) (last_heartbeat self)
    (last_error self) (update (_state self) state) (_handlers self)
    (_running self) (_task_queue self).

(** [self.last_heartbeat = now], and the client as a heartbeat call left it. *)
Definition with_heartbeat (self : t) (now : Py.datetime)
    (client : option kernel_client.KernelClient) : t :=
  mk (id self) (name self) (agent_type self) (config self) client
    (status self) (health self) (current_task self) (task_count self)
    (success_count self) (failure_count self) (Some now)
    (last_error self) (_state self) (_handlers self) (_running self)
    (_task_queue self).

(** One turn of [_heartbeat_loop]: the clock reading, the event loop's time
    as it is sent, the kernel's answer to the request, and whether [stop] is
    called during the sleep that ends the turn. *)
Record beat := mk_beat {
  b_now : Py.datetime;
  b_stamp : Py.value;
  b_post : string -> Py.value -> Py.result Py.value;
  b_stop : bool
}.

(** The agent after the turn, the request it posted (if any), and the
    exception that ends the loop, if any. *)
Definition heartbeat_turn (self : t) (b : beat)
    : t * option Py.value * option Py.exc :=
  let halt (a : t) := if b_stop b then stop a else a in
  match kernel_client self with
  | None => (halt (with_heartbeat self (b_now b) None), None, None)
  | Some client =>
      let '(client1, posted, r) :=
        kernel_client.send_heartbeat client (id self) (b_stamp b) (b_post b) in
      let self1 := with_heartbeat self (b_now b) (Some client1) in
      match r with
      | inl e =>
          if Py.is_Exception e then (halt self1, posted, None)
          else (self1, posted, Some e)
      | inr _ => (halt self1, posted, None)
      end
  end.

(** [_heartbeat_loop] over the turns the schedule gives it: the agent at the
    end, the requests posted, and the exception that ended the loop early. *)
Fixpoint _heartbeat_loop (self : t) (beats : list beat)
    : t * list Py.value * option Py.exc :=
  match beats with
  | [] => (self, [], None)
  | b :: beats' =>
      if _running self then
        let '(self1, posted, escaped) := heartbeat_turn self b in
        let sent := match posted with Some req => [req] | None => [] end in
        match escaped with
        | Some e => (self1, sent, Some e)
        | None =>
            let '(self2, more, escaped') := _heartbeat_loop self1 beats' in
            (self2, (sent ++ more)%list, escaped')
        end
      else (self, [], None)
  end.

End Agent.

End agent.

(* ================================================================== *)
(** * tool_adapter.py *)
(* ================================================================== *)

Module tool_adapter.

Inductive ToolType :=
| COMPILER | LINTER | TEST_RUNNER | FORMATTER | GIT | FILESYSTEM | NETWORK | CUSTOM.

Record ToolInfo := mk_ToolInfo {
  executable : string;
  type : ToolType;
  description : string
}.

Record ToolResult := mk_ToolResult {
  success : bool;
  exit_code : Z;
  stdout : string;
  stderr : string;
  duration_ms : Z;
  output_files : list string;
  metadata : Py.dict Py.value
}.

Record ToolAdapter := mk_ToolAdapter {
  working_dir : string;
  timeout_seconds : Z;
  env : Py.dict string;
  _tools : Py.dict ToolInfo
}.

(** [a or b] on optional strings whose empty value is falsy. *)
Definition or_else (a : option string) (b : string) : string :=
  match a with
  | Some (String _ _ as x) => x
  | _ => b
  end.

Definition which_or (a b : option string) : option string :=
  match a with
  | Some (String _ _) => a
  | _ => b
  end.

Definition truthy (a : option string) : bool :=
  match a with
  | Some (String _ _) => true
  | _ => false
  end.

(** [_register_default_tools], with [shutil.which] given. *)
Definition _register_default_tools (which : string -> option string)
    : Py.dict ToolInfo :=
  let tools := Py.set [] "git" (mk_ToolInfo "git" GIT "Version control") in
  let python := which_or (which "python") (which "python3") in
  let tools :=
    if truthy python then
      let tools :=
        Py.set tools "python"
          (mk_ToolInfo (or_else python "") COMPILER "Python interpreter") in
      let tools :=
        Py.set tools "pytest"
          (mk_ToolInfo (or_else (which "pytest") "pytest") TEST_RUNNER
             "Python test runner") in
      let tools :=
        Py.set tools "black"
          (mk_ToolInfo (or_else (which "black") "black") FORMATTER
             "Python code formatter") in
      let tools :=
        Py.set tools "ruff"
          (mk_ToolInfo (or_else (which "ruff") "ruff") LINTER "Python linter") in
      Py.set tools "mypy"
        (mk_ToolInfo (or_else (which "mypy") "mypy") LINTER "Python type checker")
    else tools in
  let tools :=
    if truthy (which "node") then
      Py.set
        (Py.set tools "node" (mk_ToolInfo "node" COMPILER "Node.js runtime"))
        "npm" (mk_ToolInfo "npm" COMPILER "Node package manager")
    else tools in
  if truthy (which "cargo") then
    Py.set
      (Py.set tools "cargo" (mk_ToolInfo "cargo" COMPILER "Rust package manager"))
      "rustc" (mk_ToolInfo "rustc" COMPILER "Rust compiler")
  else tools.

(** [ToolAdapter(working_dir, timeout_seconds, env)]; [cwd] is [Path.cwd()]. *)
Definition __init__ (which : string -> option string) (cwd : string)
    (working_dir : option string) (timeout_seconds : Z)
    (env : option (Py.dict string)) : ToolAdapter :=
  mk_ToolAdapter
    (match working_dir with Some w => w | None => cwd end)
    timeout_seconds
    (match env with Some e => e | None => [] end)
    (_register_default_tools which).

Definition register_tool (self : ToolAdapter) (name executable : string)
    (tool_type : ToolType) (description : string) : ToolAdapter :=
  mk_ToolAdapter (working_dir self) (timeout_seconds self) (env self)
    (Py.set (_tools self) name (mk_ToolInfo executable tool_type description)).

(** The subprocess a call launches. *)
Record command := mk_command {
  cmd : list string;
  stdin : option (list Byte.byte);
  capture : bool;
  cmd_cwd : string;
  cmd_env : Py.dict string;
  deadline : Z
}.

(** What the [try] block of [execute] comes to, with the reading of
    [time.time()] taken right after: the process ran to its end within the
    deadline, or [create_subprocess_exec], [communicate] or [wait_for]
    raised. *)
Inductive outcome :=
| exited (returncode : Z) (out err : option string) (t_end : Q)
| raised (e : Py.exc) (t_end : Q).

(** [int((time.time() - start_time) * 1000)] *)
Definition elapsed_ms (start_time t_end : Q) : Z :=
  Py.int_of_float ((t_end - start_time) * 1000)%Q.

(** [env = os.environ.copy(); env.update(self.env)] *)
Definition build_env (environ overrides : Py.dict string) : Py.dict string :=
  fold_left (fun e kv => Py.set e (fst kv) (snd kv)) overrides environ.

(** [timeout or self.timeout_seconds] *)
Definition effective_timeout (self : ToolAdapter) (timeout : option Z) : Z :=
  match timeout with
  | Some 0 | None => timeout_seconds self
  | Some t => t
  end.

(** The subprocess [execute] launches for a registered tool; [environ] is
    [os.environ]. *)
Definition build_command (self : ToolAdapter) (tool_info : ToolInfo)
    (args : option (list string)) (input_data : option string)
    (cwd : option string) (timeout : option Z) (capture_output : bool)
    (environ : Py.dict string) : command :=
  let args := match args with Some a => a | None => [] end in
  let cwd := match cwd with Some c => c | None => working_dir self end in
  mk_command (executable tool_info :: args)
    (if truthy input_data then option_map Py.encode input_data else None)
    capture_output cwd (build_env environ (env self))
    (effective_timeout self timeout).

(** [execute]: [start_time] is the first reading of [time.time()], and [run]
    the operating system. *)
Definition execute (self : ToolAdapter) (tool : string)
    (args : option (list string)) (input_data : option string)
    (cwd : option string) (timeout : option Z) (capture_output : bool)
    (environ : Py.dict string) (start_time : Q) (run : command -> outcome)
    : Py.result ToolResult :=
  match Py.get (_tools self) tool with
  | None => Py.raise Py.ValueError ("Unknown tool: " ++ tool)%string
  | Some tool_info =>
      let timeout' := effective_timeout self timeout in
      match run (build_command self tool_info args input_data cwd timeout
                   capture_output environ) with
      | exited returncode out err t_end =>
          Py.ret
            (mk_ToolResult (returncode =? 0) returncode
               (or_else out "") (or_else err "")
               (elapsed_ms start_time t_end) [] [])
      | raised e t_end =>
          if Py.is_TimeoutError e then
            Py.ret
              (mk_ToolResult false (-1) ""
                 ("Tool execution timed out after " ++ Py.str_of_int timeout'
                    ++ " seconds")%string
                 (elapsed_ms start_time t_end) []
                 [("timeout", Py.VBool true)])
          else if Py.is_Exception e then
            Py.ret
              (mk_ToolResult false (-1) "" (Py.exc_str e)
                 (elapsed_ms start_time t_end) []
                 [("error", Py.VStr (Py.exc_str e))])
          else inl e
      end
  end.

(** [list_tools]: the names, in registration order, each with its info. *)
Definition list_tools (self : ToolAdapter) : list (string * ToolInfo) := _tools self.

(** The wrappers below call [execute] with everything but the tool and its
    arguments left at its default, except where a working directory is
    given. *)
Definition run_tests (self : ToolAdapter) (test_path : string)
    (framework : string) (extra_args : option (list string))
    (environ : Py.dict string) (start_time : Q) (run : command -> outcome)
    : Py.result ToolResult :=
  if String.eqb framework "pytest" then
    let args :=
      (["-v"; test_path]
       ++ match extra_args with Some (_ :: _ as a) => a | _ => [] end)%list in
    execute self "pytest" (Some args) None None None true environ start_time run
  else Py.raise Py.ValueError ("Unsupported test framework: " ++ framework)%string.

Definition run_linter (self : ToolAdapter) (path : string) (linter : string)
    (fix_ : bool) (environ : Py.dict string) (start_time : Q)
    (run : command -> outcome) : Py.result ToolResult :=
  if String.eqb linter "ruff" then
    execute self "ruff"
      (Some (["check"; path] ++ (if fix_ then ["--fix"] else []))%list)
      None None None true environ start_time run
  else if String.eqb linter "mypy" then
    execute self "mypy" (Some [path]) None None None true environ start_time run
  else Py.raise Py.ValueError ("Unsupported linter: " ++ linter)%string.

Definition run_formatter (self : ToolAdapter) (path : string)
    (formatter : string) (check_only : bool) (environ : Py.dict string)
    (start_time : Q) (run : command -> outcome) : Py.result ToolResult :=
  if String.eqb formatter "black" then
    execute self "black"
      (Some ([path] ++ (if check_only then ["--check"] else []))%list)
      None None None true environ start_time run
  else Py.raise Py.ValueError ("Unsupported formatter: " ++ formatter)%string.

Definition git_status (self : ToolAdapter) (repo_path : string)
    (environ : Py.dict string) (start_time : Q) (run : command -> outcome)
    : Py.result ToolResult :=
  execute self "git" (Some ["status"; "--porcelain"]) None (Some repo_path) None
    true environ start_time run.

Definition git_diff (self : ToolAdapter) (repo_path : string) (staged : bool)
    (environ : Py.dict string) (start_time : Q) (run : command -> outcome)
    : Py.result ToolResult :=
  execute self "git"
    (Some (["diff"] ++ (if staged then ["--staged"] else []))%list)
    None (Some repo_path) None true environ start_time run.

(** [git_commit]: with [add_all], two launches, each with its own clock
    reading and its own state of the operating system ([run_add], then
    [run_commit]). *)
Definition git_commit (self : ToolAdapter) (repo_path message : string)
    (add_all : bool) (environ : Py.dict string) (t_add t_commit : Q)
    (run_add run_commit : command -> outcome) : Py.result ToolResult :=
  let commit :=
    execute self "git" (Some ["commit"; "-m"; message]) None (Some repo_path)
      None true environ t_commit run_commit in
  if add_all then
    match execute self "git" (Some ["add"; "-A"]) None (Some repo_path) None
            true environ t_add run_add with
    | inl e => inl e
    | inr _ => commit
    end
  else commit.

End tool_adapter.

(* ================================================================== *)
(** * Scenarios the statements below refer to *)
(* ================================================================== *)

Module scenarios.

(** The keys [k0], [k1], ... *)
Definition k (i : nat) : string := ("k" ++ Py.str_of_int (Z.of_nat i))%string.

(** The entry [set_working] creates. *)
Definition working_entry (key : string) (v : Py.value) (now : Py.datetime)
    : context_manager.MemoryEntry :=
  context_manager.mk_MemoryEntry key v "working" (1 # 2) 0 now None None [].

(** [set_working] called once per element, in order: key, value and the
    clock reading of the call. *)
Definition set_working_all (self : context_manager.ContextManager)
    (calls : list (string * Py.value * Py.datetime))
    : context_manager.ContextManager :=
  fold_left
    (fun cm c => context_manager.set_working cm (fst (fst c)) (snd (fst c)) (snd c))
    calls self.

(** Inserting [k_start .. k_(start+len-1)], the i-th with value [v i] at
    time [now i]. *)
Definition inserts (v : nat -> Py.value) (now : nat -> Py.datetime)
    (start len : nat) : list (string * Py.value * Py.datetime) :=
  map (fun i => (k i, v i, now i)) (seq start len).

(** Whether an item's key is one of [ks]. *)
Definition key_in {V} (ks : list string) (kv : string * V) : bool :=
  existsb (String.eqb (fst kv)) ks.

(** [entry'] is [entry] with one more access, last accessed at [now], and
    nothing else changed. *)
Definition touched (entry entry' : context_manager.MemoryEntry)
    (now : Py.datetime) : Prop :=
  context_manager.access_count entry' = context_manager.access_count entry + 1
  /\ context_manager.last_accessed entry' = Some now
  /\ context_manager.key entry' = context_manager.key entry
  /\ context_manager.value entry' = context_manager.value entry
  /\ context_manager.memory_type entry' = context_manager.memory_type entry
  /\ context_manager.importance entry' = context_manager.importance entry
  /\ context_manager.created_at entry' = context_manager.created_at entry
  /\ context_manager.embedding entry' = context_manager.embedding entry
  /\ context_manager.tags entry' = context_manager.tags entry.

(** [d'] is [d] with the entry under [key] touched: same keys in the same
    order, every other key bound as before. *)
Definition tier_touched (d d' : Py.dict context_manager.MemoryEntry)
    (key : string) (entry : context_manager.MemoryEntry) (now : Py.datetime)
    : Prop :=
  (exists entry', Py.get d' key = Some entry' /\ touched entry entry' now)
  /\ (forall k', k' <> key -> Py.get d' k' = Py.get d k')
  /\ Py.keys d' = Py.keys d.

(** The fields of the store other than the two tiers. *)
Definition same_settings (self self' : context_manager.ContextManager) : Prop :=
  context_manager.embedding_dim self' = context_manager.embedding_dim self
  /\ context_manager.max_short_term self' = context_manager.max_short_term self
  /\ context_manager.max_long_term self' = context_manager.max_long_term self
  /\ context_manager.storage_path self' = context_manager.storage_path self
  /\ context_manager._index self' = context_manager._index self
  /\ context_manager._id_to_key self' = context_manager._id_to_key self
  /\ context_manager._working_context self'
     = context_manager._working_context self.

(** [query] occurs in [s], case ignored. *)
Definition icontains (query s : string) : bool :=
  Py.contains (Py.lower query) (Py.lower s).

(** The entry's key or its serialized value contains the query. *)
Definition matches (query : string) (entry : context_manager.MemoryEntry) : bool :=
  icontains query (Py.json_dumps (context_manager.value entry))
  || icontains query (context_manager.key entry).

(** A keyword match for [entry]. *)
Definition keyword_hit (entry : context_manager.MemoryEntry)
    : context_manager.SearchResult :=
  context_manager.mk_SearchResult (context_manager.key entry)
    (context_manager.value entry) (1 # 2) (context_manager.memory_type entry).

(** Stand-ins for the similarity libraries, for closed examples. *)
Definition stub_sha256 (_ : list Byte.byte) : context_manager.digest :=
  context_manager.mk_digest (repeat Byte.x00 32) eq_refl.

Definition stub_norm (_ : list context_manager.float32) : context_manager.float32 :=
  context_manager.mk_float32 Byte.x00 Byte.x00 Byte.x00 Byte.x00.

Definition stub_divide (x _ : context_manager.float32) : context_manager.float32 := x.

Definition stub_index_search (_ : context_manager.IndexFlatIP)
    (_ : list context_manager.float32) (_ : Z) : Py.result (list (Q * Z)) :=
  Py.ret [].

(** A store built without FAISS that holds the one entry
    [{key: a, value: hello world}]. *)
Definition hello_store : context_manager.ContextManager :=
  fst (context_manager.store false stub_sha256 stub_norm stub_divide
         (context_manager.__init__ false 384 100 10000 None)
         "a" (Py.VStr "hello world") "fact" (1 # 2) Py.datetime_min).

(** A new agent, a dispatch whose handler finishes in time, and a turn of the
    dispatch loop during which nothing else happens. *)
Definition agent0 : agent.Agent.t :=
  agent.Agent.__init__ "agent-1" "worker" agent.HYBRID None None.

Definition dispatch0 : agent.Agent.dispatch :=
  agent.Agent.mk_dispatch Py.datetime_min Py.datetime_min Py.datetime_min true.

Definition quiet_turn : agent.Agent.turn := agent.Agent.mk_turn [] dispatch0 false.

(** A new ping task, and the same task as a failed first run left it
    ([status = failed], [error] set), submitted again. *)
Definition ping_task : agent.Task.t :=
  agent.Task.new "task-1" "ping" "ping" Py.datetime_min.

Definition retried_task : agent.Task.t := agent.Task.fail ping_task "boom".

(** A task whose type nobody handles. *)
Definition orphan_task : agent.Task.t :=
  agent.Task.new "task-2" "mystery" "unknown" Py.datetime_min.



(** A tool adapter on a machine where only [git] is found, an operating
    system on which every launch runs out of time at second 12, and one on
    which every launch fails at second 11. *)
Definition adapter0 : tool_adapter.ToolAdapter :=
  tool_adapter.__init__ (fun _ => None) "/work" None 300 None.

Definition always_late (_ : tool_adapter.command) : tool_adapter.outcome :=
  tool_adapter.raised (Py.mk_exc Py.TimeoutError "") 12.

Definition never_starts (_ : tool_adapter.command) : tool_adapter.outcome :=
  tool_adapter.raised (Py.mk_exc Py.OSError "No such file or directory: 'git'") 11.

(** A connected kernel client, and a kernel that answers every request with
    [{error: {message: boom}}]. *)
Definition client0 : kernel_client.KernelClient :=
  fst (kernel_client.connect
         (kernel_client.__init__ "ws://localhost:9876" "http://localhost:8080")
         None).

Definition boom (_ : string) (_ : Py.value) : Py.result Py.value :=
  Py.ret (Py.VDict [("error", Py.VDict [("message", Py.VStr "boom")])]).

(** The [id] field of a request. *)
Definition request_id (req : Py.value) : option Z :=
  match req with
  | Py.VDict d => match Py.get d "id" with Some (Py.VInt i) => Some i | _ => None end
  | _ => None
  end.

(** Successive calls on one client, each with its method, parameters and the
    kernel's way of answering: the ids of the requests posted, in order. *)
Fixpoint posted_ids (self : kernel_client.KernelClient)
    (calls : list (string * option (Py.dict Py.value)
                   * (string -> Py.value -> Py.result Py.value))) : list Z :=
  match calls with
  | [] => []
  | (method, params, post) :: calls' =>
      let '(self1, posted, _) := kernel_client.call self method params post in
      match posted with
      | Some req =>
          match request_id req with
          | Some i => i :: posted_ids self1 calls'
          | None => posted_ids self1 calls'
          end
      | None => posted_ids self1 calls'
      end
  end.

(** A task as it was submitted: the fields the dispatch writes ([status],
    [result], [error], [started_at], [completed_at]) are blanked. *)
Definition as_submitted (task : agent.Task.t) : agent.Task.t :=
  agent.Task.mk (agent.Task.id task) (agent.Task.name task)
    (agent.Task.description task) (agent.Task.task_type task)
    (agent.Task.priority task) "pending" (agent.Task.payload task)
    (agent.Task.source_id task) (agent.Task.dependencies task)
    (agent.Task.timeout_ms task) (agent.Task.retry_count task)
    (agent.Task.max_retries task) None None (agent.Task.created_at task)
    None None.

(** The tasks other coroutines submit during the turns, in order. *)
Definition all_submitted (turns : list agent.Agent.turn) : list agent.Task.t :=
  flat_map agent.Agent.submitted turns.

(** The three counters of an agent. *)
Definition counters (self : agent.Agent.t) : Z * Z * Z :=
  (agent.Agent.task_count self, agent.Agent.success_count self,
   agent.Agent.failure_count self).

(** What the dispatch side of an agent owns: the heartbeat loop leaves it
    alone. *)
Definition dispatch_side (self : agent.Agent.t) :=
  (agent.Agent.status self, agent.Agent.current_task self, counters self,
   agent.Agent.last_error self, agent.Agent._handlers self,
   agent.Agent._task_queue self, agent.Agent._state self).

(** The request a heartbeat of agent [agent_id] posts under id [i]. *)
Definition heartbeat_request (i : Z) (agent_id : string) (stamp : Py.value)
    : Py.value :=
  kernel_client.request i "event.submit"
    (Some [("event_type", Py.VStr "AgentHeartbeat");
           ("source_id", Py.VStr agent_id);
           ("payload", Py.VDict [("timestamp", stamp)])]).

(** The ids [first], [first + 1], ... of [n] requests. *)
Definition consecutive_ids (first : Z) (n : nat) : list (option Z) :=
  map (fun i => Some (first + Z.of_nat i)) (seq 0 n).

(** The decoded messages of [feed] that are events of type [event_type]. *)
Definition events_of (event_type : string) (feed : list (Py.result Py.value))
    : list Py.value :=
  flat_map
    (fun m =>
       match m with
       | inr (Py.VDict d as data) =>
           if kernel_client.is_event event_type d then [data] else []
       | _ => []
       end)
    feed.

(** Every message of the feed decodes to a JSON object. *)
Definition all_objects (feed : list (Py.result Py.value)) : Prop :=
  Forall (fun m => exists d, m = inr (Py.VDict d)) feed.

(** [register_tool] called once per element, in order: name, executable,
    type and description. *)
Definition register_all (self : tool_adapter.ToolAdapter)
    (regs : list (string * string * tool_adapter.ToolType * string))
    : tool_adapter.ToolAdapter :=
  fold_left
    (fun a r =>
       tool_adapter.register_tool a (fst (fst (fst r))) (snd (fst (fst r)))
         (snd (fst r)) (snd r))
    regs self.

(** The launch never raises anything but an [Exception]: no cancellation. *)
Definition not_cancelled (run : tool_adapter.command -> tool_adapter.outcome)
    : Prop :=
  forall c e t_end, run c = tool_adapter.raised e t_end -> Py.is_Exception e = true.

(** A machine with pytest installed but no Python interpreter on the path. *)
Definition only_pytest (name : string) : option string :=
  if String.eqb name "pytest" then Some "/usr/bin/pytest" else None.

(** A call of one of the operations on the working context. *)
Inductive context_op :=
| op_set_session (session_id : string)
| op_set_current_task (task : Py.dict Py.value)
| op_record_file_change (path change_type diff : string) (now : Py.datetime)
| op_record_decision (decision reason : string) (now : Py.datetime)
| op_clear.

Definition apply_op (self : context_manager.ContextManager) (op : context_op)
    : option context_manager.ContextManager :=
  match op with
  | op_set_session s => Some (context_manager.set_session self s)
  | op_set_current_task t => Some (context_manager.set_current_task self t)
  | op_record_file_change p c d now =>
      context_manager.record_file_change self p c d now
  | op_record_decision d r now => context_manager.record_decision self d r now
  | op_clear => Some (context_manager.clear_working_context self)
  end.

(** The calls made one after the other, as long as none raises. *)
Fixpoint apply_ops (self : context_manager.ContextManager)
    (ops : list context_op) : option context_manager.ContextManager :=
  match ops with
  | [] => Some self
  | op :: ops' =>
      match apply_op self op with
      | Some self' => apply_ops self' ops'
      | None => None
      end
  end.

(** What a session has gathered: its id, its task, the last change recorded
    for each path and the decisions in the order they were taken. *)
Record session := mk_session {
  s_id : Py.value;
  s_task : Py.value;
  s_changes : Py.dict Py.value;
  s_decisions : list Py.value
}.

Definition new_session : session := mk_session Py.VNone Py.VNone [] [].

Definition session_step (s : session) (op : context_op) : session :=
  match op with
  | op_set_session i => mk_session (Py.VStr i) (s_task s) (s_changes s) (s_decisions s)
  | op_set_current_task t =>
      mk_session (s_id s) (Py.VDict t) (s_changes s) (s_decisions s)
  | op_record_file_change p c d now =>
      mk_session (s_id s) (s_task s)
        (Py.set (s_changes s) p
           (Py.VDict [("type", Py.VStr c); ("diff", Py.VStr d);
                      ("timestamp", Py.VStr (Py.isoformat now))]))
        (s_decisions s)
  | op_record_decision d r now =>
      mk_session (s_id s) (s_task s) (s_changes s)
        (s_decisions s
           ++ [Py.VDict [("decision", Py.VStr d); ("reason", Py.VStr r);
                         ("timestamp", Py.VStr (Py.isoformat now))]])%list
  | op_clear => new_session
  end.

(** The working context that holds a session. *)
Definition context_of (s : session) : Py.dict Py.value :=
  [("session_id", s_id s); ("current_task", s_task s);
   ("file_changes", Py.VDict (s_changes s)); ("decisions", Py.VList (s_decisions s))].

(** [self'] differs from [self] in the tiers and the working context at
    most. *)
Definition same_settings_but_context (self self' : context_manager.ContextManager)
    : Prop :=
  context_manager.embedding_dim self' = context_manager.embedding_dim self
  /\ context_manager.max_short_term self' = context_manager.max_short_term self
  /\ context_manager.max_long_term self' = context_manager.max_long_term self
  /\ context_manager.storage_path self' = context_manager.storage_path self
  /\ context_manager._index self' = context_manager._index self
  /\ context_manager._id_to_key self' = context_manager._id_to_key self.

End scenarios.

(* ================================================================== *)
(** * Facts about the Python fragment *)
(* ================================================================== *)

Module PyFacts.

Section DictFacts.
Context {V : Type}.
Implicit Types (d : Py.dict V) (k : string) (v : V).

Lemma get_set_same d k v : Py.get (Py.set d k v) k = Some v.
Proof.
  induction d as [|[k' v'] d IH]; simpl.
  - now rewrite String.eqb_refl.
  - destruct (String.eqb k' k) eqn:E; simpl; rewrite E; auto.
Qed.

Lemma get_set_other d k k' v :
  k' <> k -> Py.get (Py.set d k v) k' = Py.get d k'.
Proof.
  intros Hne. induction d as [|[k0 v0] d IH]; simpl.
  - destruct (String.eqb k k') eqn:E; auto.
    apply String.eqb_eq in E. congruence.
  - destruct (String.eqb k0 k) eqn:E; simpl.
    + apply String.eqb_eq in E; subst k0.
      destruct (String.eqb k k') eqn:E'; auto.
      apply String.eqb_eq in E'. congruence.
    + now rewrite IH.
Qed.

Lemma get_In d k v : Py.get d k = Some v -> In (k, v) d.
Proof.
  induction d as [|[k' v'] d IH]; simpl; [discriminate|].
  destruct (String.eqb k' k) eqn:E; intros H.
  - apply String.eqb_eq in E. left. congruence.
  - right. auto.
Qed.

Lemma get_None_keys d k : Py.get d k = None <-> ~ In k (Py.keys d).
Proof.
  induction d as [|[k' v'] d IH]; simpl; [tauto|].
  destruct (String.eqb k' k) eqn:E.
  - apply String.eqb_eq in E. split; [discriminate|]. intros H. tauto.
  - apply String.eqb_neq in E. rewrite IH. tauto.
Qed.

Lemma keys_set_present d k v :
  Py.get d k <> None -> Py.keys (Py.set d k v) = Py.keys d.
Proof.
  induction d as [|[k' v'] d IH]; simpl; [congruence|].
  destruct (String.eqb k' k) eqn:E; simpl; intros H; [reflexivity|].
  f_equal. auto.
Qed.

Lemma set_absent d k v :
  Py.get d k = None -> Py.set d k v = (d ++ [(k, v)])%list.
Proof.
  induction d as [|[k' v'] d IH]; simpl; [reflexivity|].
  destruct (String.eqb k' k); [discriminate|].
  intros H. f_equal. auto.
Qed.

Lemma keys_set d k v :
  Py.keys (Py.set d k v)
  = match Py.get d k with
    | Some _ => Py.keys d
    | None => (Py.keys d ++ [k])%list
    end.
Proof.
  destruct (Py.get d k) eqn:E.
  - apply keys_set_present. congruence.
  - rewrite set_absent by assumption. unfold Py.keys. now rewrite map_app.
Qed.

Lemma length_set d k v :
  List.length (Py.set d k v)
  = match Py.get d k with
    | Some _ => List.length d
    | None => S (List.length d)
    end.
Proof.
  rewrite <- (length_map fst (Py.set d k v)). fold (Py.keys (Py.set d k v)).
  rewrite keys_set. destruct (Py.get d k); unfold Py.keys.
  - apply length_map.
  - rewrite length_app, length_map. simpl. lia.
Qed.

Lemma NoDup_keys_set d k v :
  NoDup (Py.keys d) -> NoDup (Py.keys (Py.set d k v)).
Proof.
  intros H. rewrite keys_set. destruct (Py.get d k) eqn:E; [assumption|].
  apply get_None_keys in E.
  apply NoDup_rev in H. rewrite <- (rev_involutive (_ ++ _)%list).
  apply NoDup_rev. rewrite rev_app_distr. simpl. constructor; [|assumption].
  now rewrite <- in_rev.
Qed.

(** Over distinct keys, [del d[k]] keeps exactly the other items. *)
Lemma del_filter d k :
  NoDup (Py.keys d) ->
  Py.del d k = filter (fun kv => negb (String.eqb (fst kv) k)) d.
Proof.
  induction d as [|[k' v'] d IH]; simpl; [reflexivity|].
  intros H. inversion H as [|? ? Hnin Hnd]; subst.
  destruct (String.eqb k' k) eqn:E; simpl.
  - apply String.eqb_eq in E; subst k'.
    symmetry. apply forallb_filter_id. apply forallb_forall.
    intros [k1 v1] Hin. simpl. apply negb_true_iff, String.eqb_neq.
    intros ->. apply Hnin. now apply (in_map fst) in Hin.
  - f_equal. auto.
Qed.
End DictFacts.

(** *** The order on tuples *)

Lemma tuple_ltb_irrefl a : Py.tuple_ltb a a = false.
Proof.
induction a as [|x a IH]; simpl; [reflexivity|].
rewrite Z.ltb_irrefl, Z.eqb_refl. exact IH.
Qed.

Lemma tuple_ltb_asym a b : Py.tuple_ltb a b = true -> Py.tuple_ltb b a = false.
Proof.
revert b. induction a as [|x a IH]; intros [|y b]; simpl; try easy.
destruct (Z.ltb_spec x y), (Z.eqb_spec x y), (Z.ltb_spec y x), (Z.eqb_spec y x);
  simpl; try lia; auto.
Qed.

Lemma tuple_le_trans a b c : Py.tuple_le a b -> Py.tuple_le b c -> Py.tuple_le a c.
Proof.
unfold Py.tuple_le. revert b c.
induction a as [|x a IH]; intros [|y b] [|z c]; simpl; try easy.
destruct (Z.ltb_spec y x), (Z.eqb_spec y x), (Z.ltb_spec z y), (Z.eqb_spec z y),
  (Z.ltb_spec z x), (Z.eqb_spec z x); simpl; try lia; try easy.
intros Hab Hbc. eapply IH; eassumption.
Qed.

(** *** Slices and [int] *)

Lemma slice_to_nat {A} (xs : list A) (n : nat) :
  Py.slice_to xs (Z.of_nat n) = firstn n xs.
Proof.
unfold Py.slice_to.
destruct (Z.ltb_spec (Z.of_nat n) 0); [lia|]. now rewrite Nat2Z.id.
Qed.

Lemma length_slice_to {A} (xs : list A) (stop : Z) :
  0 <= stop -> Z.of_nat (List.length (Py.slice_to xs stop)) <= stop.
Proof.
intros H. unfold Py.slice_to.
destruct (Z.ltb_spec stop 0); [lia|].
rewrite length_firstn. lia.
Qed.

(** [int(n * 0.1)] is [n // 10] for a length [n]. *)
Lemma int_tenth (n : nat) :
  Py.int_of_float (inject_Z (Z.of_nat n) * (1 # 10))%Q = Z.of_nat (n / 10).
Proof.
unfold Py.int_of_float. simpl Qnum. simpl Qden.
rewrite Z.mul_1_r, Z.quot_div_nonneg by lia.
now rewrite Nat2Z.inj_div.
Qed.

(** For every length up to 2000, [int(n * 0.1)] computed in binary64 is
    the [n // 10] of the rational model. *)
Lemma tenth_binary64_agrees : forallb Py.tenth_in_binary64 (seq 0 2001) = true.
Proof. vm_compute. reflexivity. Qed.

(** *** Lists *)

Lemma filter_all {A} (l : list A) : filter (fun _ => true) l = l.
Proof. induction l; simpl; congruence. Qed.

Lemma filter_filter {A} (p q : A -> bool) (l : list A) :
  filter p (filter q l) = filter (fun x => q x && p x) l.
Proof.
induction l as [|x l IH]; simpl; [reflexivity|].
destruct (q x); simpl; [destruct (p x)|]; now rewrite IH.
Qed.

Lemma NoDup_map_filter {A B} (f : A -> B) (p : A -> bool) (l : list A) :
  NoDup (map f l) -> NoDup (map f (filter p l)).
Proof.
induction l as [|x l IH]; simpl; [auto|].
intros H. inversion H as [|? ? Hnin Hnd]; subst.
destruct (p x); simpl; auto.
constructor; auto.
intros Hin. apply Hnin. apply in_map_iff in Hin as (y & <- & Hy).
apply filter_In in Hy. apply in_map. tauto.
Qed.

Lemma Permutation_filter {A} (p : A -> bool) (l l' : list A) :
  Permutation l l' -> Permutation (filter p l) (filter p l').
Proof.
induction 1 as [|x l l' _ IH|x y l|l l' l'' _ IH1 _ IH2]; simpl.
- constructor.
- destruct (p x); [apply perm_skip|]; exact IH.
- destruct (p x), (p y); try reflexivity. apply perm_swap.
- etransitivity; eassumption.
Qed.

Lemma NoDup_app_disjoint {A} (l1 l2 : list A) (x : A) :
  NoDup (l1 ++ l2) -> In x l1 -> In x l2 -> False.
Proof.
induction l1 as [|a l1 IH]; simpl; [easy|].
intros H [->|H1] H2; inversion H as [|? ? Hnin Hnd]; subst.
- apply Hnin, in_or_app. now right.
- auto.
Qed.

Lemma In_firstn {A} (n : nat) (l : list A) (x : A) :
  In x (firstn n l) -> In x l.
Proof.
intros H. rewrite <- (firstn_skipn n l). apply in_or_app. now left.
Qed.

Lemma StronglySorted_app_le {A} (R : A -> A -> Prop) (l1 l2 : list A) :
  StronglySorted R (l1 ++ l2) ->
  forall x y, In x l1 -> In y l2 -> R x y.
Proof.
induction l1 as [|a l1 IH]; simpl; intros H x y Hx Hy; [easy|].
inversion H as [|? ? Hs Hall]; subst.
destruct Hx as [<-|Hx].
- rewrite Forall_forall in Hall. apply Hall, in_or_app. now right.
- eauto.
Qed.

End PyFacts.

(* ================================================================== *)
(** * The memory store *)
(* ================================================================== *)

Module context_manager_facts.
Import context_manager PyFacts scenarios.

#[local] Arguments evict_key : simpl never.

Lemma insert_sorted_perm x l : Permutation (insert_sorted x l) (x :: l).
Proof.
induction l as [|y l IH]; cbn [insert_sorted sorted fold_right]; [reflexivity|].
destruct (Py.tuple_ltb (evict_key y) (evict_key x)); [|reflexivity].
rewrite IH. apply perm_swap.
Qed.

Lemma sorted_perm l : Permutation (sorted l) l.
Proof.
unfold sorted.
induction l as [|x l IH]; cbn [insert_sorted sorted fold_right]; [constructor|].
rewrite insert_sorted_perm. now constructor.
Qed.

Lemma insert_sorted_sorted x l :
  StronglySorted rank_le l -> StronglySorted rank_le (insert_sorted x l).
Proof.
induction l as [|y l IH]; cbn [insert_sorted sorted fold_right]; intros H.
- repeat constructor.
- inversion H as [|? ? Hs Hall]; subst.
  destruct (Py.tuple_ltb (evict_key y) (evict_key x)) eqn:E.
  + constructor; [auto|].
    rewrite (Forall_forall (rank_le y)). intros z Hz.
    apply (Permutation_in _ (insert_sorted_perm x l)) in Hz.
    destruct Hz as [<-|Hz].
    * now apply tuple_ltb_asym.
    * rewrite Forall_forall in Hall. auto.
  + constructor; [assumption|].
    constructor; [exact E|].
    rewrite Forall_forall in Hall |- *. intros z Hz.
    unfold rank_le. eapply tuple_le_trans; [exact E|]. now apply Hall.
Qed.

Lemma sorted_sorted l : StronglySorted rank_le (sorted l).
Proof.
unfold sorted.
induction l as [|x l IH]; cbn [insert_sorted sorted fold_right]; [constructor|].
now apply insert_sorted_sorted.
Qed.

(** The sort is stable: a list already in order is left as it is. *)
Lemma sorted_stable l : StronglySorted rank_le l -> sorted l = l.
Proof.
unfold sorted.
induction l as [|x l IH]; cbn [fold_right]; [reflexivity|].
intros H. inversion H as [|? ? Hs Hall]; subst.
rewrite IH by assumption.
destruct l as [|y l]; [reflexivity|]. cbn [insert_sorted].
inversion Hall as [|? ? Hxy _]; subst.
unfold rank_le, Py.tuple_le in Hxy. now rewrite Hxy.
Qed.

Lemma to_remove_tenth l : to_remove l = Z.of_nat (List.length l / 10).
Proof. unfold to_remove. apply int_tenth. Qed.

(** Deleting the keys of [ev] one by one keeps the items with other keys. *)
Lemma evict_fold (ev d : Py.dict MemoryEntry) :
  NoDup (Py.keys d) ->
  fold_left (fun st kv => Py.del st (fst kv)) ev d
  = filter (fun kv => negb (key_in (Py.keys ev) kv)) d.
Proof.
revert d. induction ev as [|e ev IH]; simpl; intros d Hd.
- symmetry. apply filter_all.
- rewrite IH.
  + rewrite del_filter by assumption. rewrite filter_filter.
    apply filter_ext. intros kv. unfold key_in. simpl.
    now rewrite negb_orb.
  + rewrite del_filter by assumption. now apply NoDup_map_filter.
Qed.

(** What [_evict_short_term] leaves, over distinct keys. *)
Lemma evict_short_term_spec (self : ContextManager) :
  NoDup (Py.keys (_short_term self)) ->
  let st := _short_term self in
  let m := (List.length st / 10)%nat in
  let evicted := firstn m (sorted st) in
  let kept := skipn m (sorted st) in
  _short_term (_evict_short_term self)
    = filter (fun kv => negb (key_in (Py.keys evicted) kv)) st
  /\ Permutation (_short_term (_evict_short_term self)) kept.
Proof.
intros Hnd st m evicted kept.
assert (Hlen : List.length (sorted st) = List.length st)
  by apply Permutation_length, sorted_perm.
assert (Heq : _short_term (_evict_short_term self)
              = filter (fun kv => negb (key_in (Py.keys evicted) kv)) st).
{ unfold _evict_short_term. simpl. change (_short_term self) with st.
  rewrite to_remove_tenth, slice_to_nat, Hlen.
  now apply evict_fold. }
split; [exact Heq|].
rewrite Heq.
assert (Hperm : Permutation st (evicted ++ kept)%list).
{ unfold evicted, kept. rewrite firstn_skipn. symmetry. apply sorted_perm. }
assert (Hnd' : NoDup (Py.keys (evicted ++ kept)%list)).
{ eapply Permutation_NoDup; [|exact Hnd].
  unfold Py.keys. now apply Permutation_map. }
unfold Py.keys in Hnd'. rewrite map_app in Hnd'.
rewrite (Permutation_filter _ _ _ Hperm), filter_app.
assert (Hin : forall kv, In kv evicted -> key_in (Py.keys evicted) kv = true).
{ intros kv Hkv. apply existsb_exists. exists (fst kv).
  split; [now apply in_map|apply String.eqb_refl]. }
assert (Hout : forall kv, In kv kept -> key_in (Py.keys evicted) kv = false).
{ intros kv Hkv. destruct (key_in (Py.keys evicted) kv) eqn:E; [|reflexivity].
  apply existsb_exists in E as (k' & Hk' & Heqb).
  apply String.eqb_eq in Heqb. subst k'.
  exfalso. apply (NoDup_app_disjoint _ _ (fst kv) Hnd' Hk').
  now apply in_map. }
replace (filter (fun kv => negb (key_in (Py.keys evicted) kv)) evicted)
  with (@nil (string * MemoryEntry)).
- simpl. apply Permutation_refl'. apply forallb_filter_id, forallb_forall.
  intros kv Hkv. now rewrite Hout.
- symmetry. generalize Hin. generalize (Py.keys evicted) as ks. clear.
  intros ks H. induction evicted as [|e ev IH]; simpl; [reflexivity|].
  rewrite (H e) by now left. simpl. apply IH. intros kv Hkv. apply H. now right.
Qed.

Lemma length_evict_short_term (self : ContextManager) :
  NoDup (Py.keys (_short_term self)) ->
  List.length (_short_term (_evict_short_term self))
  = (List.length (_short_term self) - List.length (_short_term self) / 10)%nat.
Proof.
intros Hnd. destruct (evict_short_term_spec self Hnd) as [_ Hperm].
rewrite (Permutation_length Hperm), length_skipn.
now rewrite (Permutation_length (sorted_perm _)).
Qed.

Lemma set_working_unfold self key v now :
  set_working self key v now
  = let self1 :=
      with_short_term self
        (Py.set (_short_term self) key (working_entry key v now)) in
    if Z.of_nat (List.length (_short_term self1)) >? max_short_term self
    then _evict_short_term self1 else self1.
Proof. reflexivity. Qed.

Lemma set_working_NoDup self key v now :
  NoDup (Py.keys (_short_term self)) ->
  NoDup (Py.keys (_short_term (set_working self key v now))).
Proof.
intros Hnd. rewrite set_working_unfold. cbv zeta.
assert (Hset : NoDup (Py.keys (Py.set (_short_term self) key (working_entry key v now))))
  by now apply NoDup_keys_set.
destruct (_ >? _); [|exact Hset].
destruct (evict_short_term_spec
            (with_short_term self
               (Py.set (_short_term self) key (working_entry key v now))) Hset)
  as [-> _].
now apply NoDup_map_filter.
Qed.

(** The tier never holds more than [max(max_short_term, 9)] entries. *)
Lemma set_working_bound self key v now :
  NoDup (Py.keys (_short_term self)) ->
  Z.of_nat (List.length (_short_term self)) <= Z.max (max_short_term self) 9 ->
  Z.of_nat (List.length (_short_term (set_working self key v now)))
  <= Z.max (max_short_term self) 9.
Proof.
intros Hnd Hlen. rewrite set_working_unfold. cbv zeta.
assert (Hset : NoDup (Py.keys (Py.set (_short_term self) key (working_entry key v now))))
  by now apply NoDup_keys_set.
pose proof (length_set (_short_term self) key (working_entry key v now)) as Hn.
set (self1 := with_short_term self _) in *.
change (Py.set (_short_term self) key (working_entry key v now))
  with (_short_term self1) in Hn, Hset.
destruct (Z.gtb_spec (Z.of_nat (List.length (_short_term self1))) (max_short_term self)).
- rewrite length_evict_short_term by assumption.
  set (n := List.length (_short_term self1)) in *.
  assert (n <= S (List.length (_short_term self)))%nat
    by (destruct (Py.get _ _); lia).
  pose proof (Nat.div_mod_eq n 10). pose proof (Nat.mod_upper_bound n 10).
  lia.
- lia.
Qed.

Lemma max_short_term_set_working self key v now :
  max_short_term (set_working self key v now) = max_short_term self.
Proof.
rewrite set_working_unfold. cbv zeta. now destruct (_ >? _).
Qed.

Lemma set_working_all_bound calls : forall self,
  NoDup (Py.keys (_short_term self)) ->
  Z.of_nat (List.length (_short_term self)) <= Z.max (max_short_term self) 9 ->
  Z.of_nat (List.length (_short_term (set_working_all self calls)))
  <= Z.max (max_short_term self) 9.
Proof.
induction calls as [|[[key v] now] calls IH]; intros self Hnd Hlen; [exact Hlen|].
unfold set_working_all in *. simpl.
rewrite <- (max_short_term_set_working self key v now).
apply IH.
- now apply set_working_NoDup.
- rewrite max_short_term_set_working. now apply set_working_bound.
Qed.

End context_manager_facts.

Module memory_store.
Import context_manager PyFacts scenarios context_manager_facts.



(** C10, as the code has it.  [_evict_short_term] removes exactly
    [n // 10] entries of a tier of [n].  With [max_short_term <= 8], an insert
    that takes a tier within the bound above it evicts nothing, so the tier
    stays above [max_short_term].  It does not grow further than that: the
    tier never holds more than [max(max_short_term, 9)] entries, because at
    ten entries the eviction removes one. *)
Theorem eviction_takes_a_tenth_and_tier_stays_bounded :
  (forall self : ContextManager,
     NoDup (Py.keys (_short_term self)) ->
     List.length (_short_term (_evict_short_term self))
     = (List.length (_short_term self) - List.length (_short_term self) / 10)%nat)
  /\ (forall (self : ContextManager) (key : string) (v : Py.value)
             (now : Py.datetime),
        max_short_term self <= 8 ->
        Z.of_nat (List.length (_short_term self)) <= max_short_term self ->
        let st := Py.set (_short_term self) key (working_entry key v now) in
        Z.of_nat (List.length st) > max_short_term self ->
        _short_term (set_working self key v now) = st)
  /\ (forall (self : ContextManager) (key : string) (v : Py.value)
             (now : Py.datetime),
        NoDup (Py.keys (_short_term self)) ->
        Z.of_nat (List.length (_short_term self))
          <= Z.max (max_short_term self) 9 ->
        Z.of_nat (List.length (_short_term (set_working self key v now)))
          <= Z.max (max_short_term self) 9).
Proof.
split; [exact length_evict_short_term|]. split; [|exact set_working_bound].
intros self key v now Hmax Hlen st Hn.
rewrite set_working_unfold. cbv zeta.
change (Py.set (_short_term self) key (working_entry key v now)) with st.
destruct (_ >? _); [|reflexivity].
unfold _evict_short_term. cbn [_short_term with_short_term].
rewrite to_remove_tenth, slice_to_nat.
rewrite (Permutation_length (sorted_perm st)).
pose proof (length_set (_short_term self) key (working_entry key v now)) as Hst.
fold st in Hst.
replace (List.length st / 10)%nat with 0%nat; [reflexivity|].
symmetry. apply Nat.div_small.
destruct (Py.get (_short_term self) key); lia.
Qed.

(** At [max_short_term = 8]: a tier of eight takes a ninth key without
    evicting, and a tier of nine is back at nine after a tenth key. *)
Lemma eviction_takes_a_tenth_and_tier_stays_bounded_witness :
  let cm0 := __init__ false 384 8 10000 None in
  let calls n := inserts (fun _ => Py.VNone) (fun _ => Py.datetime_min) 0 n in
  let cm8 := set_working_all cm0 (calls 8%nat) in
  let cm9 := set_working_all cm0 (calls 9%nat) in
  _short_term (set_working cm8 (k 8) Py.VNone Py.datetime_min)
    = Py.set (_short_term cm8) (k 8) (working_entry (k 8) Py.VNone Py.datetime_min)
  /\ Z.of_nat (List.length
                 (_short_term (set_working cm9 (k 9) Py.VNone Py.datetime_min)))
     <= Z.max (max_short_term cm9) 9
  /\ List.length (_short_term (_evict_short_term cm9))
     = (List.length (_short_term cm9) - List.length (_short_term cm9) / 10)%nat.
Proof.
intros cm0 calls cm8 cm9.
assert (Hnd : NoDup (Py.keys (_short_term cm9))).
{ vm_compute. repeat (constructor; [simpl; intuition discriminate|]). constructor. }
split; [|split].
- apply (proj1 (proj2 eviction_takes_a_tenth_and_tier_stays_bounded)
           cm8 (k 8) Py.VNone Py.datetime_min); vm_compute; congruence.
- apply (proj2 (proj2 eviction_takes_a_tenth_and_tier_stays_bounded)
           cm9 (k 9) Py.VNone Py.datetime_min Hnd). vm_compute. congruence.
- apply (proj1 eviction_takes_a_tenth_and_tier_stays_bounded cm9 Hnd).
Defined.

(** C10 as stated fails in its last part: at [max_short_term = 8], thirty
    distinct keys leave nine entries, and no sequence of [set_working] calls
    takes the tier of a new store past nine. *)
Lemma working_tier_growth_counterexample :
  List.length
    (_short_term
       (set_working_all (__init__ false 384 8 10000 None)
          (inserts (fun _ => Py.VNone) (fun _ => Py.datetime_min) 0 30)))
  = 9%nat
  /\ ~ (forall bound : nat,
          exists calls,
            (bound < List.length
                       (_short_term
                          (set_working_all (__init__ false 384 8 10000 None)
                             calls)))%nat).
Proof.
split; [vm_compute; reflexivity|].
intros H. destruct (H 9%nat) as [calls Hc].
pose proof (set_working_all_bound calls (__init__ false 384 8 10000 None)) as Hb.
simpl in Hb. specialize (Hb (NoDup_nil _)). lia.
Qed.

(** C9.  For a key present in its tier, [get_working] (on the working tier)
    and [retrieve] (on the long-term tier) return the stored value; the
    entry under that key gets [access_count + 1] and [last_accessed = now]
    and keeps its other fields; every other key is bound as before, the keys
    keep their order, and the other tier and every other field of the store
    are unchanged.  For an absent key they return [None] and leave the store
    as it is. *)
Theorem lookups_touch_only_their_entry :
  forall (self : ContextManager) (key : string) (now : Py.datetime),
    match Py.get (_short_term self) key with
    | Some entry =>
        fst (get_working self key now) = value entry
        /\ tier_touched (_short_term self)
             (_short_term (snd (get_working self key now))) key entry now
        /\ _long_term (snd (get_working self key now)) = _long_term self
        /\ same_settings self (snd (get_working self key now))
    | None => get_working self key now = (Py.VNone, self)
    end
    /\
    match Py.get (_long_term self) key with
    | Some entry =>
        fst (retrieve self key now) = value entry
        /\ tier_touched (_long_term self)
             (_long_term (snd (retrieve self key now))) key entry now
        /\ _short_term (snd (retrieve self key now)) = _short_term self
        /\ same_settings self (snd (retrieve self key now))
    | None => retrieve self key now = (Py.VNone, self)
    end.
Proof.
intros self key now. split.
- unfold get_working. destruct (Py.get (_short_term self) key) as [entry|] eqn:E;
    [|reflexivity].
  cbn [fst snd _short_term _long_term with_short_term].
  repeat split.
  + exists (touch entry now). split; [apply get_set_same|].
    unfold touched. cbn. tauto.
  + intros k' Hk'. now apply get_set_other.
  + apply keys_set_present. congruence.
- unfold retrieve. destruct (Py.get (_long_term self) key) as [entry|] eqn:E;
    [|reflexivity].
  cbn [fst snd _short_term _long_term with_long_term].
  repeat split.
  + exists (touch entry now). split; [apply get_set_same|].
    unfold touched. cbn. tauto.
  + intros k' Hk'. now apply get_set_other.
  + apply keys_set_present. congruence.
Qed.

Lemma flat_map_filter {A B} (p : A -> bool) (f : A -> B) (l : list A) :
  flat_map (fun x => if p x then [f x] else []) l = map f (filter p l).
Proof.
induction l as [|x l IH]; simpl; [reflexivity|].
destruct (p x); simpl; now rewrite IH.
Qed.

Lemma keyword_search_spec (self : ContextManager) (query : string) (limit : Z) :
  _keyword_search self query limit
  = Py.slice_to
      (map keyword_hit (filter (matches query) (Py.values (_long_term self))))
      limit.
Proof.
unfold _keyword_search. cbv zeta. f_equal.
apply (flat_map_filter (matches query) keyword_hit).
Qed.

(** C5.  Without a similarity index, [search] does not raise: it returns
    [results[:limit]], where [results] lists, in insertion order, the
    entries of the long-term tier whose JSON-serialized value or whose key
    contains the query (case ignored), each with its key, value and memory
    type and with score 0.5.  Every result is such a match, and for
    [limit >= 0] the results are the first [limit] matches, so at most
    [limit] of them.  On a store holding only
    [{key: a, value: hello world}] the query [hello] returns that entry with
    score 0.5 and the query [xyz] returns the empty list. *)
Theorem search_falls_back_to_keywords :
  (forall (faiss : bool) sha256 norm divide index_search
          (self : ContextManager) (query : string) (limit : Z),
     _index self = None ->
     let found :=
       map keyword_hit (filter (matches query) (Py.values (_long_term self))) in
     exists results,
       search faiss sha256 norm divide index_search self query limit
         = Py.ret results
       /\ results = Py.slice_to found limit
       /\ Forall
            (fun r =>
               r_score r = 1 # 2
               /\ exists entry,
                    In entry (Py.values (_long_term self))
                    /\ matches query entry = true
                    /\ r = keyword_hit entry)
            results
       /\ (0 <= limit ->
           results = firstn (Z.to_nat limit) found
           /\ Z.of_nat (List.length results) <= limit))
  /\ (forall (faiss : bool) sha256 norm divide index_search,
        search faiss sha256 norm divide index_search hello_store "hello" 10
          = Py.ret [mk_SearchResult "a" (Py.VStr "hello world") (1 # 2) "fact"]
        /\ search faiss sha256 norm divide index_search hello_store "xyz" 10
           = Py.ret []).
Proof.
split.
- intros faiss sha256 norm divide index_search self query limit Hix found.
  unfold search. rewrite Hix, keyword_search_spec. fold found.
  eexists. split; [reflexivity|].
  split; [reflexivity|]. split.
  + apply Forall_forall. intros r Hr.
    apply In_firstn, in_map_iff in Hr as (entry & <- & Hentry).
    apply filter_In in Hentry as [Hin Hm].
    split; [reflexivity|]. now exists entry.
  + intros Hlimit. split; [|now apply length_slice_to].
    unfold Py.slice_to. destruct (Z.ltb_spec limit 0); [lia|reflexivity].
- intros. split; reflexivity.
Qed.

(** The fallback on [hello_store] with the default limit. *)
Lemma search_falls_back_to_keywords_witness :
  exists results,
    search false stub_sha256 stub_norm stub_divide stub_index_search
      hello_store "hello" 10 = Py.ret results
    /\ results = [keyword_hit (mk_MemoryEntry "a" (Py.VStr "hello world") "fact"
                                (1 # 2) 0 Py.datetime_min None None [])]
    /\ Z.of_nat (List.length results) <= 10.
Proof.
destruct (proj1 search_falls_back_to_keywords false stub_sha256 stub_norm
            stub_divide stub_index_search hello_store "hello" 10 eq_refl)
  as (results & Hs & Hr & _ & Hlimit).
exists results. split; [exact Hs|]. split; [exact Hr|].
apply Hlimit. lia.
Defined.

Lemma frombuffer_length (n : nat) : forall buf : list Byte.byte,
  List.length buf = (4 * n)%nat ->
  exists v, frombuffer buf = Py.ret v /\ List.length v = n.
Proof.
induction n as [|n IH]; intros buf Hlen.
- destruct buf; [|discriminate]. now exists [].
- destruct buf as [|x0 [|x1 [|x2 [|x3 buf]]]]; simpl in Hlen; try lia.
  destruct (IH buf) as (v & Hv & Hn); [lia|].
  exists (mk_float32 x0 x1 x2 x3 :: v). simpl. rewrite Hv. simpl.
  split; [reflexivity|]. now rewrite Hn.
Qed.

(** With the similarity capability, a store whose [embedding_dim] is at
    least 8 computes embeddings of 8 components: the SHA-256 digest has 32
    bytes, whatever the slice asks for. *)
Lemma compute_embedding_length sha256 norm divide (self : ContextManager)
    (text : string) :
  8 <= embedding_dim self ->
  exists v,
    _compute_embedding true sha256 norm divide self text = Py.ret (Some v)
    /\ List.length v = 8%nat.
Proof.
intros Hdim. unfold _compute_embedding. cbn [negb].
pose proof (digest_size (sha256 (Py.encode text))) as Hsz.
assert (Hslice : Py.slice_to (digest_bytes (sha256 (Py.encode text)))
                   (embedding_dim self * 4)
                 = digest_bytes (sha256 (Py.encode text))).
{ unfold Py.slice_to. destruct (Z.ltb_spec (embedding_dim self * 4) 0); [lia|].
  apply firstn_all2. lia. }
rewrite Hslice.
destruct (frombuffer_length 8 _ Hsz) as (v & Hv & Hn).
rewrite Hv. cbn [Py.bind Py.ret].
eexists. split; [reflexivity|]. now rewrite length_map.
Qed.

(** C6, at the default configuration.  Whatever SHA-256 and the float32
    operations are, and for every text, [_compute_embedding] on a store with
    the default [embedding_dim = 384] returns a vector of 8 components, not of
    384; and [store] on that store, whose index was created for
    [embedding_dim] components, raises when it adds the vector to the
    index. *)
Theorem default_embedding_has_eight_components :
  forall sha256 norm divide (text : string),
    let self := __init__ true 384 100 10000 None in
    (exists v,
       _compute_embedding true sha256 norm divide self text = Py.ret (Some v)
       /\ List.length v = 8%nat
       /\ Z.of_nat (List.length v) <> embedding_dim self)
    /\ (forall key memory_type importance now,
          snd (store true sha256 norm divide self key (Py.VStr text)
                 memory_type importance now)
          = Some (Py.mk_exc Py.AssertionError "")).
Proof.
intros sha256 norm divide text self.
destruct (compute_embedding_length sha256 norm divide self text) as (v & Hv & Hn);
  [subst self; simpl; lia|].
split.
- exists v. split; [exact Hv|]. split; [exact Hn|]. rewrite Hn. now subst self.
- intros key memory_type importance now. unfold store. rewrite Hv.
  subst self. unfold index_add. simpl. rewrite Hn. reflexivity.
Qed.

End memory_store.

(* ================================================================== *)
(** * The agent *)
(* ================================================================== *)

Module agent_facts.
Import agent PyFacts scenarios.

(** The exits of [_process_task]: the awaited result, then the [except]
    clause that matches. *)
Ltac process_task_paths :=
  unfold Agent._process_task;
  match goal with
  | |- context [Agent.await_handler ?a ?t ?env] =>
      let e := fresh "e" in
      let r := fresh "r" in
      destruct (Agent.await_handler a t env) as [e|r];
      [destruct (Py.is_TimeoutError e) eqn:?;
       [|destruct (Py.is_Exception e) eqn:?]|]
  end.

(** [_process_task] touches neither the registry, nor the running flag, nor
    the queue. *)
Lemma process_task_frame self task env :
  let self' := fst (fst (Agent._process_task self task env)) in
  Agent._handlers self' = Agent._handlers self
  /\ Agent._running self' = Agent._running self
  /\ Agent._task_queue self' = Agent._task_queue self.
Proof. process_task_paths; now cbn. Qed.

(** The identity of a task is not touched either. *)
Lemma process_task_id self task env :
  Task.id (snd (fst (Agent._process_task self task env))) = Task.id task.
Proof. process_task_paths; now cbn. Qed.

(** An exception leaves [_process_task] only when what the handler raised is
    not an [Exception] (a cancellation): the [finally] block has run, no
    [except] clause has, and the task is left running. *)
Lemma process_task_escapes self task env e :
  snd (Agent._process_task self task env) = Some e ->
  Py.is_Exception e = false
  /\ Task.status (snd (fst (Agent._process_task self task env))) = "running"
  /\ Agent.task_count (fst (fst (Agent._process_task self task env)))
     = Agent.task_count self + 1
  /\ Agent.success_count (fst (fst (Agent._process_task self task env)))
     = Agent.success_count self
  /\ Agent.failure_count (fst (fst (Agent._process_task self task env)))
     = Agent.failure_count self.
Proof.
process_task_paths; cbn; intros [= <-] || discriminate.
repeat split. assumption.
Qed.

(** Each of the four named paths returns: a missing handler, a passed
    deadline, a handler that returns, a handler that raises an [Exception]. *)
Lemma named_paths_return self task env :
  let task1 := Task.begin task (Agent.t_started env) in
  let self1 := Agent.with_current self EXECUTING (Some task1) in
  let escaped := snd (Agent._process_task self task env) in
  (Py.get (Agent._handlers self) (Task.task_type task) = None -> escaped = None)
  /\ (Agent.in_time env = false -> escaped = None)
  /\ (forall h v,
        Py.get (Agent._handlers self) (Task.task_type task) = Some h ->
        Agent.in_time env = true ->
        Agent.run_handler self1 h task1 (Agent.t_handler env) = inr v ->
        escaped = None)
  /\ (forall h e,
        Py.get (Agent._handlers self) (Task.task_type task) = Some h ->
        Agent.in_time env = true ->
        Agent.run_handler self1 h task1 (Agent.t_handler env) = inl e ->
        Py.is_Exception e = true ->
        escaped = None).
Proof.
intros task1 self1 escaped. subst escaped.
unfold Agent._process_task, Agent.await_handler.
fold task1. fold self1.
change (Agent._handlers self1) with (Agent._handlers self).
change (Task.task_type task1) with (Task.task_type task).
repeat split.
- now intros ->.
- intros ->. now destruct (Py.get _ _).
- intros h v -> -> ->. reflexivity.
- intros h e -> -> -> He. destruct (Py.is_TimeoutError e); [reflexivity|].
  now rewrite He.
Qed.

(** The queue of an agent stays the unbounded queue [__init__] made. *)
Lemma init_queue_unbounded id name agent_type config kernel_client :
  Queue.maxsize
    (Agent._task_queue (Agent.__init__ id name agent_type config kernel_client))
  = 0.
Proof. reflexivity. Qed.

Lemma submit_all_maxsize tasks : forall self,
  Queue.maxsize (Agent._task_queue (Agent.submit_all self tasks))
  = Queue.maxsize (Agent._task_queue self).
Proof.
unfold Agent.submit_all.
induction tasks as [|task tasks IH]; intros self; cbn [fold_left]; [reflexivity|].
rewrite IH. unfold Agent.submit_task, Queue.put_nowait.
destruct (Queue.full _); reflexivity.
Qed.

Lemma loop_turn_maxsize self w :
  Queue.maxsize (Agent._task_queue (fst (fst (Agent.loop_turn self w))))
  = Queue.maxsize (Agent._task_queue self).
Proof.
unfold Agent.loop_turn.
pose proof (submit_all_maxsize (Agent.submitted w) self) as Hs.
destruct (Queue.items _) as [|task rest].
- cbn [fst]. destruct (Agent.stop_called w); exact Hs.
- match goal with
  | |- context [Agent._process_task ?a ?t ?env] =>
      pose proof (process_task_frame a t env) as (_ & _ & Hq);
      destruct (Agent._process_task a t env) as [[a' t'] esc]
  end.
  cbn [fst] in Hq.
  assert (Queue.maxsize (Agent._task_queue a') = Queue.maxsize (Agent._task_queue self))
    by (rewrite Hq; exact Hs).
  destruct esc as [e|]; [destruct (Py.is_Exception e)|];
    cbn [fst]; destruct (Agent.stop_called w); assumption.
Qed.

Lemma process_loop_maxsize turns : forall self,
  Queue.maxsize (Agent._task_queue (fst (fst (Agent._process_loop self turns))))
  = Queue.maxsize (Agent._task_queue self).
Proof.
induction turns as [|w turns IH]; intros self; cbn [Agent._process_loop];
  [reflexivity|].
destruct (Agent._running self); [|reflexivity].
pose proof (loop_turn_maxsize self w) as Hw.
destruct (Agent.loop_turn self w) as [[self1 finished] [e|]]; cbn [fst] in Hw.
- exact Hw.
- specialize (IH self1).
  destruct (Agent._process_loop self1 turns) as [[self2 more] esc].
  cbn [fst] in *. congruence.
Qed.

(** With nothing submitted meanwhile, a turn takes the task at the head of
    the queue. *)
Lemma loop_turn_takes_head self w task rest :
  Queue.items (Agent._task_queue self) = task :: rest ->
  Agent.submitted w = [] ->
  let self1 :=
    Agent.with_queue self (Queue.mk (Queue.maxsize (Agent._task_queue self)) rest) in
  let out := Agent._process_task self1 task (Agent.env w) in
  Agent.loop_turn self w
  = ((if Agent.stop_called w then Agent.stop (fst (fst out)) else fst (fst out)),
     Some (snd (fst out)),
     match snd out with
     | Some e => if Py.is_Exception e then None else Some e
     | None => None
     end).
Proof.
intros Hq Hs self1 out. unfold Agent.loop_turn. rewrite Hs. cbn [Agent.submit_all fold_left].
rewrite Hq. fold self1. fold out.
destruct out as [[a t] [e|]]; cbn [fst snd]; [destruct (Py.is_Exception e)|];
  reflexivity.
Qed.

(** A stopped agent dispatches nothing. *)
Lemma process_loop_stopped self turns :
  Agent._running self = false ->
  Agent._process_loop self turns = (self, [], None).
Proof. intros H. destruct turns; simpl; [reflexivity|]. now rewrite H. Qed.

End agent_facts.

Module scheduler.
Import agent PyFacts scenarios agent_facts.







(** C4.  A task whose [task_type] has no registered handler comes out of
    [_process_task] failed, with the error
    [No handler for task type: <task_type>] recorded on the task and as the
    agent's [last_error]; [task_count] and [failure_count] are one higher
    and no exception leaves the method.  In the dispatch loop, the turn that
    takes such a task from the head of the queue ends without an exception,
    leaves the rest of the queue and the running flag (unless [stop] was
    called) as they were, and the loop goes on with the following turns; if
    a task is next in the queue, the following turn dispatches it. *)
Theorem missing_handler_fails_the_task_only :
  forall (self : Agent.t) (task : Task.t),
    Py.get (Agent._handlers self) (Task.task_type task) = None ->
    let message := ("No handler for task type: " ++ Task.task_type task)%string in
    (forall env,
       let out := Agent._process_task self task env in
       snd out = None
       /\ Task.status (snd (fst out)) = "failed"
       /\ Task.error (snd (fst out)) = Some message
       /\ Agent.last_error (fst (fst out)) = Some message
       /\ Agent.task_count (fst (fst out)) = Agent.task_count self + 1
       /\ Agent.failure_count (fst (fst out)) = Agent.failure_count self + 1
       /\ Agent.success_count (fst (fst out)) = Agent.success_count self)
    /\ (forall w rest turns,
          Agent._running self = true ->
          Queue.items (Agent._task_queue self) = task :: rest ->
          Agent.submitted w = [] ->
          exists self1 task1,
            Agent.loop_turn self w = (self1, Some task1, None)
            /\ Task.id task1 = Task.id task
            /\ Task.status task1 = "failed"
            /\ Task.error task1 = Some message
            /\ Agent.task_count self1 = Agent.task_count self + 1
            /\ Agent.failure_count self1 = Agent.failure_count self + 1
            /\ Queue.items (Agent._task_queue self1) = rest
            /\ Agent._running self1 = negb (Agent.stop_called w)
            /\ Agent._process_loop self (w :: turns)
               = (let '(a, more, escaped) := Agent._process_loop self1 turns in
                  (a, task1 :: more, escaped))
            /\ (forall next rest' w2,
                  rest = next :: rest' ->
                  Agent.submitted w2 = [] ->
                  exists self2 task2 escaped,
                    Agent.loop_turn self1 w2 = (self2, Some task2, escaped)
                    /\ Task.id task2 = Task.id next)).
Proof.
intros self task Hget message.
assert (Hpt : forall self0 env,
          Agent._handlers self0 = Agent._handlers self ->
          Agent._process_task self0 task env
          = (Agent.finalize
               (Agent.count_failure
                  (Agent.with_current self0 EXECUTING
                     (Some (Task.begin task (Agent.t_started env))))
                  (Some message)),
             Task.fail (Task.begin task (Agent.t_started env)) message,
             None)).
{ intros self0 env Hh. unfold Agent._process_task, Agent.await_handler.
  cbn [Agent._handlers Agent.with_current Task.task_type Task.begin].
  rewrite Hh, Hget. reflexivity. }
split.
- intros env out. subst out. rewrite (Hpt self env eq_refl). cbn. tauto.
- intros w rest turns Hrun Hq Hs.
  pose proof (loop_turn_takes_head self w task rest Hq Hs) as Hturn.
  cbv zeta in Hturn. rewrite Hpt in Hturn by reflexivity. cbn [fst snd] in Hturn.
  eexists. eexists. split; [exact Hturn|].
  repeat match goal with |- _ /\ _ => split end.
  + reflexivity.
  + reflexivity.
  + reflexivity.
  + destruct (Agent.stop_called w); reflexivity.
  + destruct (Agent.stop_called w); reflexivity.
  + destruct (Agent.stop_called w); reflexivity.
  + destruct (Agent.stop_called w); cbn; [reflexivity|exact Hrun].
  + cbn [Agent._process_loop]. rewrite Hrun, Hturn. reflexivity.
  + intros next rest' w2 -> Hs2.
    match goal with |- context [Agent.loop_turn ?a w2] => set (self1 := a) end.
    assert (Hq1 : Queue.items (Agent._task_queue self1) = next :: rest')
      by (subst self1; destruct (Agent.stop_called w); reflexivity).
    rewrite (loop_turn_takes_head self1 w2 next rest' Hq1 Hs2). cbv zeta.
    do 3 eexists. split; [reflexivity|apply process_task_id].
Qed.

(** A new agent with an unhandled task at the head of its queue and a ping
    task behind it. *)
Lemma missing_handler_fails_the_task_only_witness :
  let self :=
    Agent.with_running
      (Agent.with_queue agent0 (Queue.mk 0 [orphan_task; ping_task])) true in
  exists self1 task1,
    Agent.loop_turn self quiet_turn = (self1, Some task1, None)
    /\ Task.status task1 = "failed"
    /\ Task.error task1 = Some "No handler for task type: unknown"
    /\ Queue.items (Agent._task_queue self1) = [ping_task]
    /\ Agent._running self1 = true.
Proof.
intros self.
destruct (proj2 (missing_handler_fails_the_task_only self orphan_task eq_refl)
            quiet_turn [ping_task] [] eq_refl eq_refl eq_refl)
  as (self1 & task1 & Hturn & _ & Hst & Herr & _ & _ & Hq & Hrun & _).
exists self1, task1. repeat split; assumption.
Defined.

End scheduler.

(* ================================================================== *)
(** * The tool gateway *)
(* ================================================================== *)

Module tool_gateway.
Import tool_adapter scenarios.

(** C7.  [execute] raises [ValueError(Unknown tool: <name>)] for a name that
    is not registered.  For a registered tool it returns a [ToolResult] and
    does not raise when the launch or the wait raises an [Exception]: on a
    timeout the result has [success = False], [exit_code = -1], empty
    [stdout], [stderr = Tool execution timed out after <timeout> seconds]
    and [metadata = {timeout: True}]; on any other exception [e], such as a
    failed launch, it has [success = False], [exit_code = -1], empty
    [stdout], [stderr = str(e)] and [metadata = {error: str(e)}].  Whatever
    result is returned, its [duration_ms] is
    [int((t_end - start_time) * 1000)] for the clock readings taken before
    the launch and after the outcome. *)
Theorem execute_reports_failures_as_results :
  forall (self : ToolAdapter) (tool : string) (args : option (list string))
         (input_data cwd : option string) (timeout : option Z)
         (capture_output : bool) (environ : Py.dict string) (start_time : Q)
         (run : command -> outcome),
    let result :=
      execute self tool args input_data cwd timeout capture_output environ
        start_time run in
    (Py.get (_tools self) tool = None ->
     result = Py.raise Py.ValueError ("Unknown tool: " ++ tool)%string)
    /\ (forall tool_info e t_end,
          Py.get (_tools self) tool = Some tool_info ->
          run (build_command self tool_info args input_data cwd timeout
                 capture_output environ) = raised e t_end ->
          (Py.is_TimeoutError e = true ->
           result
           = Py.ret
               (mk_ToolResult false (-1) ""
                  ("Tool execution timed out after "
                     ++ Py.str_of_int (effective_timeout self timeout)
                     ++ " seconds")%string
                  (elapsed_ms start_time t_end) []
                  [("timeout", Py.VBool true)]))
          /\ (Py.is_TimeoutError e = false -> Py.is_Exception e = true ->
              result
              = Py.ret
                  (mk_ToolResult false (-1) "" (Py.exc_str e)
                     (elapsed_ms start_time t_end) []
                     [("error", Py.VStr (Py.exc_str e))])))
    /\ (forall tool_info r,
          Py.get (_tools self) tool = Some tool_info ->
          result = Py.ret r ->
          duration_ms r
          = elapsed_ms start_time
              match run (build_command self tool_info args input_data cwd
                           timeout capture_output environ) with
              | exited _ _ _ t_end => t_end
              | raised _ t_end => t_end
              end).
Proof.
intros self tool args input_data cwd timeout capture_output environ start_time
  run result. subst result. unfold execute.
split; [|split].
- now intros ->.
- intros tool_info e t_end -> ->. split.
  + now intros ->.
  + now intros -> ->.
- intros tool_info r ->.
  destruct (run _) as [rc out err t_end|e t_end].
  + intros [= <-]. reflexivity.
  + destruct (Py.is_TimeoutError e); [|destruct (Py.is_Exception e)];
      intros [= <-]; reflexivity.
Qed.

(** [git status] on a machine where the launch fails, where it runs out of
    time, and a tool nobody registered. *)
Lemma execute_reports_failures_as_results_witness :
  execute adapter0 "git" (Some ["status"]) None None None true [] 10 never_starts
    = Py.ret
        (mk_ToolResult false (-1) "" "No such file or directory: 'git'" 1000 []
           [("error", Py.VStr "No such file or directory: 'git'")])
  /\ execute adapter0 "git" (Some ["status"]) None None None true [] 10 always_late
     = Py.ret
         (mk_ToolResult false (-1) ""
            "Tool execution timed out after 300 seconds" 2000 []
            [("timeout", Py.VBool true)])
  /\ execute adapter0 "make" None None None None true [] 10 always_late
     = Py.raise Py.ValueError "Unknown tool: make".
Proof.
split; [|split].
- apply (proj2 (proj1 (proj2 (execute_reports_failures_as_results adapter0 "git"
           (Some ["status"]) None None None true [] 10 never_starts))
           (mk_ToolInfo "git" GIT "Version control") _ 11%Q eq_refl eq_refl));
    reflexivity.
- apply (proj1 (proj1 (proj2 (execute_reports_failures_as_results adapter0 "git"
           (Some ["status"]) None None None true [] 10 always_late))
           (mk_ToolInfo "git" GIT "Version control") _ 12%Q eq_refl eq_refl)).
  reflexivity.
- apply (proj1 (execute_reports_failures_as_results adapter0 "make"
           None None None None true [] 10 always_late)).
  reflexivity.
Defined.

End tool_gateway.

(* ================================================================== *)
(** * The RPC client *)
(* ================================================================== *)

Module rpc_client.
Import kernel_client PyFacts scenarios.

Lemma call_connected self session method params post :
  _session self = Some session ->
  call self method params post
  = (snd (_next_id self),
     Some (request (_request_id self + 1) method params),
     Py.bind (post (http_url self ++ "/rpc")%string
                (request (_request_id self + 1) method params))
       read_response).
Proof. intros H. unfold call. now rewrite H. Qed.

(** Every id posted from a client onwards is above its [_request_id]. *)
Lemma posted_ids_above calls : forall self,
  Forall (fun i => _request_id self < i) (posted_ids self calls)
  /\ StronglySorted Z.lt (posted_ids self calls).
Proof.
induction calls as [|[[method params] post] calls IH]; intros self.
- split; constructor.
- cbn [posted_ids]. unfold call.
  destruct (_session self) as [session|].
  + cbn [_next_id fst snd request request_id Py.get String.eqb Ascii.eqb Bool.eqb].
    set (self1 := mk_KernelClient _ _ _ _ _).
    destruct (IH self1) as [Habove Hsorted]. subst self1.
    cbn [_request_id] in Habove |- *.
    split.
    * constructor; [lia|]. eapply Forall_impl; [|exact Habove]. cbn. intros; lia.
    * constructor; assumption.
  + apply IH.
Qed.

(** C8.  [call] on a client without a session, as before [connect], raises
    [RuntimeError(Not connected to kernel)], posts nothing and leaves the
    client as it was.  On a connected client it posts a request whose id is
    the previous [_request_id] plus one and keeps that id, so the ids posted
    by successive calls on one client are strictly increasing.  When the
    response is an object with an [error] field, [call] raises instead of
    returning; when that field is an object, it raises
    [Exception(error.message)] (with the text [RPC error] if there is no
    message), so a string message is the text of the error raised: the
    response [{error: {message: boom}}] raises an error whose text is
    [boom]. *)
Theorem call_checks_connection_ids_and_errors :
  forall (self : KernelClient) (method : string)
         (params : option (Py.dict Py.value))
         (post : string -> Py.value -> Py.result Py.value),
    (_session self = None ->
     call self method params post
     = (self, None, Py.raise Py.RuntimeError "Not connected to kernel"))
    /\ call (__init__ (kernel_url self) (http_url self)) method params post
       = (__init__ (kernel_url self) (http_url self), None,
          Py.raise Py.RuntimeError "Not connected to kernel")
    /\ (_session self <> None ->
        exists self1 req,
          fst (call self method params post) = (self1, Some req)
          /\ request_id req = Some (_request_id self + 1)
          /\ _request_id self1 = _request_id self + 1
          /\ _session self1 = _session self)
    /\ (forall calls, StronglySorted Z.lt (posted_ids self calls))
    /\ (forall r err,
          _session self <> None ->
          post (http_url self ++ "/rpc")%string
            (request (_request_id self + 1) method params)
          = Py.ret (Py.VDict r) ->
          Py.get r "error" = Some err ->
          Py.raises (snd (call self method params post)) = true
          /\ (forall e,
                err = Py.VDict e ->
                snd (call self method params post)
                = Py.raise Py.Exception
                    (Py.str (match Py.get e "message" with
                             | Some m => m
                             | None => Py.VStr "RPC error"
                             end)))
          /\ (forall e message,
                err = Py.VDict e ->
                Py.get e "message" = Some (Py.VStr message) ->
                snd (call self method params post)
                = Py.raise Py.Exception message))
    /\ (_session self <> None ->
        snd (call self method params boom) = Py.raise Py.Exception "boom"
        /\ Py.contains "boom"
             (match snd (call self method params boom) with
              | inl e => Py.exc_str e
              | inr _ => ""
              end) = true).
Proof.
intros self method params post.
split; [|split; [|split; [|split; [|split]]]].
- intros H. unfold call. now rewrite H.
- reflexivity.
- intros H. destruct (_session self) as [session|] eqn:E; [|congruence].
  rewrite (call_connected self session) by assumption.
  do 2 eexists. cbn [fst snd _next_id _request_id _session].
  split; [reflexivity|]. split; [reflexivity|]. split; [reflexivity|].
  now rewrite E.
- intros calls. apply posted_ids_above.
- intros r err H Hpost Herr.
  destruct (_session self) as [session|] eqn:E; [|congruence].
  rewrite (call_connected self session) by assumption.
  cbn [snd]. rewrite Hpost. cbn [Py.bind Py.ret read_response]. rewrite Herr.
  split; [|split].
  + destruct err; reflexivity.
  + now intros e ->.
  + intros e message -> Hmsg. now rewrite Hmsg.
- intros H. destruct (_session self) as [session|] eqn:E; [|congruence].
  rewrite (call_connected self session) by assumption.
  split; reflexivity.
Qed.

(** A client before [connect], and a connected client whose kernel answers
    [{error: {message: boom}}]. *)
Lemma call_checks_connection_ids_and_errors_witness :
  call (__init__ "ws://localhost:9876" "http://localhost:8080")
    "kernel.status" None boom
  = (__init__ "ws://localhost:9876" "http://localhost:8080", None,
     Py.raise Py.RuntimeError "Not connected to kernel")
  /\ snd (call client0 "kernel.status" None boom)
     = Py.raise Py.Exception "boom"
  /\ posted_ids client0
       [("kernel.status", None, boom); ("kernel.pause", None, boom);
        ("kernel.resume", None, boom)]
     = [1; 2; 3].
Proof.
split; [|split].
- apply (proj1 (call_checks_connection_ids_and_errors
                  (__init__ "ws://localhost:9876" "http://localhost:8080")
                  "kernel.status" None boom)).
  reflexivity.
- apply (proj2 (proj2 (proj2 (proj2 (proj2
           (call_checks_connection_ids_and_errors client0 "kernel.status"
              None boom)))))).
  discriminate.
- reflexivity.
Defined.

End rpc_client.

(* ================================================================== *)
(** * The dispatch loop as a whole *)
(* ================================================================== *)

Module dispatch_loop.
Import agent PyFacts scenarios agent_facts.

Lemma process_task_counts self task env :
  let out := Agent._process_task self task env in
  Agent.task_count (fst (fst out)) = Agent.task_count self + 1
  /\ Agent.success_count (fst (fst out)) + Agent.failure_count (fst (fst out))
     = Agent.success_count self + Agent.failure_count self
       + match snd out with Some _ => 0 | None => 1 end.
Proof. process_task_paths; cbn; lia. Qed.

Lemma process_task_as_submitted self task env :
  as_submitted (snd (fst (Agent._process_task self task env))) = as_submitted task.
Proof. process_task_paths; reflexivity. Qed.

Lemma submit_all_counters tasks : forall self,
  counters (Agent.submit_all self tasks) = counters self.
Proof.
unfold Agent.submit_all.
induction tasks as [|task tasks IH]; intros self; cbn [fold_left]; [reflexivity|].
rewrite IH. unfold Agent.submit_task, Queue.put_nowait.
destruct (Queue.full _); reflexivity.
Qed.

(** On an unbounded queue, the tasks submitted during a turn go to the tail
    in the order submitted. *)
Lemma submit_all_items tasks : forall self,
  Queue.maxsize (Agent._task_queue self) <= 0 ->
  Queue.items (Agent._task_queue (Agent.submit_all self tasks))
  = (Queue.items (Agent._task_queue self) ++ tasks)%list.
Proof.
unfold Agent.submit_all.
induction tasks as [|task tasks IH]; intros self Hmax; cbn [fold_left].
- now rewrite app_nil_r.
- assert (Hfull : Queue.full (Agent._task_queue self) = false).
  { unfold Queue.full.
    destruct (Z.leb_spec (Queue.maxsize (Agent._task_queue self)) 0);
      [reflexivity|lia]. }
  unfold Agent.submit_task at 2. unfold Queue.put_nowait. rewrite Hfull.
  cbn [Py.bind Py.ret]. rewrite IH by exact Hmax. cbn. now rewrite <- app_assoc.
Qed.

(** What a turn does to the counters and to the queue. *)
Lemma loop_turn_accounts self w :
  let out := Agent.loop_turn self w in
  let n := match snd (fst out) with Some _ => 1 | None => 0 end in
  Agent.task_count (fst (fst out)) = Agent.task_count self + n
  /\ Agent.success_count (fst (fst out)) + Agent.failure_count (fst (fst out))
     = Agent.success_count self + Agent.failure_count self + n
       - match snd out with Some _ => 1 | None => 0 end
  /\ (Queue.maxsize (Agent._task_queue self) <= 0 ->
      (map as_submitted
         (match snd (fst out) with Some t => [t] | None => [] end)
       ++ map as_submitted (Queue.items (Agent._task_queue (fst (fst out)))))%list
      = map as_submitted
          (Queue.items (Agent._task_queue self) ++ Agent.submitted w)%list).
Proof.
unfold Agent.loop_turn.
pose proof (submit_all_counters (Agent.submitted w) self) as Hc.
pose proof (submit_all_items (Agent.submitted w) self) as Hi.
unfold counters in Hc. injection Hc as Hc1 Hc2 Hc3.
set (self0 := Agent.submit_all self (Agent.submitted w)) in *.
clearbody self0.
destruct (Queue.items (Agent._task_queue self0)) as [|task rest] eqn:Hq.
- cbn [fst snd]. repeat split.
  + destruct (Agent.stop_called w); cbn; lia.
  + destruct (Agent.stop_called w); cbn; lia.
  + intros Hmax. rewrite <- Hi by exact Hmax.
    destruct (Agent.stop_called w); cbn; now rewrite Hq.
- set (self1 := Agent.with_queue self0 _).
  pose proof (process_task_counts self1 task (Agent.env w)) as [Ht Hsf].
  pose proof (process_task_frame self1 task (Agent.env w)) as (_ & _ & Hqueue).
  pose proof (process_task_as_submitted self1 task (Agent.env w)) as Hsub.
  pose proof (process_task_escapes self1 task (Agent.env w)) as Hesc.
  destruct (Agent._process_task self1 task (Agent.env w)) as [[self2 task2] esc].
  cbn [fst snd] in *. unfold self1 in Ht, Hsf, Hqueue. cbn in Ht, Hsf, Hqueue.
  assert (Hout : forall a : Agent.t,
            a = self2 \/ a = Agent.stop self2 ->
            Agent.task_count a = Agent.task_count self + 1
            /\ Agent.success_count a + Agent.failure_count a
               = Agent.success_count self + Agent.failure_count self
                 + match esc with Some _ => 0 | None => 1 end
            /\ Queue.items (Agent._task_queue a) = rest).
  { intros a [->| ->]; cbn; rewrite ?Hqueue; cbn; repeat split; lia. }
  assert (Hitems : Queue.maxsize (Agent._task_queue self) <= 0 ->
            (as_submitted task2 :: map as_submitted rest)
            = map as_submitted (Queue.items (Agent._task_queue self)
                                  ++ Agent.submitted w)%list).
  { intros Hmax. rewrite <- Hi by exact Hmax. cbn. now rewrite Hsub. }
  destruct esc as [e|].
  + destruct (Hesc e eq_refl) as (He & _). rewrite He. cbn [fst snd].
    destruct (Hout (if Agent.stop_called w then Agent.stop self2 else self2))
      as (H1 & H2 & H3); [destruct (Agent.stop_called w); auto|].
    rewrite H3. repeat split; [lia|lia|exact Hitems].
  + cbn [fst snd].
    destruct (Hout (if Agent.stop_called w then Agent.stop self2 else self2))
      as (H1 & H2 & H3); [destruct (Agent.stop_called w); auto|].
    rewrite H3. repeat split; [lia|lia|exact Hitems].
Qed.

(** X1.  Over any schedule of the dispatch loop, [task_count] grows by the
    number of tasks the loop took from the queue, and
    [success_count + failure_count] by the same number, less one when a
    cancellation ended the loop: every task taken is counted once, as a
    success or as a failure, except the one whose handler was cancelled. *)
Theorem process_loop_counts_each_task_once :
  forall (turns : list Agent.turn) (self : Agent.t),
    let out := Agent._process_loop self turns in
    let taken := Z.of_nat (List.length (snd (fst out))) in
    Agent.task_count (fst (fst out)) = Agent.task_count self + taken
    /\ Agent.success_count (fst (fst out)) + Agent.failure_count (fst (fst out))
       = Agent.success_count self + Agent.failure_count self + taken
         - match snd out with Some _ => 1 | None => 0 end.
Proof.
induction turns as [|w turns IH]; intros self; cbn [Agent._process_loop].
- cbn. lia.
- destruct (Agent._running self); [|cbn; lia].
  pose proof (loop_turn_accounts self w) as (Ht & Hsf & _).
  destruct (Agent.loop_turn self w) as [[self1 finished] escaped].
  cbn [fst snd] in Ht, Hsf.
  destruct escaped as [e|].
  + cbn [fst snd]. destruct finished; cbn [List.length] in *; lia.
  + specialize (IH self1).
    destruct (Agent._process_loop self1 turns) as [[self2 more] escaped'].
    cbn [fst snd] in *. rewrite length_app.
    destruct finished; cbn [List.length] in *; lia.
Qed.

(** X2.  On the unbounded queue, the dispatch loop takes tasks in the order
    they were queued and submitted, and loses or repeats none: the tasks it
    finished, followed by those still queued, are the tasks queued at the
    start followed by those submitted during the turns it ran; when the loop
    is still running at the end with no exception, it ran every turn. *)
Theorem process_loop_is_fifo :
  forall (turns : list Agent.turn) (self : Agent.t),
    Queue.maxsize (Agent._task_queue self) <= 0 ->
    let out := Agent._process_loop self turns in
    exists n,
      (n <= List.length turns)%nat
      /\ (map as_submitted (snd (fst out))
          ++ map as_submitted (Queue.items (Agent._task_queue (fst (fst out)))))%list
         = map as_submitted
             (Queue.items (Agent._task_queue self)
              ++ all_submitted (firstn n turns))%list
      /\ (snd out = None -> Agent._running (fst (fst out)) = true ->
          n = List.length turns).
Proof.
induction turns as [|w turns IH]; intros self Hmax; cbn [Agent._process_loop].
- exists 0%nat. cbn. rewrite app_nil_r. auto.
- destruct (Agent._running self) eqn:Hrun.
  2:{ exists 0%nat. cbn. rewrite app_nil_r. split; [lia|]. split; [reflexivity|].
      congruence. }
  pose proof (loop_turn_accounts self w) as (_ & _ & Hq).
  pose proof (loop_turn_maxsize self w) as Hm.
  destruct (Agent.loop_turn self w) as [[self1 finished] escaped].
  cbn [fst snd] in Hq, Hm. specialize (Hq Hmax).
  destruct escaped as [e|].
  + exists 1%nat. cbn [fst snd firstn]. split; [cbn; lia|]. split; [|discriminate].
    unfold all_submitted. cbn [flat_map]. rewrite app_nil_r. exact Hq.
  + destruct (IH self1) as (n & Hn & Hrest & Hall); [lia|].
    destruct (Agent._process_loop self1 turns) as [[self2 more] escaped'].
    cbn [fst snd] in *. exists (S n). split; [cbn; lia|]. split.
    * cbn [firstn]. unfold all_submitted in *. cbn [flat_map].
      rewrite map_app, <- app_assoc, Hrest.
      rewrite !map_app in *. rewrite app_assoc, Hq. now rewrite <- !app_assoc.
    * intros He Hr. cbn. f_equal. auto.
Qed.

(** A running agent with two tasks queued and a third submitted during the
    first of two quiet turns. *)
Lemma process_loop_is_fifo_witness :
  let self :=
    Agent.with_running
      (Agent.with_queue agent0 (Queue.mk 0 [orphan_task; ping_task])) true in
  let turns := [Agent.mk_turn [retried_task] dispatch0 false; quiet_turn] in
  exists n,
    (n <= 2)%nat
    /\ (map as_submitted (snd (fst (Agent._process_loop self turns)))
        ++ map as_submitted
             (Queue.items
                (Agent._task_queue (fst (fst (Agent._process_loop self turns))))))%list
       = map as_submitted
           ([orphan_task; ping_task] ++ all_submitted (firstn n turns))%list.
Proof.
intros self turns.
destruct (process_loop_is_fifo turns self) as (n & Hn & Heq & _).
- cbn. lia.
- exists n. split; [exact Hn|exact Heq].
Defined.

Lemma loop_turn_stops self w :
  Agent.stop_called w = true ->
  snd (Agent.loop_turn self w) = None ->
  Agent._running (fst (fst (Agent.loop_turn self w))) = false.
Proof.
intros Hstop. unfold Agent.loop_turn. rewrite Hstop.
destruct (Queue.items _) as [|task rest]; [reflexivity|].
destruct (Agent._process_task _ task (Agent.env w)) as [[self2 task2] [e|]];
  [destruct (Py.is_Exception e)|]; cbn; congruence.
Qed.

(** X3.  [stop] is cooperative and final for the loop: once it is called
    during a turn, the loop ends with that turn, whatever turns the schedule
    would still offer; the tasks not yet taken stay in the queue. *)
Theorem process_loop_ends_with_the_turn_of_stop :
  forall (before : list Agent.turn) (w : Agent.turn) (after : list Agent.turn)
         (self : Agent.t),
    Agent.stop_called w = true ->
    Agent._process_loop self (before ++ w :: after)%list
    = Agent._process_loop self (before ++ [w])%list.
Proof.
induction before as [|w0 before IH]; intros w after self Hstop;
  cbn [app Agent._process_loop].
- destruct (Agent._running self); [|reflexivity].
  pose proof (loop_turn_stops self w Hstop) as Hoff.
  destruct (Agent.loop_turn self w) as [[self1 finished] [e|]]; [reflexivity|].
  cbn [fst snd] in Hoff.
  rewrite (process_loop_stopped self1 after) by auto. reflexivity.
- destruct (Agent._running self); [|reflexivity].
  destruct (Agent.loop_turn self w0) as [[self1 finished] [e|]]; [reflexivity|].
  now rewrite (IH w after self1 Hstop).
Qed.

(** Two tasks queued, [stop] called during the first turn: the second turn
    is not run and the ping task stays queued. *)
Lemma process_loop_ends_with_the_turn_of_stop_witness :
  let self :=
    Agent.with_running
      (Agent.with_queue agent0 (Queue.mk 0 [orphan_task; ping_task])) true in
  Agent._process_loop self ([] ++ Agent.mk_turn [] dispatch0 true :: [quiet_turn])%list
  = Agent._process_loop self ([] ++ [Agent.mk_turn [] dispatch0 true])%list
  /\ Queue.items
       (Agent._task_queue
          (fst (fst (Agent._process_loop self
                       [Agent.mk_turn [] dispatch0 true; quiet_turn]))))
     = [ping_task].
Proof.
intros self. split.
- apply (process_loop_ends_with_the_turn_of_stop [] (Agent.mk_turn [] dispatch0 true)
           [quiet_turn] self).
  reflexivity.
- reflexivity.
Defined.

(** X4.  A handler that ends with an exception that is not an [Exception]
    (a cancellation) ends the dispatch loop: the exception leaves the loop,
    the task is left [running] with neither [result] nor [error] written,
    [task_count] is one higher while neither [success_count] nor
    [failure_count] moves, the agent is idle with no current task, and the
    tasks behind it stay queued whatever turns remain. *)
Theorem cancelled_handler_ends_the_loop :
  forall (self : Agent.t) (w : Agent.turn) (turns : list Agent.turn)
         (task : Task.t) (rest : list Task.t)
         (f : Task.t -> Py.result Py.value) (e : Py.exc),
    Agent._running self = true ->
    Queue.items (Agent._task_queue self) = task :: rest ->
    Agent.submitted w = [] ->
    Py.get (Agent._handlers self) (Task.task_type task) = Some (callable f) ->
    Agent.in_time (Agent.env w) = true ->
    f (Task.begin task (Agent.t_started (Agent.env w))) = inl e ->
    Py.is_Exception e = false ->
    exists self1,
      Agent._process_loop self (w :: turns)
      = (self1, [Task.begin task (Agent.t_started (Agent.env w))], Some e)
      /\ Task.status (Task.begin task (Agent.t_started (Agent.env w))) = "running"
      /\ Agent.task_count self1 = Agent.task_count self + 1
      /\ Agent.success_count self1 = Agent.success_count self
      /\ Agent.failure_count self1 = Agent.failure_count self
      /\ Agent.status self1 = IDLE
      /\ Agent.current_task self1 = None
      /\ Queue.items (Agent._task_queue self1) = rest.
Proof.
intros self w turns task rest f e Hrun Hq Hs Hh Hin Hraise He.
assert (Hte : Py.is_TimeoutError e = false).
{ destruct e as [[] msg]; cbn in *; congruence. }
cbn [Agent._process_loop]. rewrite Hrun.
rewrite (loop_turn_takes_head self w task rest Hq Hs). cbv zeta.
unfold Agent._process_task, Agent.await_handler.
cbn [Agent._handlers Agent.with_current Agent.with_queue Task.task_type Task.begin].
rewrite Hh, Hin. cbn [Agent.run_handler]. rewrite Hraise, Hte, He.
cbn [fst snd]. rewrite He.
eexists. split; [reflexivity|].
destruct (Agent.stop_called w); cbn; repeat split.
Qed.

(** A handler that is cancelled, registered for the type of the orphan
    task. *)
Lemma cancelled_handler_ends_the_loop_witness :
  let cancelled := Py.mk_exc Py.CancelledError "" in
  let self :=
    Agent.with_running
      (Agent.with_queue
         (Agent.register_handler agent0 "unknown" (callable (fun _ => inl cancelled)))
         (Queue.mk 0 [orphan_task; ping_task])) true in
  exists self1,
    Agent._process_loop self [quiet_turn; quiet_turn]
    = (self1, [Task.begin orphan_task Py.datetime_min], Some cancelled)
    /\ Queue.items (Agent._task_queue self1) = [ping_task].
Proof.
intros cancelled self.
destruct (cancelled_handler_ends_the_loop self quiet_turn [quiet_turn] orphan_task
            [ping_task] (fun _ => inl cancelled) cancelled)
  as (self1 & Hloop & _ & _ & _ & _ & _ & _ & Hrest); try reflexivity.
exists self1. split; assumption.
Defined.

End dispatch_loop.

(* ================================================================== *)
(** * Handlers, state and heartbeats *)
(* ================================================================== *)

Module agent_operations.
Import agent PyFacts scenarios agent_facts.

(** Merging [other] into [d] one item at a time, as [dict.update] does: a
    key of [other] gets the value [other] gives it, any other key keeps the
    one it had. *)
Lemma get_update {V} (other : Py.dict V) : forall (d : Py.dict V) (k : string),
  NoDup (Py.keys other) ->
  Py.get (fold_left (fun acc kv => Py.set acc (fst kv) (snd kv)) other d) k
  = match Py.get other k with
    | Some v => Some v
    | None => Py.get d k
    end.
Proof.
induction other as [|[k0 v0] other IH]; intros d k Hnd; cbn [fold_left]; [reflexivity|].
inversion Hnd as [|? ? Hnin Hnd']; subst.
rewrite IH by assumption. cbn [Py.get fst snd].
destruct (String.eqb k0 k) eqn:E.
- apply String.eqb_eq in E. subst k0.
  apply get_None_keys in Hnin. rewrite Hnin. apply get_set_same.
- apply String.eqb_neq in E.
  destruct (Py.get other k); [reflexivity|]. apply get_set_other. congruence.
Qed.

(** X5.  The handler registered last for a task type decides the outcome of
    the tasks of that type that finish in time: what it returns becomes the
    task's [result] (as it is when it is a dict, under the key [result]
    otherwise) and the task is [completed]; an [Exception] it raises, other
    than a timeout, fails the task with [error = str(e)], which is also the
    agent's [last_error].  Tasks of every other type are dispatched exactly
    as they were before the registration. *)
Theorem registered_handler_decides_its_type :
  forall (self : Agent.t) (task_type : string)
         (f : Task.t -> Py.result Py.value) (task : Task.t)
         (env : Agent.dispatch),
    let self' := Agent.register_handler self task_type (callable f) in
    let task1 := Task.begin task (Agent.t_started env) in
    let out := Agent._process_task self' task env in
    (Task.task_type task = task_type -> Agent.in_time env = true ->
     (forall v, f task1 = inr v ->
        snd (fst out)
        = Task.complete task1
            (match v with Py.VDict d => d | _ => [("result", v)] end)
            (Agent.t_completed env)
        /\ snd out = None
        /\ Agent.success_count (fst (fst out)) = Agent.success_count self + 1)
     /\ (forall e, f task1 = inl e ->
          Py.is_TimeoutError e = false -> Py.is_Exception e = true ->
          snd (fst out) = Task.fail task1 (Py.exc_str e)
          /\ snd out = None
          /\ Agent.last_error (fst (fst out)) = Some (Py.exc_str e)
          /\ Agent.failure_count (fst (fst out)) = Agent.failure_count self + 1))
    /\ (Task.task_type task <> task_type ->
        forall h,
          Agent._process_task (Agent.register_handler self task_type h) task env
          = (Agent.register_handler
               (fst (fst (Agent._process_task self task env))) task_type h,
             snd (fst (Agent._process_task self task env)),
             snd (Agent._process_task self task env))).
Proof.
intros self task_type f task env self' task1 out. split.
- intros Hty Hin. subst out self'.
  unfold Agent._process_task, Agent.await_handler.
  cbn [Agent._handlers Agent.with_current Agent.register_handler Agent.with_handlers
       Task.task_type Task.begin].
  rewrite Hty, get_set_same, Hin. cbn [Agent.run_handler]. fold task1.
  split.
  + intros v ->. cbn. auto.
  + intros e -> Hte He. rewrite Hte, He. cbn. auto.
- intros Hty h.
  unfold Agent._process_task, Agent.await_handler.
  cbn [Agent._handlers Agent.with_current Agent.register_handler Agent.with_handlers
       Task.task_type Task.begin].
  rewrite get_set_other by congruence.
  destruct (Py.get (Agent._handlers self) (Task.task_type task)) as [h0|].
  + destruct (Agent.in_time env).
    * destruct h0; cbn [Agent.run_handler];
        try reflexivity.
      destruct (f0 _) as [e|r]; [|reflexivity].
      destruct (Py.is_TimeoutError e); [reflexivity|].
      destruct (Py.is_Exception e); reflexivity.
    * reflexivity.
  + reflexivity.
Qed.

(** A handler for the type of the orphan task that returns a number. *)
Lemma registered_handler_decides_its_type_witness :
  let self' :=
    Agent.register_handler agent0 "unknown" (callable (fun _ => inr (Py.VInt 7))) in
  Task.result (snd (fst (Agent._process_task self' orphan_task dispatch0)))
  = Some [("result", Py.VInt 7)]
  /\ Task.status (snd (fst (Agent._process_task self' orphan_task dispatch0)))
     = "completed".
Proof.
intros self'.
destruct (proj1 (proj1 (registered_handler_decides_its_type agent0 "unknown"
            (fun _ => inr (Py.VInt 7)) orphan_task dispatch0) eq_refl eq_refl)
            (Py.VInt 7) eq_refl) as (Htask & _ & _).
fold self' in Htask. rewrite Htask. split; reflexivity.
Defined.



(** X7.  The three handlers every agent starts with, for a task that
    finishes in time: [ping] completes the task with
    [{pong: True, timestamp: <now>}], [execute] with
    [{executed: True, task_id: <id>}], and [status] with the agent's
    identity and health, the status [executing], and the counters as they
    are before this task is counted ([task_count] is one higher once the
    dispatch returns). *)
Theorem default_handlers_complete :
  forall (self : Agent.t) (task : Task.t) (env : Agent.dispatch),
    Agent.in_time env = true ->
    let out := Agent._process_task self task env in
    (Py.get (Agent._handlers self) (Task.task_type task) = Some _handle_ping ->
     Task.status (snd (fst out)) = "completed"
     /\ Task.result (snd (fst out))
        = Some [("pong", Py.VBool true);
                ("timestamp", Py.VStr (Py.isoformat (Agent.t_handler env)))])
    /\ (Py.get (Agent._handlers self) (Task.task_type task) = Some _handle_execute ->
        Task.status (snd (fst out)) = "completed"
        /\ Task.result (snd (fst out))
           = Some [("executed", Py.VBool true); ("task_id", Py.VStr (Task.id task))])
    /\ (Py.get (Agent._handlers self) (Task.task_type task) = Some _handle_status ->
        Task.status (snd (fst out)) = "completed"
        /\ Task.result (snd (fst out))
           = Some [("id", Py.VStr (Agent.id self));
                   ("name", Py.VStr (Agent.name self));
                   ("status", Py.VStr "executing");
                   ("health", Py.VStr (AgentHealth_value (Agent.health self)));
                   ("task_count", Py.VInt (Agent.task_count self));
                   ("success_count", Py.VInt (Agent.success_count self));
                   ("failure_count", Py.VInt (Agent.failure_count self))]
        /\ Agent.task_count (fst (fst out)) = Agent.task_count self + 1).
Proof.
intros self task env Hin out.
subst out. unfold Agent._process_task, Agent.await_handler.
cbn [Agent._handlers Agent.with_current Task.task_type Task.begin].
rewrite Hin.
split; [|split]; intros Hh; rewrite Hh; cbn; auto.
Qed.

(** A ping and a status request dispatched by a new agent. *)
Lemma default_handlers_complete_witness :
  Task.result (snd (fst (Agent._process_task agent0 ping_task dispatch0)))
  = Some [("pong", Py.VBool true);
          ("timestamp", Py.VStr "0001-01-01T00:00:00")]
  /\ Py.get (Agent._handlers agent0) "status" = Some _handle_status
  /\ Py.get (Agent._handlers agent0) "execute" = Some _handle_execute.
Proof.
split; [|split; reflexivity].
exact (proj2 (proj1 (default_handlers_complete agent0 ping_task dispatch0 eq_refl)
                eq_refl)).
Defined.

(** X8.  [set_state] merges the given map into the auxiliary state, the keys
    given taking their new values and the others keeping theirs; it changes
    nothing that [get_state] reports, and tasks are dispatched after it
    exactly as before it. *)
Theorem set_state_only_merges :
  forall (self : Agent.t) (state : Py.dict Py.value),
    NoDup (Py.keys state) ->
    (forall k,
       Py.get (Agent._state (Agent.set_state self state)) k
       = match Py.get state k with
         | Some v => Some v
         | None => Py.get (Agent._state self) k
         end)
    /\ Agent.get_state (Agent.set_state self state) = Agent.get_state self
    /\ (forall task env,
          Agent._process_task (Agent.set_state self state) task env
          = (Agent.set_state (fst (fst (Agent._process_task self task env))) state,
             snd (fst (Agent._process_task self task env)),
             snd (Agent._process_task self task env))).
Proof.
intros self state Hnd. split; [|split].
- intros k. cbn [Agent._state Agent.set_state]. now apply get_update.
- reflexivity.
- intros task env.
  unfold Agent._process_task, Agent.await_handler.
  cbn [Agent._handlers Agent.with_current Agent.set_state Task.task_type Task.begin].
  destruct (Py.get (Agent._handlers self) (Task.task_type task)) as [h|];
    [|reflexivity].
  destruct (Agent.in_time env); [|reflexivity].
  destruct h; cbn [Agent.run_handler]; try reflexivity.
  destruct (f _) as [e|r]; [|reflexivity].
  destruct (Py.is_TimeoutError e); [reflexivity|].
  destruct (Py.is_Exception e); reflexivity.
Qed.

(** Two keys merged into the state of a new agent. *)
Lemma set_state_only_merges_witness :
  Agent.get_state
    (Agent.set_state agent0 [("phase", Py.VInt 1); ("note", Py.VStr "x")])
  = Agent.get_state agent0
  /\ Py.get (Agent._state
               (Agent.set_state agent0 [("phase", Py.VInt 1); ("note", Py.VStr "x")]))
       "note"
     = Some (Py.VStr "x").
Proof.
assert (Hnd : NoDup (Py.keys [("phase", Py.VInt 1); ("note", Py.VStr "x")])).
{ repeat constructor; simpl; intuition discriminate. }
destruct (set_state_only_merges agent0 [("phase", Py.VInt 1); ("note", Py.VStr "x")] Hnd)
  as (Hget & Hstate & _).
split; [exact Hstate|]. rewrite Hget. reflexivity.
Defined.

Lemma heartbeat_turn_frame self b :
  dispatch_side (fst (fst (Agent.heartbeat_turn self b))) = dispatch_side self
  /\ Agent.last_heartbeat (fst (fst (Agent.heartbeat_turn self b))) = Some (Agent.b_now b)
  /\ (forall e, snd (Agent.heartbeat_turn self b) = Some e -> Py.is_Exception e = false).
Proof.
unfold Agent.heartbeat_turn.
destruct (Agent.kernel_client self) as [client|].
- destruct (kernel_client.send_heartbeat client _ _ _) as [[client1 posted] [e|r]].
  + destruct (Py.is_Exception e) eqn:He; cbn [fst snd].
    * destruct (Agent.b_stop b); repeat split; discriminate.
    * repeat split. now intros e' [= <-].
  + cbn [fst snd]. destruct (Agent.b_stop b); repeat split; discriminate.
- cbn [fst snd]. destruct (Agent.b_stop b); repeat split; discriminate.
Qed.

(** X9.  A heartbeat turn stamps [last_heartbeat] and touches nothing the
    dispatch side owns (status, current task, counters, last error,
    handlers, queue, auxiliary state).  Without a kernel client it posts
    nothing.  With a client that has no session the [RuntimeError] of the
    call is swallowed: nothing is posted and the loop goes on.  With a
    connected client it posts one [event.submit] request for the event
    [AgentHeartbeat] with the agent's id as source, under the client's next
    request id; whatever [Exception] the kernel's answer leads to is
    swallowed.  Over any schedule, both the turn and the loop end early only
    on an exception that is not an [Exception]. *)
Theorem heartbeat_failures_are_swallowed :
  forall (self : Agent.t) (b : Agent.beat),
    let out := Agent.heartbeat_turn self b in
    dispatch_side (fst (fst out)) = dispatch_side self
    /\ Agent.last_heartbeat (fst (fst out)) = Some (Agent.b_now b)
    /\ (forall e, snd out = Some e -> Py.is_Exception e = false)
    /\ (Agent.kernel_client self = None -> snd (fst out) = None /\ snd out = None)
    /\ (forall client,
          Agent.kernel_client self = Some client ->
          kernel_client._session client = None ->
          snd (fst out) = None /\ snd out = None
          /\ Agent.kernel_client (fst (fst out)) = Some client)
    /\ (forall client,
          Agent.kernel_client self = Some client ->
          kernel_client._session client <> None ->
          snd (fst out)
          = Some (heartbeat_request (kernel_client._request_id client + 1)
                    (Agent.id self) (Agent.b_stamp b))
          /\ exists client1,
               Agent.kernel_client (fst (fst out)) = Some client1
               /\ kernel_client._request_id client1
                  = kernel_client._request_id client + 1)
    /\ (forall beats e,
          snd (Agent._heartbeat_loop self beats) = Some e ->
          Py.is_Exception e = false)
    /\ (forall beats,
          dispatch_side (fst (fst (Agent._heartbeat_loop self beats)))
          = dispatch_side self).
Proof.
intros self b out.
destruct (heartbeat_turn_frame self b) as (Hframe & Hstamp & Hesc).
split; [exact Hframe|]. split; [exact Hstamp|]. split; [exact Hesc|].
subst out. split; [|split; [|split; [|split]]].
- intros Hc. unfold Agent.heartbeat_turn. rewrite Hc. cbn. auto.
- intros client Hc Hs. unfold Agent.heartbeat_turn. rewrite Hc.
  unfold kernel_client.send_heartbeat, kernel_client.submit_event, kernel_client.call.
  rewrite Hs. cbn. destruct (Agent.b_stop b); cbn; auto.
- intros client Hc Hs. unfold Agent.heartbeat_turn. rewrite Hc.
  unfold kernel_client.send_heartbeat, kernel_client.submit_event, kernel_client.call.
  destruct (kernel_client._session client) as [session|]; [|congruence].
  cbn [kernel_client._next_id fst snd].
  destruct (Py.bind _ _) as [e|r]; [destruct (Py.is_Exception e)|];
    cbn [fst snd]; (split; [reflexivity|]);
    destruct (Agent.b_stop b); cbn; eexists; split; reflexivity.
- clear. intros beats. revert self.
  induction beats as [|b beats IH]; intros self e; cbn [Agent._heartbeat_loop];
    [discriminate|].
  destruct (Agent._running self); [|discriminate].
  pose proof (heartbeat_turn_frame self b) as (_ & _ & Hesc).
  destruct (Agent.heartbeat_turn self b) as [[self1 posted] [e1|]].
  + cbn. intros [= <-]. now apply Hesc.
  + specialize (IH self1 e).
    destruct (Agent._heartbeat_loop self1 beats) as [[self2 more] esc].
    exact IH.
- clear. intros beats. revert self.
  induction beats as [|b beats IH]; intros self; cbn [Agent._heartbeat_loop];
    [reflexivity|].
  destruct (Agent._running self); [|reflexivity].
  pose proof (heartbeat_turn_frame self b) as (Hframe & _ & _).
  destruct (Agent.heartbeat_turn self b) as [[self1 posted] [e1|]].
  + exact Hframe.
  + specialize (IH self1).
    destruct (Agent._heartbeat_loop self1 beats) as [[self2 more] esc].
    cbn [fst snd] in *. congruence.
Qed.

(** A heartbeat of an agent whose client was never connected. *)
Lemma heartbeat_failures_are_swallowed_witness :
  let self :=
    Agent.__init__ "agent-1" "worker" HYBRID None
      (Some (kernel_client.__init__ "ws://localhost:9876" "http://localhost:8080")) in
  let b := Agent.mk_beat Py.datetime_min (Py.VInt 0) boom false in
  snd (fst (Agent.heartbeat_turn self b)) = None
  /\ snd (Agent.heartbeat_turn self b) = None
  /\ Agent.last_heartbeat (fst (fst (Agent.heartbeat_turn self b)))
     = Some Py.datetime_min.
Proof.
intros self b.
pose proof (heartbeat_failures_are_swallowed self b) as (_ & Hstamp & _ & _ & Hoff & _).
destruct (Hoff _ eq_refl eq_refl) as (H1 & H2 & _).
split; [exact H1|]. split; [exact H2|exact Hstamp].
Defined.

End agent_operations.

(* ================================================================== *)
(** * Sessions of the RPC client *)
(* ================================================================== *)

Module rpc_sessions.
Import kernel_client PyFacts scenarios.

Lemma consecutive_ids_cons first n :
  consecutive_ids first (S n) = Some first :: consecutive_ids (first + 1) n.
Proof.
unfold consecutive_ids. cbn [seq map]. rewrite Z.add_0_r. f_equal.
rewrite <- seq_shift, map_map. apply map_ext. intros i. f_equal. lia.
Qed.

(** X10.  Correlation ids are never reused and leave no gap: over any
    sequence of [connect], [disconnect] and [call] steps on one client,
    whatever the kernel answers and whether a connection attempt is refused,
    the requests posted carry the ids [r + 1], [r + 2], ... in order, where
    [r] is the client's [_request_id] at the start, and the client ends with
    [_request_id] equal to [r] plus the number of requests posted; a call
    made without a session posts nothing and uses no id. *)
Theorem request_ids_are_consecutive :
  forall (steps : list step) (self : KernelClient),
    let out := run self steps in
    map request_id (snd out)
    = consecutive_ids (_request_id self + 1) (List.length (snd out))
    /\ _request_id (fst out)
       = _request_id self + Z.of_nat (List.length (snd out)).
Proof.
induction steps as [|st steps IH]; intros self; cbn [run].
- cbn. split; [reflexivity|lia].
- destruct st as [refused| |method params post].
  + destruct refused as [e|]; cbn [connect fst];
      match goal with |- context [run ?c steps] => exact (IH c) end.
  + exact (IH (disconnect self)).
  + unfold call. destruct (_session self) as [session|].
    * cbn [_next_id fst snd].
      set (self1 := mk_KernelClient _ _ _ _ _).
      specialize (IH self1).
      destruct (run self1 steps) as [self2 more]. cbn [fst snd] in *.
      destruct IH as [Hids Hrid]. subst self1. cbn [_request_id] in *.
      split.
      -- cbn [map List.length]. rewrite consecutive_ids_cons, Hids. reflexivity.
      -- rewrite Hrid. cbn [List.length]. lia.
    * specialize (IH self).
      destruct (run self steps) as [self2 more]. exact IH.
Qed.

(** X11.  What [call] returns on a connected client when the response is an
    object without an [error] field: the value under [result], or [None]
    when there is none; the [id] the response carries is never looked at.
    A response that carries [error: null] next to its result does not
    return it: [call] raises an [AttributeError]. *)
Theorem call_returns_the_result_field :
  forall (self : KernelClient) (method : string)
         (params : option (Py.dict Py.value))
         (post : string -> Py.value -> Py.result Py.value)
         (r : Py.dict Py.value),
    _session self <> None ->
    post (http_url self ++ "/rpc")%string
      (request (_request_id self + 1) method params) = Py.ret (Py.VDict r) ->
    (Py.get r "error" = None ->
     snd (call self method params post)
     = Py.ret (match Py.get r "result" with Some v => v | None => Py.VNone end))
    /\ (forall x, read_response (Py.VDict (Py.set r "id" x)) = read_response (Py.VDict r))
    /\ (Py.get r "error" = Some Py.VNone ->
        snd (call self method params post)
        = Py.raise Py.AttributeError "'NoneType' object has no attribute 'get'").
Proof.
intros self method params post r Hs Hpost.
destruct (_session self) as [session|] eqn:E; [|congruence].
rewrite (rpc_client.call_connected self session) by assumption.
cbn [snd]. rewrite Hpost.
cbn [Py.bind Py.ret read_response].
split; [|split].
- now intros ->.
- intros x. rewrite !get_set_other by discriminate. reflexivity.
- now intros ->.
Qed.

(** A kernel that answers [{result: 42, id: 0}], and one that answers
    [{result: 42, error: null}]. *)
Lemma call_returns_the_result_field_witness :
  snd (call client0 "resource.memory" None
         (fun _ _ => Py.ret (Py.VDict [("result", Py.VInt 42); ("id", Py.VInt 0)])))
  = Py.ret (Py.VInt 42)
  /\ snd (call client0 "resource.memory" None
            (fun _ _ => Py.ret (Py.VDict [("result", Py.VInt 42);
                                          ("error", Py.VNone)])))
     = Py.raise Py.AttributeError "'NoneType' object has no attribute 'get'".
Proof.
split.
- apply (proj1 (call_returns_the_result_field client0 "resource.memory" None
                  (fun _ _ => Py.ret (Py.VDict [("result", Py.VInt 42);
                                                ("id", Py.VInt 0)]))
                  [("result", Py.VInt 42); ("id", Py.VInt 0)]
                  ltac:(discriminate) eq_refl)).
  reflexivity.
- apply (proj2 (proj2 (call_returns_the_result_field client0 "resource.memory" None
                  (fun _ _ => Py.ret (Py.VDict [("result", Py.VInt 42);
                                                ("error", Py.VNone)]))
                  [("result", Py.VInt 42); ("error", Py.VNone)]
                  ltac:(discriminate) eq_refl))).
  reflexivity.
Defined.

Lemma receive_objects event_type handler feed :
  all_objects feed ->
  (forall data, handler data = None) ->
  receive event_type handler feed = (events_of event_type feed, None).
Proof.
intros Hall Hh. induction Hall as [|m feed (d & ->) _ IH]; [reflexivity|].
cbn [receive events_of flat_map]. fold (events_of event_type feed).
destruct (is_event event_type d).
- rewrite Hh, IH. reflexivity.
- exact IH.
Qed.

(** Whatever arrives, the handler only ever sees events of the type
    subscribed to, in the order they arrived. *)
Lemma receive_prefix event_type handler feed :
  exists n,
    fst (receive event_type handler feed) = events_of event_type (firstn n feed).
Proof.
induction feed as [|m feed (n & IH)]; [now exists 0%nat|].
destruct m as [e|data]; [now exists 0%nat|].
destruct data as [| | | | |d]; try (now exists 0%nat).
cbn [receive]. destruct (is_event event_type d) eqn:E.
- destruct (handler (Py.VDict d)).
  + exists 1%nat. cbn. now rewrite E.
  + exists (S n). destruct (receive event_type handler feed) as [delivered ended].
    cbn [fst] in *. cbn [firstn events_of flat_map]. rewrite E. cbn.
    now rewrite IH.
- exists (S n). cbn [firstn events_of flat_map]. rewrite E. exact IH.
Qed.

(** X12.  [subscribe] without a WebSocket raises
    [RuntimeError(WebSocket not connected)], sends nothing and calls the
    handler on nothing.  Otherwise it sends
    [{type: subscribe, event_type: <event_type>}] and hands the handler the
    received messages whose [event_type] is the one subscribed to, in
    arrival order and no others: all of them when every message is a JSON
    object and the handler does not raise, and those among the messages up
    to the point where the loop ends otherwise.  A message that is valid
    JSON but not an object ends the subscription with an
    [AttributeError]. *)
Theorem subscribe_delivers_matching_events :
  forall (self : KernelClient) (event_type : string)
         (handler : Py.value -> option Py.exc) (send : string -> option Py.exc)
         (feed : list (Py.result Py.value)) (closed : option Py.exc),
    let out := subscribe self event_type handler send feed closed in
    (_ws self = None ->
     out = (None, [], Some (Py.mk_exc Py.RuntimeError "WebSocket not connected")))
    /\ (exists n, snd (fst out) = events_of event_type (firstn n feed))
    /\ (_ws self <> None ->
        (forall text, send text = None) ->
        (all_objects feed ->
         (forall data, handler data = None) ->
         out = (Some (Py.json_dumps
                        (Py.VDict [("type", Py.VStr "subscribe");
                                   ("event_type", Py.VStr event_type)])),
                events_of event_type feed, closed))
        /\ (forall before data after,
              feed = (before ++ inr data :: after)%list ->
              all_objects before ->
              (forall x, handler x = None) ->
              Py.is_dict data = false ->
              snd (fst out) = events_of event_type before
              /\ snd out
                 = Some (Py.mk_exc Py.AttributeError
                           ("'" ++ Py.type_name data
                              ++ "' object has no attribute 'get'")))).
Proof.
intros self event_type handler send feed closed out. subst out.
unfold subscribe. split; [|split].
- now intros ->.
- destruct (_ws self); [|now exists 0%nat].
  destruct (send _); [now exists 0%nat|].
  destruct (receive_prefix event_type handler feed) as (n & Hn).
  exists n. destruct (receive event_type handler feed). exact Hn.
- intros Hws Hsend. destruct (_ws self) as [ws|]; [|congruence].
  rewrite Hsend. split.
  + intros Hall Hh. now rewrite receive_objects.
  + intros before data after -> Hall Hh Hnd.
    assert (Hrec : receive event_type handler (before ++ inr data :: after)
                   = (events_of event_type before,
                      Some (Py.mk_exc Py.AttributeError
                              ("'" ++ Py.type_name data
                                 ++ "' object has no attribute 'get'")))).
    { induction Hall as [|m before (d & ->) _ IH].
      - cbn. destruct data; try reflexivity. discriminate.
      - cbn [app receive events_of flat_map]. fold (events_of event_type before).
        destruct (is_event event_type d).
        + rewrite Hh, IH. reflexivity.
        + exact IH. }
    rewrite Hrec. split; reflexivity.
Qed.

(** A client with a WebSocket, two task events around a log event, then a
    message that is a JSON array. *)
Lemma subscribe_delivers_matching_events_witness :
  let ev (ty : string) (n : Z) :=
    Py.VDict [("event_type", Py.VStr ty); ("seq", Py.VInt n)] in
  let feed := [inr (ev "task" 1); inr (ev "log" 2); inr (ev "task" 3)] in
  subscribe client0 "task" (fun _ => None) (fun _ => None) feed None
  = (Some (Py.json_dumps
             (Py.VDict [("type", Py.VStr "subscribe");
                        ("event_type", Py.VStr "task")])),
     [ev "task" 1; ev "task" 3], None)
  /\ snd (subscribe client0 "task" (fun _ => None) (fun _ => None)
            (feed ++ inr (Py.VList []) :: [inr (ev "task" 4)])%list None)
     = Some (Py.mk_exc Py.AttributeError "'list' object has no attribute 'get'").
Proof.
intros ev feed.
pose proof (subscribe_delivers_matching_events client0 "task" (fun _ => None)
              (fun _ => None) feed None) as (_ & _ & H).
pose proof (subscribe_delivers_matching_events client0 "task" (fun _ => None)
              (fun _ => None) (feed ++ inr (Py.VList []) :: [inr (ev "task" 4)])%list
              None) as (_ & _ & H').
assert (Hall : all_objects feed).
{ repeat constructor; eexists; reflexivity. }
split.
- apply (proj1 (H ltac:(discriminate) (fun _ => eq_refl))); [exact Hall|reflexivity].
- apply (proj2 (H' ltac:(discriminate) (fun _ => eq_refl)) feed (Py.VList [])
           [inr (ev "task" 4)] eq_refl Hall (fun _ => eq_refl) eq_refl).
Defined.

End rpc_sessions.

(* ================================================================== *)
(** * Using the memory store *)
(* ================================================================== *)

Module memory_operations.
Import context_manager PyFacts scenarios context_manager_facts.

#[local] Arguments evict_key : simpl never.

(** X13.  Without FAISS and without a storage path, [store] never raises,
    leaves the working tier, the index and the slot map as they are, and
    binds the key to a fresh entry (no access yet, whatever entry the key had
    before) without touching any other key; [retrieve] of that key then
    returns the value stored and counts one access. *)
Theorem store_then_retrieve :
  forall sha256 norm divide (self : ContextManager) (key : string)
         (v : Py.value) (memory_type : string) (importance : Q)
         (now later : Py.datetime),
    storage_path self = None ->
    let out := store false sha256 norm divide self key v memory_type importance now in
    let entry := mk_MemoryEntry key v memory_type importance 0 now None None [] in
    snd out = None
    /\ Py.get (_long_term (fst out)) key = Some entry
    /\ (forall k', k' <> key ->
          Py.get (_long_term (fst out)) k' = Py.get (_long_term self) k')
    /\ _short_term (fst out) = _short_term self
    /\ same_settings self (fst out)
    /\ fst (retrieve (fst out) key later) = v
    /\ Py.get (_long_term (snd (retrieve (fst out) key later))) key
       = Some (touch entry later).
Proof.
intros sha256 norm divide self key v memory_type importance now later _ out entry.
subst out. unfold store, _compute_embedding. cbn [negb Py.ret].
destruct (_index _) eqn:Hix; cbn [fst snd]; fold entry;
  (split; [reflexivity|]);
  (split; [apply get_set_same|]);
  (split; [intros k' Hk'; now apply get_set_other|]);
  (split; [reflexivity|]);
  (split; [repeat split|]);
  unfold retrieve; cbn [_long_term with_long_term];
  rewrite get_set_same; cbn [fst snd _long_term with_long_term];
  (split; [reflexivity|apply get_set_same]).
Qed.

(** A value stored over an entry that had been read before. *)
Lemma store_then_retrieve_witness :
  fst (retrieve
         (fst (store false stub_sha256 stub_norm stub_divide
                 (snd (retrieve hello_store "a" Py.datetime_min))
                 "a" (Py.VInt 2) "fact" (1 # 2) Py.datetime_min))
         "a" Py.datetime_min)
  = Py.VInt 2.
Proof.
apply (store_then_retrieve stub_sha256 stub_norm stub_divide
         (snd (retrieve hello_store "a" Py.datetime_min))
         "a" (Py.VInt 2) "fact" (1 # 2) Py.datetime_min Py.datetime_min).
reflexivity.
Defined.

(** X14.  Without an index, an entry just stored is found by keyword: for
    every query that occurs, case ignored, in its key or in its serialized
    value, and every limit at least the size of the long-term tier, the
    results of [search] contain the entry with its value, memory type and
    the score 0.5. *)
Theorem stored_entry_is_found :
  forall (faiss : bool) sha256 norm divide index_search (self : ContextManager)
         (key : string) (v : Py.value) (memory_type : string) (importance : Q)
         (now : Py.datetime) (query : string) (limit : Z),
    _index self = None ->
    let self' :=
      fst (store false sha256 norm divide self key v memory_type importance now) in
    icontains query key = true \/ icontains query (Py.json_dumps v) = true ->
    Z.of_nat (List.length (_long_term self')) <= limit ->
    exists results,
      search faiss sha256 norm divide index_search self' query limit
        = Py.ret results
      /\ In (mk_SearchResult key v (1 # 2) memory_type) results.
Proof.
intros faiss sha256 norm divide index_search self key v memory_type importance now
  query limit Hix self' Hmatch Hlimit.
assert (Hself' : self' = with_long_term self
                   (Py.set (_long_term self) key
                      (mk_MemoryEntry key v memory_type importance 0 now None None []))).
{ subst self'. unfold store, _compute_embedding. cbn [negb Py.ret].
  cbn [_index with_long_term]. now rewrite Hix. }
assert (Hix' : _index self' = None) by (rewrite Hself'; exact Hix).
unfold search. rewrite Hix'. eexists. split; [reflexivity|].
rewrite memory_store.keyword_search_spec.
set (found := map keyword_hit _).
assert (Hlen : (List.length found <= List.length (_long_term self'))%nat).
{ subst found. rewrite length_map. unfold Py.values.
  rewrite <- (length_map snd (_long_term self')). apply filter_length_le. }
unfold Py.slice_to. destruct (Z.ltb_spec limit 0); [lia|].
rewrite firstn_all2 by lia.
subst found.
change (mk_SearchResult key v (1 # 2) memory_type)
  with (keyword_hit (mk_MemoryEntry key v memory_type importance 0 now None None [])).
apply in_map, filter_In. split.
- unfold Py.values.
  change (mk_MemoryEntry key v memory_type importance 0 now None None [])
    with (snd (key, mk_MemoryEntry key v memory_type importance 0 now None None [])).
  apply in_map. apply get_In. rewrite Hself'. cbn [_long_term with_long_term].
  apply get_set_same.
- unfold matches. cbn [value context_manager.key].
  destruct Hmatch as [-> | ->]; [apply orb_true_r|reflexivity].
Qed.

(** The entry [{key: a, value: hello world}] stored in an empty store and
    looked for by a fragment of its value in capitals. *)
Lemma stored_entry_is_found_witness :
  exists results,
    search false stub_sha256 stub_norm stub_divide stub_index_search hello_store
      "WORLD" 10 = Py.ret results
    /\ In (mk_SearchResult "a" (Py.VStr "hello world") (1 # 2) "fact") results.
Proof.
apply (stored_entry_is_found false stub_sha256 stub_norm stub_divide
         stub_index_search (__init__ false 384 100 10000 None) "a"
         (Py.VStr "hello world") "fact" (1 # 2) Py.datetime_min "WORLD" 10).
- reflexivity.
- right. reflexivity.
- vm_compute. discriminate.
Defined.

(** X15.  While the working tier stays within [max_short_term],
    [set_working] binds the key to a fresh entry and leaves every other key
    as it was, and [get_working] of that key returns the value just set and
    counts its first access. *)
Theorem set_working_then_get_working :
  forall (self : ContextManager) (key : string) (v : Py.value)
         (now later : Py.datetime),
    let st := Py.set (_short_term self) key (working_entry key v now) in
    Z.of_nat (List.length st) <= max_short_term self ->
    let self' := set_working self key v now in
    _short_term self' = st
    /\ (forall k', k' <> key ->
          Py.get (_short_term self') k' = Py.get (_short_term self) k')
    /\ fst (get_working self' key later) = v
    /\ Py.get (_short_term (snd (get_working self' key later))) key
       = Some (touch (working_entry key v now) later).
Proof.
intros self key v now later st Hlen self'.
assert (Hself' : self' = with_short_term self st).
{ subst self'. rewrite set_working_unfold. cbv zeta. fold st.
  cbn [_short_term with_short_term].
  destruct (Z.gtb_spec (Z.of_nat (List.length st)) (max_short_term self));
    [lia|reflexivity]. }
rewrite Hself'. cbn [_short_term with_short_term].
split; [reflexivity|]. split.
- intros k' Hk'. subst st. now apply get_set_other.
- unfold get_working. cbn [_short_term with_short_term].
  subst st. rewrite get_set_same. cbn [fst snd _short_term with_short_term].
  split; [reflexivity|apply get_set_same].
Qed.

(** One key set in an empty store with the default capacity. *)
Lemma set_working_then_get_working_witness :
  fst (get_working
         (set_working (__init__ false 384 100 10000 None) "a" (Py.VInt 1)
            Py.datetime_min)
         "a" Py.datetime_min)
  = Py.VInt 1.
Proof.
apply (set_working_then_get_working (__init__ false 384 100 10000 None) "a"
         (Py.VInt 1) Py.datetime_min Py.datetime_min).
vm_compute. discriminate.
Defined.

(** A new item that ranks strictly before every item of the list comes first
    when it is appended and the list sorted. *)
Lemma sorted_app_min x l :
  (forall y, In y l -> Py.tuple_ltb (evict_key x) (evict_key y) = true) ->
  sorted (l ++ [x]) = x :: sorted l.
Proof.
unfold sorted.
induction l as [|y l IH]; intros H; cbn [app fold_right]; [reflexivity|].
rewrite IH by (intros z Hz; apply H; now right).
cbn [insert_sorted]. rewrite (H y) by now left. reflexivity.
Qed.

Lemma NoDup_keys_functional {V} (d : Py.dict V) k a b :
  NoDup (Py.keys d) -> In (k, a) d -> In (k, b) d -> a = b.
Proof.
unfold Py.keys.
induction d as [|[k' v'] d IH]; cbn [map fst]; intros Hnd Ha Hb; [easy|].
inversion Hnd as [|? ? Hnin Hnd']; subst.
destruct Ha as [Ha|Ha], Hb as [Hb|Hb].
- congruence.
- inversion Ha; subst. exfalso. apply Hnin.
  change k with (fst (k, b)). now apply in_map.
- inversion Hb; subst. exfalso. apply Hnin.
  change k with (fst (k, a)). now apply in_map.
- now apply IH.
Qed.

(** X16.  A key that is new to a full working tier is evicted by the very
    call that sets it: when every entry already there has been read at least
    once, the tier with the new entry is over [max_short_term] and holds at
    least ten entries, [set_working] leaves the tier without the key, and
    [get_working] of it returns [None]. *)
Theorem new_key_is_evicted_at_once :
  forall (self : ContextManager) (key : string) (v : Py.value)
         (now later : Py.datetime),
    NoDup (Py.keys (_short_term self)) ->
    Py.get (_short_term self) key = None ->
    (forall kv, In kv (_short_term self) -> 1 <= access_count (snd kv)) ->
    max_short_term self < Z.of_nat (S (List.length (_short_term self))) ->
    (10 <= S (List.length (_short_term self)))%nat ->
    let self' := set_working self key v now in
    Py.get (_short_term self') key = None
    /\ get_working self' key later = (Py.VNone, self').
Proof.
intros self key v now later Hnd Hnew Hread Hfull Hten self'.
assert (Hget : Py.get (_short_term self') key = None).
{ subst self'. rewrite set_working_unfold. cbv zeta.
  set (self1 := with_short_term self _).
  assert (Hst : _short_term self1
                = (_short_term self ++ [(key, working_entry key v now)])%list)
    by (unfold self1; cbn [_short_term with_short_term]; now apply set_absent).
  assert (Hlen : List.length (_short_term self1) = S (List.length (_short_term self)))
    by (rewrite Hst, length_app; cbn [List.length]; lia).
  destruct (Z.gtb_spec (Z.of_nat (List.length (_short_term self1)))
              (max_short_term self)); [|lia].
  assert (Hnd1 : NoDup (Py.keys (_short_term self1)))
    by (unfold self1; cbn [_short_term with_short_term]; now apply NoDup_keys_set).
  destruct (evict_short_term_spec self1 Hnd1) as [Heq _]. cbv zeta in Heq.
  rewrite Heq. clear Heq.
  apply get_None_keys. unfold Py.keys. rewrite in_map_iff.
  intros ([k' e'] & Hk & Hin). cbn [fst] in Hk. subst k'.
  apply filter_In in Hin as [_ Hkeep].
  assert (Hhead : key_in
                    (Py.keys (firstn (List.length (_short_term self1) / 10)
                                (sorted (_short_term self1))))
                    (key, e') = true).
  { rewrite Hst at 2. rewrite sorted_app_min.
    - rewrite Hlen.
      destruct (S (List.length (_short_term self)) / 10)%nat as [|m] eqn:Hm.
      + apply Nat.div_small_iff in Hm; lia.
      + cbn [firstn Py.keys map fst key_in existsb].
        unfold key_in. cbn [existsb map fst firstn].
        now rewrite String.eqb_refl.
    - intros y Hy. unfold evict_key. cbn [snd working_entry access_count last_accessed
        Py.tuple_ltb].
      specialize (Hread y Hy).
      destruct (Z.ltb_spec 0 (access_count (snd y))); [reflexivity|lia]. }
  unfold Py.keys in Hhead. rewrite Hhead in Hkeep. discriminate. }
split; [exact Hget|].
unfold get_working. now rewrite Hget.
Qed.

(** Ten keys read once each in a tier of capacity 10, then an eleventh. *)
Lemma new_key_is_evicted_at_once_witness :
  let self :=
    with_short_term (__init__ false 384 10 10000 None)
      (map (fun i => (k i, touch (working_entry (k i) Py.VNone Py.datetime_min)
                             Py.datetime_min))
         (seq 0 10)) in
  Py.get (_short_term (set_working self "new" Py.VNone Py.datetime_min)) "new"
  = None.
Proof.
intros self.
refine (proj1 (new_key_is_evicted_at_once self "new" Py.VNone Py.datetime_min
                 Py.datetime_min _ _ _ _ _)).
- vm_compute. repeat constructor; cbn; intuition discriminate.
- reflexivity.
- intros kv Hkv. vm_compute in Hkv.
  repeat (destruct Hkv as [<-|Hkv]; [vm_compute; discriminate|]).
  destruct Hkv.
- vm_compute. reflexivity.
- vm_compute. lia.
Defined.

(** X17.  [_evict_short_term] removes the least used entries: over distinct
    keys, every entry it removes ranks no later than every entry it keeps in
    the order (access count, last access), so no removed entry has been read
    more often than a kept one. *)
Theorem eviction_removes_the_least_used :
  forall (self : ContextManager) (x y : string * MemoryEntry),
    NoDup (Py.keys (_short_term self)) ->
    In x (_short_term self) ->
    ~ In x (_short_term (_evict_short_term self)) ->
    In y (_short_term (_evict_short_term self)) ->
    rank_le x y /\ access_count (snd x) <= access_count (snd y).
Proof.
intros self x y Hnd Hx Hgone Hy.
destruct (evict_short_term_spec self Hnd) as [Heq Hperm]. cbv zeta in Heq, Hperm.
set (st := _short_term self) in *.
set (m := (List.length st / 10)%nat) in *.
assert (Hxe : In x (firstn m (sorted st))).
{ rewrite Heq in Hgone.
  destruct (key_in (Py.keys (firstn m (sorted st))) x) eqn:E.
  - apply existsb_exists in E as (k' & Hk' & Heqb).
    apply String.eqb_eq in Heqb. subst k'.
    unfold Py.keys in Hk'. apply in_map_iff in Hk' as ([k' e'] & Hfst & Hin).
    cbn [fst] in Hfst. subst k'.
    assert (Hin' : In (fst x, e') st)
      by (apply (Permutation_in _ (sorted_perm st)); now apply In_firstn in Hin).
    destruct x as [kx ex]. cbn [fst] in *.
    now rewrite (NoDup_keys_functional st kx ex e' Hnd Hx Hin').
  - exfalso. apply Hgone. apply filter_In. split; [exact Hx|]. now rewrite E. }
assert (Hyk : In y (skipn m (sorted st)))
  by (apply (Permutation_in _ Hperm); exact Hy).
assert (Hrank : rank_le x y).
{ apply (StronglySorted_app_le rank_le (firstn m (sorted st)) (skipn m (sorted st)));
    [rewrite firstn_skipn; apply sorted_sorted|assumption|assumption]. }
split; [exact Hrank|].
unfold rank_le, Py.tuple_le, evict_key in Hrank. cbn [Py.tuple_ltb] in Hrank.
apply orb_false_iff in Hrank as [Hlt _].
apply Z.ltb_ge in Hlt. exact Hlt.
Qed.

(** Ten entries of which only the first was never read: it is the one
    removed. *)
Lemma eviction_removes_the_least_used_witness :
  let self :=
    with_short_term (__init__ false 384 9 10000 None)
      ((k 0, working_entry (k 0) Py.VNone Py.datetime_min)
       :: map (fun i => (k i, touch (working_entry (k i) Py.VNone Py.datetime_min)
                               Py.datetime_min))
            (seq 1 9)) in
  access_count (working_entry (k 0) Py.VNone Py.datetime_min)
  <= access_count (touch (working_entry (k 1) Py.VNone Py.datetime_min)
                     Py.datetime_min).
Proof.
intros self.
refine (proj2 (eviction_removes_the_least_used self
                 (k 0, working_entry (k 0) Py.VNone Py.datetime_min)
                 (k 1, touch (working_entry (k 1) Py.VNone Py.datetime_min)
                         Py.datetime_min) _ _ _ _)).
- vm_compute. repeat constructor; cbn; intuition discriminate.
- left. reflexivity.
- vm_compute. intuition discriminate.
- vm_compute. left. reflexivity.
Defined.

Lemma id_get_set_same m i key : id_get (id_set m i key) i = Some key.
Proof.
induction m as [|[j k'] m IH]; cbn [id_set id_get].
- now rewrite Z.eqb_refl.
- destruct (Z.eqb_spec j i) as [->|Hne]; cbn [id_get].
  + now rewrite Z.eqb_refl.
  + destruct (Z.eqb_spec j i); [contradiction|exact IH].
Qed.

(** With FAISS, an embedding has [min(embedding_dim, 8)] components. *)
Lemma compute_embedding_min sha256 norm divide (self : ContextManager)
    (text : string) :
  0 <= embedding_dim self ->
  exists emb,
    _compute_embedding true sha256 norm divide self text = Py.ret (Some emb)
    /\ Z.of_nat (List.length emb) = Z.min (embedding_dim self) 8.
Proof.
intros Hdim. unfold _compute_embedding. cbn [negb].
pose proof (digest_size (sha256 (Py.encode text))) as Hsz.
set (n := Z.to_nat (Z.min (embedding_dim self) 8)).
assert (Hlen : List.length
                 (Py.slice_to (digest_bytes (sha256 (Py.encode text)))
                    (embedding_dim self * 4)) = (4 * n)%nat).
{ unfold Py.slice_to. destruct (Z.ltb_spec (embedding_dim self * 4) 0); [lia|].
  rewrite length_firstn, Hsz. subst n. lia. }
destruct (memory_store.frombuffer_length n _ Hlen) as (emb & Hv & Hn).
rewrite Hv. cbn [Py.bind Py.ret].
eexists. split; [reflexivity|]. rewrite length_map, Hn. subst n. lia.
Qed.

(** X18.  With FAISS and an index of dimension [embedding_dim] between 1 and
    8, [store] succeeds: the embedding has [embedding_dim] components, the
    index gains exactly that vector, and the slot [len(_id_to_key)] is bound
    to the key.  This happens on every call, also when the key was stored
    before: the index then grows while the long-term tier keeps its size. *)
Theorem store_indexes_small_embeddings :
  forall sha256 norm divide (self : ContextManager) (ix : IndexFlatIP)
         (key : string) (v : Py.value) (memory_type : string) (importance : Q)
         (now : Py.datetime),
    _index self = Some ix ->
    d ix = embedding_dim self ->
    1 <= embedding_dim self <= 8 ->
    storage_path self = None ->
    let out := store true sha256 norm divide self key v memory_type importance now in
    exists emb,
      snd out = None
      /\ Z.of_nat (List.length emb) = embedding_dim self
      /\ _index (fst out)
         = Some (mk_IndexFlatIP (d ix) (vectors ix ++ [emb])%list)
      /\ id_get (_id_to_key (fst out)) (Z.of_nat (List.length (_id_to_key self)))
         = Some key
      /\ Py.get (_long_term (fst out)) key
         = Some (mk_MemoryEntry key v memory_type importance 0 now None (Some emb) [])
      /\ (forall e, Py.get (_long_term self) key = Some e ->
            List.length (_long_term (fst out)) = List.length (_long_term self)).
Proof.
intros sha256 norm divide self ix key v memory_type importance now Hix Hd Hdim _ out.
destruct (compute_embedding_min sha256 norm divide self
            (match v with Py.VStr s => s | _ => Py.json_dumps v end))
  as (emb & Hemb & Hlen); [lia|].
assert (Hn : Z.of_nat (List.length emb) = embedding_dim self) by lia.
exists emb. subst out. unfold store. cbv zeta. rewrite Hemb. unfold Py.ret.
cbn [_index with_long_term]. rewrite Hix.
unfold index_add. rewrite Hd, Hn, Z.eqb_refl. unfold Py.ret.
cbn [fst snd _index _id_to_key _long_term with_index with_long_term].
split; [reflexivity|]. split; [reflexivity|]. split; [reflexivity|].
split; [apply id_get_set_same|]. split; [apply get_set_same|].
intros e He. rewrite length_set, He. reflexivity.
Qed.

(** A store of dimension 8 and its first entry. *)
Lemma store_indexes_small_embeddings_witness :
  exists emb,
    _index (fst (store true stub_sha256 stub_norm stub_divide
                   (__init__ true 8 100 10000 None)
                   "a" (Py.VStr "hello world") "fact" (1 # 2) Py.datetime_min))
    = Some (mk_IndexFlatIP 8 [emb]).
Proof.
destruct (store_indexes_small_embeddings stub_sha256 stub_norm stub_divide
            (__init__ true 8 100 10000 None) (mk_IndexFlatIP 8 [])
            "a" (Py.VStr "hello world") "fact" (1 # 2) Py.datetime_min
            eq_refl eq_refl ltac:(cbn; lia) eq_refl)
  as (emb & _ & _ & Hix & _).
exists emb. exact Hix.
Defined.

End memory_operations.

(* ================================================================== *)
(** * Using the tool gateway *)
(* ================================================================== *)

Module tool_operations.
Import tool_adapter PyFacts scenarios.

Lemma default_git which :
  Py.get (_register_default_tools which) "git"
  = Some (mk_ToolInfo "git" GIT "Version control").
Proof.
unfold _register_default_tools. cbv zeta.
destruct (truthy (which_or _ _)), (truthy (which "node")), (truthy (which "cargo"));
  reflexivity.
Qed.

Lemma default_tools_NoDup which : NoDup (Py.keys (_register_default_tools which)).
Proof.
unfold _register_default_tools. cbv zeta.
destruct (truthy (which_or _ _)), (truthy (which "node")), (truthy (which "cargo"));
  repeat apply NoDup_keys_set; constructor.
Qed.

Lemma register_tool_keeps self name exe ty desc tool :
  Py.get (_tools self) tool <> None ->
  Py.get (_tools (register_tool self name exe ty desc)) tool <> None.
Proof.
intros H. unfold register_tool. cbn [_tools].
destruct (String.eqb_spec name tool) as [->|Hne].
- now rewrite get_set_same.
- now rewrite get_set_other.
Qed.

Lemma register_all_keeps regs : forall self tool,
  Py.get (_tools self) tool <> None ->
  Py.get (_tools (register_all self regs)) tool <> None.
Proof.
induction regs as [|r regs IH]; intros self tool H; [exact H|].
apply IH. now apply register_tool_keeps.
Qed.

Lemma register_all_NoDup regs : forall self,
  NoDup (Py.keys (_tools self)) ->
  NoDup (Py.keys (_tools (register_all self regs))).
Proof.
induction regs as [|r regs IH]; intros self H; [exact H|].
apply IH. unfold register_tool. cbn [_tools]. now apply NoDup_keys_set.
Qed.

Lemma head_set {V} (d : Py.dict V) k v g :
  hd_error (Py.keys d) = Some g -> hd_error (Py.keys (Py.set d k v)) = Some g.
Proof.
destruct d as [|[k' v'] d]; [discriminate|].
cbn [Py.set]. destruct (String.eqb k' k); exact (fun H => H).
Qed.

Lemma register_all_head regs : forall self g,
  hd_error (Py.keys (_tools self)) = Some g ->
  hd_error (Py.keys (_tools (register_all self regs))) = Some g.
Proof.
induction regs as [|r regs IH]; intros self g H; [exact H|].
apply IH. unfold register_tool. cbn [_tools]. now apply head_set.
Qed.

Lemma default_tools_head which :
  hd_error (Py.keys (_register_default_tools which)) = Some "git".
Proof.
unfold _register_default_tools. cbv zeta.
destruct (truthy (which_or _ _)), (truthy (which "node")), (truthy (which "cargo"));
  reflexivity.
Qed.

(** A registered tool whose launch is not cancelled gives a result. *)
Lemma execute_returns self tool tool_info args input_data cwd timeout
    capture_output environ start_time run :
  Py.get (_tools self) tool = Some tool_info ->
  not_cancelled run ->
  exists r,
    execute self tool args input_data cwd timeout capture_output environ
      start_time run = Py.ret r.
Proof.
intros Hget Hrun. unfold execute. rewrite Hget.
destruct (run _) as [rc out err t_end|e t_end] eqn:E; [eexists; reflexivity|].
destruct (Py.is_TimeoutError e); [eexists; reflexivity|].
rewrite (Hrun _ _ _ E). eexists; reflexivity.
Qed.

(** X19.  No operation of the adapter removes a tool, and [git] is
    registered by the constructor whatever is installed: on an adapter that
    was created and then extended by any registrations, [git_status] and
    [git_diff] never raise the unknown-tool error, and return a result
    whenever the launch is not cancelled. *)
Theorem git_is_always_registered :
  forall (which : string -> option string) (cwd : string)
         (working_dir : option string) (timeout_seconds : Z)
         (env : option (Py.dict string))
         (regs : list (string * string * ToolType * string))
         (repo_path : string) (staged : bool) (environ : Py.dict string)
         (start_time : Q) (run : command -> outcome),
    not_cancelled run ->
    let self := register_all (__init__ which cwd working_dir timeout_seconds env) regs in
    Py.get (_tools self) "git" <> None
    /\ (exists r, git_status self repo_path environ start_time run = Py.ret r)
    /\ (exists r, git_diff self repo_path staged environ start_time run = Py.ret r).
Proof.
intros which cwd working_dir timeout_seconds env regs repo_path staged environ
  start_time run Hrun self.
assert (Hgit : Py.get (_tools self) "git" <> None).
{ apply register_all_keeps. cbn [__init__ _tools]. now rewrite default_git. }
split; [exact Hgit|].
destruct (Py.get (_tools self) "git") as [info|] eqn:E; [|contradiction].
split; [unfold git_status|unfold git_diff]; now apply (execute_returns _ _ info).
Qed.

(** A machine with nothing installed, after one registration that replaces
    [git] itself. *)
Lemma git_is_always_registered_witness :
  exists r,
    git_status (register_all adapter0 [("git", "/opt/git", CUSTOM, "")])
      "/repo" [] 10 never_starts = Py.ret r.
Proof.
refine (proj1 (proj2 (git_is_always_registered (fun _ => None) "/work" None 300
                        None [("git", "/opt/git", CUSTOM, "")] "/repo" false []
                        10%Q never_starts _))).
intros c e t_end [= <- _]. reflexivity.
Defined.

(** X20.  [list_tools] lists every tool once, and [git] first: the names of
    an adapter that was created and then extended by any registrations are
    distinct and begin with [git]. *)
Theorem list_tools_names_are_distinct :
  forall (which : string -> option string) (cwd : string)
         (working_dir : option string) (timeout_seconds : Z)
         (env : option (Py.dict string))
         (regs : list (string * string * ToolType * string)),
    let self := register_all (__init__ which cwd working_dir timeout_seconds env) regs in
    NoDup (map fst (list_tools self))
    /\ hd_error (map fst (list_tools self)) = Some "git".
Proof.
intros which cwd working_dir timeout_seconds env regs self. split.
- apply (register_all_NoDup regs). cbn [__init__ _tools]. apply default_tools_NoDup.
- apply (register_all_head regs). cbn [__init__ _tools]. apply default_tools_head.
Qed.

(** X21.  [execute] of a tool just registered launches its executable
    followed by the arguments, in the directory given or else in
    [working_dir], under the timeout given or else [timeout_seconds] (also
    when 0 is given), and nothing but the outcome of that launch decides the
    result; in the environment of the process, every variable of the
    adapter's [env] has the adapter's value and every other variable the
    value of [os.environ]. *)
Theorem execute_launches_the_registered_executable :
  forall (self : ToolAdapter) (name exe : string) (ty : ToolType) (desc : string)
         (args : option (list string)) (input_data cwd : option string)
         (timeout : option Z) (capture_output : bool)
         (environ : Py.dict string) (start_time : Q),
    NoDup (Py.keys (env self)) ->
    let self' := register_tool self name exe ty desc in
    let c :=
      build_command self' (mk_ToolInfo exe ty desc) args input_data cwd timeout
        capture_output environ in
    (forall run run', run c = run' c ->
       execute self' name args input_data cwd timeout capture_output environ
         start_time run
       = execute self' name args input_data cwd timeout capture_output environ
           start_time run')
    /\ cmd c = (exe :: match args with Some a => a | None => [] end)
    /\ cmd_cwd c = match cwd with Some d => d | None => working_dir self end
    /\ deadline c
       = match timeout with
         | Some t => if t =? 0 then timeout_seconds self else t
         | None => timeout_seconds self
         end
    /\ (forall k,
          Py.get (cmd_env c) k
          = match Py.get (env self) k with
            | Some v => Some v
            | None => Py.get environ k
            end).
Proof.
intros self name exe ty desc args input_data cwd timeout capture_output environ
  start_time Hnd self' c.
split; [|split; [|split; [|split]]].
- intros run run' Hrun. unfold execute. subst self'. cbn [register_tool _tools].
  rewrite get_set_same. fold (register_tool self name exe ty desc). fold c.
  now rewrite Hrun.
- reflexivity.
- reflexivity.
- subst c. cbn [build_command deadline]. unfold effective_timeout.
  destruct timeout as [[| |]|]; reflexivity.
- intros k. subst c. cbn [build_command cmd_env]. unfold build_env.
  subst self'. cbn [register_tool tool_adapter.env].
  now apply agent_operations.get_update.
Qed.

(** A tool registered on an adapter that sets [LANG], run in a process
    environment that has [LANG] and [HOME]. *)
Lemma execute_launches_the_registered_executable_witness :
  let self := __init__ (fun _ => None) "/work" None 300 (Some [("LANG", "C")]) in
  let c :=
    build_command (register_tool self "make" "/usr/bin/make" CUSTOM "")
      (mk_ToolInfo "/usr/bin/make" CUSTOM "") (Some ["all"]) None None (Some 0)
      true [("LANG", "en_US"); ("HOME", "/root")] in
  cmd c = ["/usr/bin/make"; "all"] /\ deadline c = 300.
Proof.
intros self c.
destruct (execute_launches_the_registered_executable self "make" "/usr/bin/make"
            CUSTOM "" (Some ["all"]) None None (Some 0) true
            [("LANG", "en_US"); ("HOME", "/root")] 0%Q
            ltac:(repeat constructor; cbn; intuition discriminate))
  as (_ & Hcmd & _ & Hdeadline & _).
split; [exact Hcmd|exact Hdeadline].
Defined.

(** X22.  The Python tools stand or fall with the interpreter: on a new
    adapter, when neither [python] nor [python3] is found, [run_tests],
    [run_linter] and [run_formatter] raise the unknown-tool error without
    launching anything, also when pytest, ruff, mypy or black is installed;
    when an interpreter is found, the four tools are registered, each with
    the path found for it or else its bare name. *)
Theorem python_tools_need_an_interpreter :
  forall (which : string -> option string) (cwd : string)
         (working_dir : option string) (timeout_seconds : Z)
         (env : option (Py.dict string)),
    let self := __init__ which cwd working_dir timeout_seconds env in
    let python := truthy (which "python") || truthy (which "python3") in
    (python = false ->
     forall path extra_args flag environ start_time run,
       run_tests self path "pytest" extra_args environ start_time run
         = Py.raise Py.ValueError "Unknown tool: pytest"
       /\ run_linter self path "ruff" flag environ start_time run
          = Py.raise Py.ValueError "Unknown tool: ruff"
       /\ run_linter self path "mypy" flag environ start_time run
          = Py.raise Py.ValueError "Unknown tool: mypy"
       /\ run_formatter self path "black" flag environ start_time run
          = Py.raise Py.ValueError "Unknown tool: black")
    /\ (python = true ->
        Py.get (_tools self) "pytest"
          = Some (mk_ToolInfo (or_else (which "pytest") "pytest") TEST_RUNNER
                    "Python test runner")
        /\ Py.get (_tools self) "ruff"
           = Some (mk_ToolInfo (or_else (which "ruff") "ruff") LINTER
                     "Python linter")
        /\ Py.get (_tools self) "mypy"
           = Some (mk_ToolInfo (or_else (which "mypy") "mypy") LINTER
                     "Python type checker")
        /\ Py.get (_tools self) "black"
           = Some (mk_ToolInfo (or_else (which "black") "black") FORMATTER
                     "Python code formatter")).
Proof.
intros which cwd working_dir timeout_seconds env self python.
assert (Hpy : truthy (which_or (which "python") (which "python3")) = python).
{ subst python. unfold which_or, truthy.
  destruct (which "python") as [[|? ?]|]; destruct (which "python3") as [[|? ?]|];
    reflexivity. }
split; intros Hp; rewrite Hp in Hpy.
- assert (Hnone : forall tool,
            In tool ["pytest"; "ruff"; "mypy"; "black"] ->
            Py.get (_tools self) tool = None).
  { intros tool Htool. subst self. cbn [__init__ _tools].
    unfold _register_default_tools. cbv zeta. rewrite Hpy.
    destruct (truthy (which "node")), (truthy (which "cargo"));
      repeat (destruct Htool as [<-|Htool]; [reflexivity|]); destruct Htool. }
  intros path extra_args flag environ start_time run.
  unfold run_tests, run_linter, run_formatter, execute. cbn [String.eqb Ascii.eqb
    Bool.eqb].
  rewrite !Hnone by (cbn; auto). auto.
- subst self. cbn [__init__ _tools].
  unfold _register_default_tools. cbv zeta. rewrite Hpy.
  destruct (truthy (which "node")), (truthy (which "cargo"));
    repeat split; reflexivity.
Qed.

(** pytest installed, no interpreter: [run_tests] raises. *)
Lemma python_tools_need_an_interpreter_witness :
  run_tests (__init__ only_pytest "/work" None 300 None) "tests" "pytest" None []
    10 never_starts
  = Py.raise Py.ValueError "Unknown tool: pytest".
Proof.
refine (proj1 (proj1 (python_tools_need_an_interpreter only_pytest "/work" None
                        300 None) eq_refl "tests" None false [] 10%Q never_starts)).
Defined.

(** X23.  [git_commit] with [add_all] does not look at what [git add] came
    to: when [git] is registered and the launch of [git add] is not
    cancelled, the commit is launched and its outcome returned exactly as
    without [add_all], whether [git add] exited with an error, ran out of
    time or could not be started. *)
Theorem git_commit_ignores_the_outcome_of_add :
  forall (self : ToolAdapter) (tool_info : ToolInfo) (repo_path message : string)
         (environ : Py.dict string) (t_add t_commit : Q)
         (run_add run_commit : command -> outcome),
    Py.get (_tools self) "git" = Some tool_info ->
    not_cancelled run_add ->
    git_commit self repo_path message true environ t_add t_commit run_add run_commit
    = execute self "git" (Some ["commit"; "-m"; message]) None (Some repo_path)
        None true environ t_commit run_commit.
Proof.
intros self tool_info repo_path message environ t_add t_commit run_add run_commit
  Hgit Hrun.
unfold git_commit.
destruct (execute_returns self "git" tool_info (Some ["add"; "-A"]) None
            (Some repo_path) None true environ t_add run_add Hgit Hrun)
  as (r & Hr).
rewrite Hr. reflexivity.
Qed.

(** [git add] cannot be started; the commit is attempted all the same. *)
Lemma git_commit_ignores_the_outcome_of_add_witness :
  git_commit adapter0 "/repo" "msg" true [] 10 20 never_starts always_late
  = execute adapter0 "git" (Some ["commit"; "-m"; "msg"]) None (Some "/repo")
      None true [] 20 always_late.
Proof.
apply (git_commit_ignores_the_outcome_of_add adapter0
         (mk_ToolInfo "git" GIT "Version control") "/repo" "msg" [] 10%Q 20%Q
         never_starts always_late).
- reflexivity.
- intros c e t_end [= <- _]. reflexivity.
Defined.

End tool_operations.

(* ================================================================== *)
(** * The working context of a session *)
(* ================================================================== *)

Module working_context.
Import context_manager scenarios.

Lemma apply_op_session self s op :
  _working_context self = context_of s ->
  exists self',
    apply_op self op = Some self'
    /\ _working_context self' = context_of (session_step s op)
    /\ _short_term self' = _short_term self
    /\ _long_term self' = _long_term self
    /\ same_settings_but_context self self'.
Proof.
intros Hwc.
destruct op as [i|t|p c d now|d r now|]; cbn [apply_op];
  unfold set_session, set_current_task, record_file_change, record_decision,
    clear_working_context;
  rewrite ?Hwc; cbn [context_of Py.get Py.set String.eqb Ascii.eqb Bool.eqb];
  (eexists; split; [reflexivity|]);
  (split; [reflexivity|]); repeat split.
Qed.

(** X24.  Starting from a cleared working context, the operations on it
    never raise, each writes its own component only, and none touches the
    two memory tiers, the index or the settings: after any sequence of
    calls the context holds the last session id and task, the last change
    recorded for each path and the decisions in the order they were taken,
    all counted from the last [clear_working_context]. *)
Theorem working_context_tracks_the_session :
  forall (self : ContextManager) (ops : list context_op),
    _working_context self = empty_working_context ->
    exists self',
      apply_ops self ops = Some self'
      /\ get_working_context self'
         = context_of (fold_left session_step ops new_session)
      /\ _short_term self' = _short_term self
      /\ _long_term self' = _long_term self
      /\ same_settings_but_context self self'.
Proof.
intros self ops Hwc.
change empty_working_context with (context_of new_session) in Hwc.
revert self Hwc. generalize new_session as s.
induction ops as [|op ops IH]; intros s self Hwc.
- exists self. cbn [apply_ops fold_left]. repeat split; assumption.
- destruct (apply_op_session self s op Hwc)
    as (self1 & Hop & Hwc1 & Hst & Hlt & Hset).
  destruct (IH _ self1 Hwc1) as (self' & Hops & Hwc' & Hst' & Hlt' & Hset').
  exists self'. cbn [apply_ops fold_left]. rewrite Hop.
  split; [exact Hops|]. split; [exact Hwc'|].
  split; [congruence|]. split; [congruence|].
  unfold same_settings_but_context in *. intuition congruence.
Qed.

(** A new store: one decision, a change, a second change to the same path. *)
Lemma working_context_tracks_the_session_witness :
  exists self',
    apply_ops (__init__ false 384 100 10000 None)
      [op_record_decision "use sqlite" "small" Py.datetime_min;
       op_record_file_change "a.py" "modified" "+1" Py.datetime_min;
       op_record_file_change "a.py" "deleted" "-1" Py.datetime_min]
    = Some self'
    /\ Py.get (get_working_context self') "file_changes"
       = Some (Py.VDict
                 [("a.py",
                   Py.VDict [("type", Py.VStr "deleted"); ("diff", Py.VStr "-1");
                             ("timestamp", Py.VStr "0001-01-01T00:00:00")])]).
Proof.
destruct (working_context_tracks_the_session (__init__ false 384 100 10000 None)
            [op_record_decision "use sqlite" "small" Py.datetime_min;
             op_record_file_change "a.py" "modified" "+1" Py.datetime_min;
             op_record_file_change "a.py" "deleted" "-1" Py.datetime_min]
            eq_refl)
  as (self' & Hops & Hwc & _).
exists self'. split; [exact Hops|]. rewrite Hwc. reflexivity.
Defined.

End working_context.
